(** * ExternalFlash: the paged, asynchronous external-flash driver

    A shallow embedding of [ExternalFlashBackup.c].  The driver keeps a table
    of instances ([ExternalFlash_Instance_Store]) and one timeout handle; it
    talks to a bus transport, a digital I/O block, the system timers and a
    callback registry, none of which is part of the file.  Every call to one
    of these collaborators is recorded in a trace, and the value it returns
    is chosen by an oracle that sees the trace so far, so every statement
    below holds for every behaviour of the collaborators. *)

From Stdlib Require Import ZArith List Lia Bool.
From stdpp Require Import base option list.
Import ListNotations.

Local Open Scope Z_scope.

(** ** Integer types of the source *)

Definition uint8 (x : Z) : Z := x mod 2 ^ 8.
Definition uint16 (x : Z) : Z := x mod 2 ^ 16.
Definition uint32 (x : Z) : Z := x mod 2 ^ 32.

(** ** Constants defined in the source file *)

Definition EXTERNAL_FLASH_PAGE_SIZE : Z := 256.
Definition EXTERNAL_FLASH_PAGE_NUMBER : Z := 1024.
Definition EXTERNAL_FLASH_PAGE_ADDRESS_BYTE : nat := 2.
Definition EXTERNAL_FLASH_PAGE_BYTE_ADDRESS_BYTE : nat := 1.
Definition EXTERNAL_FLASH_ADDRESS_SIZE_BYTES : nat := 3.
Definition EXTERNAL_FLASH_READ_DUMMY_BYES : nat := 1.
Definition EXTERNAL_FLASH_WRITE_DUMMY_BYTES : nat := 0.
Definition EXTERNAL_FLASH_CMD_WRITE_MEMORY : Z := 0x58.
Definition EXTERNAL_FLASH_CMD_READ_MEMORY : Z := 0xd2.
Definition EXTERNAL_FLASH_WAIT_TIMEOUT_MS : Z := 50.

(** ** Constants and macros of headers that are not part of the file *)

(** Modelled from the spec: [INVALID_VALUE_8] comes from a header that is
    not available; it is the "invalid sentinel" of the spec for 8-bit
    handles and ids, the all-ones byte. *)
Definition INVALID_VALUE_8 : Z := 0xFF.

(** Modelled from the spec: [TRUE] and [FALSE] of [BOOL_TYPE], as the values
    a collaborator returns. *)
Definition TRUE : Z := 1.
Definition FALSE : Z := 0.

(** Modelled from the spec: the null pointer; pointers are addresses. *)
Definition NULL : Z := 0.

(** Modelled from the spec: the [MIN] macro of [Utilities.h], the smaller of
    its two arguments. *)
Definition MIN (a b : Z) : Z := if a <? b then a else b.

(** Modelled from the spec: [HIBYTE] and [LOBYTE] take the two bytes of a
    16-bit event value, and [COMBINE_BYTES] packs two bytes into one
    ("a packed value combining the process marker with the byte count"). *)
Definition HIBYTE (v : Z) : Z := Z.land (Z.shiftr v 8) 0xFF.
Definition LOBYTE (v : Z) : Z := Z.land v 0xFF.
Definition COMBINE_BYTES (hi lo : Z) : Z :=
  Z.lor (Z.shiftl (Z.land hi 0xFF) 8) (Z.land lo 0xFF).

(** ** Enumerations *)

Inductive EXTERNAL_FLASH_STATE_TYPE : Set :=
| EXTERNAL_FLASH_STATE_INITIALIZE
| EXTERNAL_FLASH_STATE_IDLE
| EXTERNAL_FLASH_STATE_SEND_READ_HEADER
| EXTERNAL_FLASH_STATE_WAIT_SEND_READ_HEADER
| EXTERNAL_FLASH_STATE_READ
| EXTERNAL_FLASH_STATE_SEND_WRITE_HEADER
| EXTERNAL_FLASH_STATE_WAIT_SEND_WRITE_HEADER
| EXTERNAL_FLASH_STATE_WRITE
| EXTERNAL_FLASH_STATE_SEND_READ_STATUS_REGISTER_COMMAND_BEFORE_READ
| EXTERNAL_FLASH_STATE_READ_STATUS_REGISTER_BEFORE_READ
| EXTERNAL_FLASH_STATE_SEND_READ_STATUS_REGISTER_COMMAND_BEFORE_WRITE
| EXTERNAL_FLASH_STATE_READ_STATUS_REGISTER_BEFORE_WRITE
| EXTERNAL_FLASH_STATE_INVALID.

(** Modelled from the spec: the logical process of an instance,
    [none | wait-read | read | wait-write | write]; the enumeration is
    declared in a header that is not available. *)
Inductive NVDATA_PROCESS_TYPE : Set :=
| NVDATA_PROCESS_NONE
| NVDATA_PROCESS_WAIT_READ
| NVDATA_PROCESS_READ
| NVDATA_PROCESS_WAIT_WRITE
| NVDATA_PROCESS_WRITE.

(** The integer an enumerator stands for, in the order of the spec; it is
    what [COMBINE_BYTES] receives as the process marker. *)
Definition NVDATA_PROCESS_value (p : NVDATA_PROCESS_TYPE) : Z :=
  match p with
  | NVDATA_PROCESS_NONE => 0
  | NVDATA_PROCESS_WAIT_READ => 1
  | NVDATA_PROCESS_READ => 2
  | NVDATA_PROCESS_WAIT_WRITE => 3
  | NVDATA_PROCESS_WRITE => 4
  end.

(** ** Records *)

(** One entry of [ExternalFlash_Map]. [BOOL_TYPE] fields compared with
    [ENABLED] or negated with [!] are booleans. *)
Record EXTERNAL_FLASH_MAP_TYPE : Set := {
  ExternalFlash_Channel : Z;
  ExternalFlash_Provider_Bound_Id : Z;
  ExternalFlash_WP_Pin : Z;
  ExternalFlash_WP_Feature : bool;
  ExternalFlash_WP_Level : bool;
  ExternalFlash_Reset_Pin : Z;
  ExternalFlash_Reset_Feature : bool;
  ExternalFlash_Reset_Level : bool;
  Generic_Comm_Bus_Id : Z
}.

(** Modelled from the spec: [NVMEMORY_INSTANCE_TYPE], the run-state of one
    instance, is declared in a header that is not available.  Its fields are
    the ones the source reads and writes; the widths are those of the values
    the source stores in them (a 32-bit address, 16-bit size, progress and
    memory offset, an 8-bit channel handle). *)
Record NVMEMORY_INSTANCE_TYPE : Set := {
  Bus_Instance_Channel : Z;
  NVM_State : EXTERNAL_FLASH_STATE_TYPE;
  NVM_Current_Process : NVDATA_PROCESS_TYPE;
  NVM_Target_Address : Z;
  NVM_Buffer_Pointer : Z;
  NVM_Buffer_Size : Z;
  NVM_Buffer_Progress : Z;
  NVM_Mirror_Pointer : Z;
  NVM_Instance_Memory_Offset : Z
}.

(** [COMMON_I_CALLBACK_TYPE]: what a notification carries. *)
Record COMMON_I_CALLBACK_TYPE : Set := {
  Generic_Provider_Id : Z;
  Source_Instance_Id : Z;
  Event_Value : Z
}.

(** One row of [GENERIC_COMM_BUS_HANDLERS]: which function pointers of a bus
    provider are not [NULL]. *)
Record COMM_BUS_HANDLERS : Set := {
  BusGetAllocation : bool;
  BusRegisterEventHandler : bool;
  BusStartTransaction : bool;
  BusStopTransaction : bool;
  BusWrite : bool;
  BusRead : bool
}.

(** The on-the-wire headers: an opcode byte and the address bytes (three
    address bytes and one dummy byte for a read, three for a write). *)
Record EXTERNAL_FLASH_HEADER : Set := {
  ExternalFlash_OpCode_Cmd : Z;
  ExternalFlash_Address : list Z
}.

(** What a bus write is given: the bytes of a header, or an address in the
    client's buffer. *)
Inductive BUS_DATA : Set :=
| HeaderBytes (bytes : list Z)
| ClientBuffer (pointer : Z).

(** The calls the driver makes to its collaborators. *)
Inductive Call : Set :=
| Callback__Initialize
| SystemTimers__CreateTask (period_ms : Z)
| SYS_ASSERT (condition : bool)
| COMMBUS__GETALLOCATION (bus bound_id : Z)
| COMMBUS__REGISTERHANDLER (bus channel : Z)
| COMMBUS__STARTTRANSACTION (bus channel : Z)
| COMMBUS__STOPTRANSACTION (bus channel : Z)
| COMMBUS__WRITE (bus channel : Z) (data : BUS_DATA) (size : Z)
| COMMBUS__READ (bus channel : Z) (buffer : Z) (size : Z)
| GENERIC_IO_DIGITALIO_Write (pin : Z) (level : bool)
| SystemTimers__AllocateHandle
| SystemTimers__SetMs (handle ms : Z)
| SystemTimers__ReleaseHandle (handle : Z)
| SystemTimers__ResumeTask (task : Z)
| SystemTimers__SetTaskIdxNextCall (task : Z)
| memcpy_to_mirror (destination source size : Z)
| Callback__Notify (event : COMMON_I_CALLBACK_TYPE) (source : Z).

(** The module's static variables, and the trace of collaborator calls. *)
Record Driver : Set := {
  ExternalFlash_Instance_Store : list NVMEMORY_INSTANCE_TYPE;
  ExternalFlash_Handler_Index : Z;
  ExternalFlash_Timeout_Handle : Z;
  trace : list Call
}.

(** ** Field updates *)

Definition set_Bus_Instance_Channel (v : Z) (x : NVMEMORY_INSTANCE_TYPE) :=
  {| Bus_Instance_Channel := v; NVM_State := NVM_State x;
     NVM_Current_Process := NVM_Current_Process x;
     NVM_Target_Address := NVM_Target_Address x;
     NVM_Buffer_Pointer := NVM_Buffer_Pointer x;
     NVM_Buffer_Size := NVM_Buffer_Size x;
     NVM_Buffer_Progress := NVM_Buffer_Progress x;
     NVM_Mirror_Pointer := NVM_Mirror_Pointer x;
     NVM_Instance_Memory_Offset := NVM_Instance_Memory_Offset x |}.

Definition set_NVM_State (v : EXTERNAL_FLASH_STATE_TYPE) (x : NVMEMORY_INSTANCE_TYPE) :=
  {| Bus_Instance_Channel := Bus_Instance_Channel x; NVM_State := v;
     NVM_Current_Process := NVM_Current_Process x;
     NVM_Target_Address := NVM_Target_Address x;
     NVM_Buffer_Pointer := NVM_Buffer_Pointer x;
     NVM_Buffer_Size := NVM_Buffer_Size x;
     NVM_Buffer_Progress := NVM_Buffer_Progress x;
     NVM_Mirror_Pointer := NVM_Mirror_Pointer x;
     NVM_Instance_Memory_Offset := NVM_Instance_Memory_Offset x |}.

Definition set_NVM_Current_Process (v : NVDATA_PROCESS_TYPE) (x : NVMEMORY_INSTANCE_TYPE) :=
  {| Bus_Instance_Channel := Bus_Instance_Channel x; NVM_State := NVM_State x;
     NVM_Current_Process := v;
     NVM_Target_Address := NVM_Target_Address x;
     NVM_Buffer_Pointer := NVM_Buffer_Pointer x;
     NVM_Buffer_Size := NVM_Buffer_Size x;
     NVM_Buffer_Progress := NVM_Buffer_Progress x;
     NVM_Mirror_Pointer := NVM_Mirror_Pointer x;
     NVM_Instance_Memory_Offset := NVM_Instance_Memory_Offset x |}.

Definition set_NVM_Target_Address (v : Z) (x : NVMEMORY_INSTANCE_TYPE) :=
  {| Bus_Instance_Channel := Bus_Instance_Channel x; NVM_State := NVM_State x;
     NVM_Current_Process := NVM_Current_Process x;
     NVM_Target_Address := v;
     NVM_Buffer_Pointer := NVM_Buffer_Pointer x;
     NVM_Buffer_Size := NVM_Buffer_Size x;
     NVM_Buffer_Progress := NVM_Buffer_Progress x;
     NVM_Mirror_Pointer := NVM_Mirror_Pointer x;
     NVM_Instance_Memory_Offset := NVM_Instance_Memory_Offset x |}.

Definition set_NVM_Buffer_Pointer (v : Z) (x : NVMEMORY_INSTANCE_TYPE) :=
  {| Bus_Instance_Channel := Bus_Instance_Channel x; NVM_State := NVM_State x;
     NVM_Current_Process := NVM_Current_Process x;
     NVM_Target_Address := NVM_Target_Address x;
     NVM_Buffer_Pointer := v;
     NVM_Buffer_Size := NVM_Buffer_Size x;
     NVM_Buffer_Progress := NVM_Buffer_Progress x;
     NVM_Mirror_Pointer := NVM_Mirror_Pointer x;
     NVM_Instance_Memory_Offset := NVM_Instance_Memory_Offset x |}.

Definition set_NVM_Buffer_Size (v : Z) (x : NVMEMORY_INSTANCE_TYPE) :=
  {| Bus_Instance_Channel := Bus_Instance_Channel x; NVM_State := NVM_State x;
     NVM_Current_Process := NVM_Current_Process x;
     NVM_Target_Address := NVM_Target_Address x;
     NVM_Buffer_Pointer := NVM_Buffer_Pointer x;
     NVM_Buffer_Size := v;
     NVM_Buffer_Progress := NVM_Buffer_Progress x;
     NVM_Mirror_Pointer := NVM_Mirror_Pointer x;
     NVM_Instance_Memory_Offset := NVM_Instance_Memory_Offset x |}.

Definition set_NVM_Buffer_Progress (v : Z) (x : NVMEMORY_INSTANCE_TYPE) :=
  {| Bus_Instance_Channel := Bus_Instance_Channel x; NVM_State := NVM_State x;
     NVM_Current_Process := NVM_Current_Process x;
     NVM_Target_Address := NVM_Target_Address x;
     NVM_Buffer_Pointer := NVM_Buffer_Pointer x;
     NVM_Buffer_Size := NVM_Buffer_Size x;
     NVM_Buffer_Progress := v;
     NVM_Mirror_Pointer := NVM_Mirror_Pointer x;
     NVM_Instance_Memory_Offset := NVM_Instance_Memory_Offset x |}.

Definition set_NVM_Mirror_Pointer (v : Z) (x : NVMEMORY_INSTANCE_TYPE) :=
  {| Bus_Instance_Channel := Bus_Instance_Channel x; NVM_State := NVM_State x;
     NVM_Current_Process := NVM_Current_Process x;
     NVM_Target_Address := NVM_Target_Address x;
     NVM_Buffer_Pointer := NVM_Buffer_Pointer x;
     NVM_Buffer_Size := NVM_Buffer_Size x;
     NVM_Buffer_Progress := NVM_Buffer_Progress x;
     NVM_Mirror_Pointer := v;
     NVM_Instance_Memory_Offset := NVM_Instance_Memory_Offset x |}.

Definition set_NVM_Instance_Memory_Offset (v : Z) (x : NVMEMORY_INSTANCE_TYPE) :=
  {| Bus_Instance_Channel := Bus_Instance_Channel x; NVM_State := NVM_State x;
     NVM_Current_Process := NVM_Current_Process x;
     NVM_Target_Address := NVM_Target_Address x;
     NVM_Buffer_Pointer := NVM_Buffer_Pointer x;
     NVM_Buffer_Size := NVM_Buffer_Size x;
     NVM_Buffer_Progress := NVM_Buffer_Progress x;
     NVM_Mirror_Pointer := NVM_Mirror_Pointer x;
     NVM_Instance_Memory_Offset := v |}.

Definition set_ExternalFlash_OpCode_Cmd (v : Z) (h : EXTERNAL_FLASH_HEADER) :=
  {| ExternalFlash_OpCode_Cmd := v; ExternalFlash_Address := ExternalFlash_Address h |}.

Definition set_ExternalFlash_Address (v : list Z) (h : EXTERNAL_FLASH_HEADER) :=
  {| ExternalFlash_OpCode_Cmd := ExternalFlash_OpCode_Cmd h; ExternalFlash_Address := v |}.

Definition set_Instance_Store (v : list NVMEMORY_INSTANCE_TYPE) (d : Driver) :=
  {| ExternalFlash_Instance_Store := v;
     ExternalFlash_Handler_Index := ExternalFlash_Handler_Index d;
     ExternalFlash_Timeout_Handle := ExternalFlash_Timeout_Handle d;
     trace := trace d |}.

Definition set_Handler_Index (v : Z) (d : Driver) :=
  {| ExternalFlash_Instance_Store := ExternalFlash_Instance_Store d;
     ExternalFlash_Handler_Index := v;
     ExternalFlash_Timeout_Handle := ExternalFlash_Timeout_Handle d;
     trace := trace d |}.

Definition set_Timeout_Handle (v : Z) (d : Driver) :=
  {| ExternalFlash_Instance_Store := ExternalFlash_Instance_Store d;
     ExternalFlash_Handler_Index := ExternalFlash_Handler_Index d;
     ExternalFlash_Timeout_Handle := v;
     trace := trace d |}.

Definition set_trace (v : list Call) (d : Driver) :=
  {| ExternalFlash_Instance_Store := ExternalFlash_Instance_Store d;
     ExternalFlash_Handler_Index := ExternalFlash_Handler_Index d;
     ExternalFlash_Timeout_Handle := ExternalFlash_Timeout_Handle d;
     trace := v |}.

(** ** Memory of a header *)

(** The bytes of an integer object in memory, least significant first (the
    driver runs on a little-endian core). *)
Definition object_bytes (width : nat) (v : Z) : list Z :=
  map (fun k => Z.land (Z.shiftr v (8 * Z.of_nat k)) 0xFF) (seq 0 width).

(** [memcpy (dst + offset, src, n)] on a byte array: the first [n] bytes of
    [src] replace the bytes of [dst] from [offset] on. *)
Fixpoint memcpy (dst : list Z) (offset : nat) (src : list Z) (n : nat) : list Z :=
  match n, src with
  | S n', b :: src' => memcpy (<[offset := b]> dst) (S offset) src' n'
  | _, _ => dst
  end.

(** The statically allocated headers before their first use: all zero. *)
Definition static_read_header : EXTERNAL_FLASH_HEADER :=
  {| ExternalFlash_OpCode_Cmd := 0;
     ExternalFlash_Address :=
       replicate (EXTERNAL_FLASH_ADDRESS_SIZE_BYTES + EXTERNAL_FLASH_READ_DUMMY_BYES) 0 |}.

Definition static_write_header : EXTERNAL_FLASH_HEADER :=
  {| ExternalFlash_OpCode_Cmd := 0;
     ExternalFlash_Address :=
       replicate (EXTERNAL_FLASH_ADDRESS_SIZE_BYTES + EXTERNAL_FLASH_WRITE_DUMMY_BYTES) 0 |}.

(** A packed header as it goes on the bus, and its [sizeof]. *)
Definition header_bytes (h : EXTERNAL_FLASH_HEADER) : list Z :=
  ExternalFlash_OpCode_Cmd h :: ExternalFlash_Address h.

Definition sizeof_header (h : EXTERNAL_FLASH_HEADER) : Z :=
  Z.of_nat (length (header_bytes h)).

(** The header [SendReadHeader] builds for a target address (lines 567 to
    572): the page and byte addresses, the opcode, the two [memcpy]s. *)
Definition read_header (target_address : Z) : EXTERNAL_FLASH_HEADER :=
  let header := static_read_header in
  let page_address := uint16 (target_address / EXTERNAL_FLASH_PAGE_NUMBER) in
  let byte_address := uint8 (target_address mod EXTERNAL_FLASH_PAGE_NUMBER) in
  let header := set_ExternalFlash_OpCode_Cmd EXTERNAL_FLASH_CMD_READ_MEMORY header in
  let header :=
    set_ExternalFlash_Address
      (memcpy (ExternalFlash_Address header) EXTERNAL_FLASH_PAGE_ADDRESS_BYTE
         (object_bytes 1 byte_address) EXTERNAL_FLASH_PAGE_BYTE_ADDRESS_BYTE) header in
  let header :=
    set_ExternalFlash_Address
      (memcpy (ExternalFlash_Address header) 0
         (object_bytes 2 page_address) EXTERNAL_FLASH_PAGE_ADDRESS_BYTE) header in
  header.

(** The header [SendWriteHeader] builds (lines 648 to 655) for a target
    address and a progress count: the opcode is assigned twice. *)
Definition write_header (target_address progress : Z) : EXTERNAL_FLASH_HEADER :=
  let header := static_write_header in
  let header := set_ExternalFlash_OpCode_Cmd EXTERNAL_FLASH_CMD_WRITE_MEMORY header in
  let page_address :=
    uint16 (uint32 (target_address + progress) / EXTERNAL_FLASH_PAGE_NUMBER) in
  let byte_address :=
    uint8 (uint32 (target_address + progress) mod EXTERNAL_FLASH_PAGE_NUMBER) in
  let header := set_ExternalFlash_OpCode_Cmd EXTERNAL_FLASH_CMD_READ_MEMORY header in
  let header :=
    set_ExternalFlash_Address
      (memcpy (ExternalFlash_Address header) EXTERNAL_FLASH_PAGE_ADDRESS_BYTE
         (object_bytes 1 byte_address) EXTERNAL_FLASH_PAGE_BYTE_ADDRESS_BYTE) header in
  let header :=
    set_ExternalFlash_Address
      (memcpy (ExternalFlash_Address header) 0
         (object_bytes 2 page_address) EXTERNAL_FLASH_PAGE_ADDRESS_BYTE) header in
  header.

(** The size of the next chunk, as the poll step computes it in state
    [SEND_WRITE_HEADER] (lines 294 and 295); [write_size] is a [uint16_t]. *)
Definition write_size (inst : NVMEMORY_INSTANCE_TYPE) : Z :=
  let write_size :=
    uint16 (MIN (NVM_Buffer_Size inst - NVM_Buffer_Progress inst) EXTERNAL_FLASH_PAGE_SIZE) in
  let write_size :=
    uint16 (MIN (EXTERNAL_FLASH_PAGE_SIZE
                 - uint32 (NVM_Target_Address inst + NVM_Buffer_Progress inst)
                   mod EXTERNAL_FLASH_PAGE_SIZE)
                write_size) in
  write_size.

(** ** The driver's computations

    A computation reads and updates the [Driver] and may be undefined (an
    index outside a table, a call through a [NULL] function pointer). *)

Definition M (A : Type) : Type := Driver -> option (A * Driver).

Definition ret {A} (a : A) : M A := fun d => Some (a, d).

Definition bind {A B} (m : M A) (k : A -> M B) : M B :=
  fun d => match m d with
           | Some (a, d') => k a d'
           | None => None
           end.

Definition undefined {A} : M A := fun _ => None.

Declare Scope driver_scope.
Delimit Scope driver_scope with driver.
Notation "x <- m ;; k" := (bind m (fun x => k))
  (at level 100, m at next level, right associativity) : driver_scope.
Notation "m ;; k" := (bind m (fun _ => k))
  (at level 100, right associativity) : driver_scope.
Local Open Scope driver_scope.

(** A [for] loop over indices, and one that a [break] can leave. *)
Inductive loop_control : Set := loop_next | loop_break.

Fixpoint for_each (indices : list nat) (body : nat -> M unit) : M unit :=
  match indices with
  | [] => ret tt
  | i :: rest => body i ;; for_each rest body
  end.

Fixpoint for_each_break (indices : list nat) (body : nat -> M loop_control) : M unit :=
  match indices with
  | [] => ret tt
  | i :: rest =>
      c <- body i ;;
      match c with
      | loop_next => for_each_break rest body
      | loop_break => ret tt
      end
  end.

Definition get_Timeout_Handle : M Z :=
  fun d => Some (ExternalFlash_Timeout_Handle d, d).

Definition put_Timeout_Handle (v : Z) : M unit :=
  fun d => Some (tt, set_Timeout_Handle v d).

Definition get_Handler_Index : M Z :=
  fun d => Some (ExternalFlash_Handler_Index d, d).

Definition put_Handler_Index (v : Z) : M unit :=
  fun d => Some (tt, set_Handler_Index v d).

(** [ExternalFlash_Instance_Store[instance_id]], read and updated in place;
    an index outside the array is undefined. *)
Definition get_instance (instance_id : nat) : M NVMEMORY_INSTANCE_TYPE :=
  fun d => match ExternalFlash_Instance_Store d !! instance_id with
           | Some inst => Some (inst, d)
           | None => None
           end.

Definition update_instance (instance_id : nat)
    (f : NVMEMORY_INSTANCE_TYPE -> NVMEMORY_INSTANCE_TYPE) : M unit :=
  fun d => match ExternalFlash_Instance_Store d !! instance_id with
           | Some inst =>
               Some (tt, set_Instance_Store
                           (<[instance_id := f inst]> (ExternalFlash_Instance_Store d)) d)
           | None => None
           end.

(** [memset] of the whole store to zero: state [INITIALIZE] (the first
    enumerator), process [NONE], null pointers. *)
Definition zero_instance : NVMEMORY_INSTANCE_TYPE :=
  {| Bus_Instance_Channel := 0;
     NVM_State := EXTERNAL_FLASH_STATE_INITIALIZE;
     NVM_Current_Process := NVDATA_PROCESS_NONE;
     NVM_Target_Address := 0;
     NVM_Buffer_Pointer := NULL;
     NVM_Buffer_Size := 0;
     NVM_Buffer_Progress := 0;
     NVM_Mirror_Pointer := NULL;
     NVM_Instance_Memory_Offset := 0 |}.

(** ** A reference configuration

    Two instances on one bus provider whose function table is complete, and
    collaborators that accept every request: the bus returns [TRUE], hands
    out the bound id as channel handle, and the timers hand out handle 0. *)

Definition reference_Map : list EXTERNAL_FLASH_MAP_TYPE :=
  [ {| ExternalFlash_Channel := 0; ExternalFlash_Provider_Bound_Id := 0;
       ExternalFlash_WP_Pin := 7; ExternalFlash_WP_Feature := true;
       ExternalFlash_WP_Level := true;
       ExternalFlash_Reset_Pin := 8; ExternalFlash_Reset_Feature := false;
       ExternalFlash_Reset_Level := false; Generic_Comm_Bus_Id := 0 |};
    {| ExternalFlash_Channel := 1; ExternalFlash_Provider_Bound_Id := 1;
       ExternalFlash_WP_Pin := 9; ExternalFlash_WP_Feature := false;
       ExternalFlash_WP_Level := false;
       ExternalFlash_Reset_Pin := 10; ExternalFlash_Reset_Feature := false;
       ExternalFlash_Reset_Level := false; Generic_Comm_Bus_Id := 0 |} ].

Definition reference_HANDLERS (bus : Z) : COMM_BUS_HANDLERS :=
  {| BusGetAllocation := true; BusRegisterEventHandler := true;
     BusStartTransaction := true; BusStopTransaction := true;
     BusWrite := true; BusRead := true |}.

Definition reference_respond (history : list Call) (c : Call) : Z :=
  match c with
  | COMMBUS__GETALLOCATION _ bound_id => bound_id
  | SystemTimers__AllocateHandle => 0
  | SystemTimers__CreateTask _ => 0
  | _ => TRUE
  end.

Definition reference_PROVIDER : Z := 3.
Definition reference_PERIOD_MS : Z := 5.

Definition idle_instance (channel : Z) : NVMEMORY_INSTANCE_TYPE :=
  set_NVM_State EXTERNAL_FLASH_STATE_IDLE (set_Bus_Instance_Channel channel zero_instance).

(** Both instances bound and idle, no timeout timer allocated. *)
Definition idle_driver : Driver :=
  {| ExternalFlash_Instance_Store := [idle_instance 0; idle_instance 1];
     ExternalFlash_Handler_Index := 0;
     ExternalFlash_Timeout_Handle := INVALID_VALUE_8;
     trace := [] |}.

(** The static variables when the program starts. *)
Definition boot_driver : Driver :=
  {| ExternalFlash_Instance_Store := [zero_instance; zero_instance];
     ExternalFlash_Handler_Index := INVALID_VALUE_8;
     ExternalFlash_Timeout_Handle := INVALID_VALUE_8;
     trace := [] |}.

(** A completion event of the bus: provider, channel and the two bytes of
    the event value (the bus process and the transferred length). *)
Definition bus_event (provider channel bus_process bus_length : Z) : COMMON_I_CALLBACK_TYPE :=
  {| Generic_Provider_Id := provider; Source_Instance_Id := channel;
     Event_Value := COMBINE_BYTES bus_process bus_length |}.

(** Instance 0 of the reference configuration in the middle of an
    operation on the client buffer at address 1000. *)
Definition busy_instance (state : EXTERNAL_FLASH_STATE_TYPE) (process : NVDATA_PROCESS_TYPE)
    (target size progress : Z) : NVMEMORY_INSTANCE_TYPE :=
  {| Bus_Instance_Channel := 0;
     NVM_State := state;
     NVM_Current_Process := process;
     NVM_Target_Address := target;
     NVM_Buffer_Pointer := 1000;
     NVM_Buffer_Size := size;
     NVM_Buffer_Progress := progress;
     NVM_Mirror_Pointer := NULL;
     NVM_Instance_Memory_Offset := 0 |}.

(** After [Write (0, 1000, 496, 300)] and the bus event for the header:
    the poll step is about to send the first chunk. *)
Definition header_sent_driver : Driver :=
  {| ExternalFlash_Instance_Store :=
       [busy_instance EXTERNAL_FLASH_STATE_SEND_WRITE_HEADER NVDATA_PROCESS_WRITE 496 300 0;
        idle_instance 1];
     ExternalFlash_Handler_Index := 0;
     ExternalFlash_Timeout_Handle := INVALID_VALUE_8;
     trace :=
       [COMMBUS__STARTTRANSACTION 0 0; GENERIC_IO_DIGITALIO_Write 7 true;
        COMMBUS__WRITE 0 0 (HeaderBytes [210; 0; 0; 240]) 4; SystemTimers__AllocateHandle;
        SYS_ASSERT true; SystemTimers__SetMs 0 50; SystemTimers__ResumeTask 0;
        SystemTimers__SetTaskIdxNextCall 0; SystemTimers__ReleaseHandle 0] |}.

(** After [Write (0, 1000, 0, 300)], the bus event for the header, a poll
    step, and the bus event for the first chunk of 256 bytes, which reports
    255 bytes, the most the length byte of an event can hold. *)
Definition chunk_sent_driver : Driver :=
  {| ExternalFlash_Instance_Store :=
       [busy_instance EXTERNAL_FLASH_STATE_WRITE NVDATA_PROCESS_WRITE 0 300 255;
        idle_instance 1];
     ExternalFlash_Handler_Index := 0;
     ExternalFlash_Timeout_Handle := INVALID_VALUE_8;
     trace :=
       [COMMBUS__STARTTRANSACTION 0 0; GENERIC_IO_DIGITALIO_Write 7 true;
        COMMBUS__WRITE 0 0 (HeaderBytes [210; 0; 0; 0]) 4; SystemTimers__AllocateHandle;
        SYS_ASSERT true; SystemTimers__SetMs 0 50; SystemTimers__ResumeTask 0;
        SystemTimers__SetTaskIdxNextCall 0; SystemTimers__ReleaseHandle 0;
        COMMBUS__STARTTRANSACTION 0 0; COMMBUS__WRITE 0 0 (ClientBuffer 1000) 256;
        SystemTimers__AllocateHandle; SYS_ASSERT true; SystemTimers__SetMs 0 50;
        SystemTimers__SetTaskIdxNextCall 0; SystemTimers__ReleaseHandle 0] |}.

(** After [Read (0, 1000, 0, 16)], the bus event for the header, a poll
    step, and a bus event for the payload that reports 8 bytes. *)
Definition read_done_driver : Driver :=
  {| ExternalFlash_Instance_Store :=
       [busy_instance EXTERNAL_FLASH_STATE_READ NVDATA_PROCESS_READ 0 16 8;
        idle_instance 1];
     ExternalFlash_Handler_Index := 0;
     ExternalFlash_Timeout_Handle := INVALID_VALUE_8;
     trace :=
       [COMMBUS__STARTTRANSACTION 0 0; COMMBUS__WRITE 0 0 (HeaderBytes [210; 0; 0; 0; 0]) 5;
        SystemTimers__AllocateHandle; SYS_ASSERT true; SystemTimers__SetMs 0 50;
        SystemTimers__SetTaskIdxNextCall 0; SystemTimers__ReleaseHandle 0;
        COMMBUS__READ 0 0 1000 16; SystemTimers__AllocateHandle;
        SYS_ASSERT true; SystemTimers__SetMs 0 50; SystemTimers__SetTaskIdxNextCall 0;
        SystemTimers__ReleaseHandle 0] |}.

(** [sizeof (EXTERNAL_FLASH_STATUS_REGISTER_TYPE)]: the fifteen bits of its
    bit-fields take two bytes. *)
Definition sizeof_EXTERNAL_FLASH_STATUS_REGISTER_TYPE : Z := 2.

(** The two entries of the reference map. *)
Definition reference_entry_0 : EXTERNAL_FLASH_MAP_TYPE :=
  {| ExternalFlash_Channel := 0; ExternalFlash_Provider_Bound_Id := 0;
     ExternalFlash_WP_Pin := 7; ExternalFlash_WP_Feature := true;
     ExternalFlash_WP_Level := true;
     ExternalFlash_Reset_Pin := 8; ExternalFlash_Reset_Feature := false;
     ExternalFlash_Reset_Level := false; Generic_Comm_Bus_Id := 0 |}.

Definition reference_entry_1 : EXTERNAL_FLASH_MAP_TYPE :=
  {| ExternalFlash_Channel := 1; ExternalFlash_Provider_Bound_Id := 1;
     ExternalFlash_WP_Pin := 9; ExternalFlash_WP_Feature := false;
     ExternalFlash_WP_Level := false;
     ExternalFlash_Reset_Pin := 10; ExternalFlash_Reset_Feature := false;
     ExternalFlash_Reset_Level := false; Generic_Comm_Bus_Id := 0 |}.

(** A provider without stop function, and a bus that refuses every
    request. *)
Definition HANDLERS_without_stop (bus : Z) : COMM_BUS_HANDLERS :=
  {| BusGetAllocation := true; BusRegisterEventHandler := true;
     BusStartTransaction := true; BusStopTransaction := false;
     BusWrite := true; BusRead := true |}.

Definition refusing_respond (history : list Call) (c : Call) : Z := FALSE.

(** After [Write (0, 1000, 0, 16)] on the idle driver: instance 0 waits
    for the event of its header. *)
Definition write_pending_driver : Driver :=
  {| ExternalFlash_Instance_Store :=
       [busy_instance EXTERNAL_FLASH_STATE_SEND_WRITE_HEADER NVDATA_PROCESS_WAIT_WRITE 0 16 0;
        idle_instance 1];
     ExternalFlash_Handler_Index := 0;
     ExternalFlash_Timeout_Handle := 0;
     trace :=
       [COMMBUS__STARTTRANSACTION 0 0; GENERIC_IO_DIGITALIO_Write 7 true;
        COMMBUS__WRITE 0 0 (HeaderBytes [210; 0; 0; 0]) 4; SystemTimers__AllocateHandle;
        SYS_ASSERT true; SystemTimers__SetMs 0 50; SystemTimers__ResumeTask 0] |}.

(** After [Read (0, 1000, 0, 16)] on the idle driver and the bus event for
    the header: the poll step is about to ask for the payload. *)
Definition read_header_sent_driver : Driver :=
  {| ExternalFlash_Instance_Store :=
       [busy_instance EXTERNAL_FLASH_STATE_SEND_READ_HEADER NVDATA_PROCESS_WRITE 0 16 0;
        idle_instance 1];
     ExternalFlash_Handler_Index := 0;
     ExternalFlash_Timeout_Handle := INVALID_VALUE_8;
     trace :=
       [COMMBUS__STARTTRANSACTION 0 0; COMMBUS__WRITE 0 0 (HeaderBytes [210; 0; 0; 0; 0]) 5;
        SystemTimers__AllocateHandle; SYS_ASSERT true; SystemTimers__SetMs 0 50;
        SystemTimers__SetTaskIdxNextCall 0; SystemTimers__ReleaseHandle 0] |}.

(** After [Write (0, 1000, 0, 2)] on the idle driver and a header event
    that reports 4 bytes: the progress count is above the requested
    size. *)
Definition short_write_driver : Driver :=
  {| ExternalFlash_Instance_Store :=
       [busy_instance EXTERNAL_FLASH_STATE_SEND_WRITE_HEADER NVDATA_PROCESS_WRITE 0 2 4;
        idle_instance 1];
     ExternalFlash_Handler_Index := 0;
     ExternalFlash_Timeout_Handle := INVALID_VALUE_8;
     trace :=
       [COMMBUS__STARTTRANSACTION 0 0; GENERIC_IO_DIGITALIO_Write 7 true;
        COMMBUS__WRITE 0 0 (HeaderBytes [210; 0; 0; 0]) 4; SystemTimers__AllocateHandle;
        SYS_ASSERT true; SystemTimers__SetMs 0 50; SystemTimers__ResumeTask 0;
        SystemTimers__SetTaskIdxNextCall 0; SystemTimers__ReleaseHandle 0] |}.

Section ExternalFlash.

(** The configuration table [EXTERNAL_FLASH_MAP], one entry per channel. *)
Variable ExternalFlash_Map : list EXTERNAL_FLASH_MAP_TYPE.
(** The bus providers' function tables, by provider id. *)
Variable GENERIC_COMM_BUS_HANDLERS : Z -> COMM_BUS_HANDLERS.
(** This module's provider id and its polling period. *)
Variable GENERIC_NVDATA_EXTERNAL_FLASH : Z.
Variable EXTERNAL_FLASH_HANDLER_PERIOD_MS : Z.
(** What a collaborator returns to a call, given the calls made so far. *)
Variable respond : list Call -> Call -> Z.

(** The store has one slot per entry of the map. *)
Definition EXTERNAL_FLASH_CH_NUM : nat := length ExternalFlash_Map.

Definition call (c : Call) : M Z :=
  fun d => Some (respond (trace d) c, set_trace (trace d ++ [c]) d).

(** A call through a function pointer that the source does not test. *)
Definition call_unchecked (present : bool) (c : Call) : M Z :=
  if present then call c else undefined.

Definition get_map (instance_id : nat) : M EXTERNAL_FLASH_MAP_TYPE :=
  fun d => match ExternalFlash_Map !! instance_id with
           | Some cfg => Some (cfg, d)
           | None => None
           end.

(** The block that follows every successful bus call: allocate and start
    the timeout timer unless one is allocated. *)
Definition start_timeout : M unit :=
  handle <- get_Timeout_Handle ;;
  if handle =? INVALID_VALUE_8 then
    handle <- call SystemTimers__AllocateHandle ;;
    put_Timeout_Handle (uint8 handle) ;;
    call (SYS_ASSERT (negb (uint8 handle =? INVALID_VALUE_8))) ;;
    call (SystemTimers__SetMs (uint8 handle) EXTERNAL_FLASH_WAIT_TIMEOUT_MS) ;;
    ret tt
  else ret tt.

Definition SendReadHeader (instance_id : nat) : M bool :=
  inst <- get_instance instance_id ;;
  cfg <- get_map instance_id ;;
  let header := read_header (NVM_Target_Address inst) in
  let write_handler := BusWrite (GENERIC_COMM_BUS_HANDLERS (Generic_Comm_Bus_Id cfg)) in
  if write_handler then
    r <- call (COMMBUS__WRITE (Generic_Comm_Bus_Id cfg) (Bus_Instance_Channel inst)
                 (HeaderBytes (header_bytes header)) (sizeof_header header)) ;;
    if r =? TRUE then start_timeout ;; ret true else ret false
  else ret false.

Definition ReadData (instance_id : nat) : M bool :=
  inst <- get_instance instance_id ;;
  cfg <- get_map instance_id ;;
  let read_handler := BusRead (GENERIC_COMM_BUS_HANDLERS (Generic_Comm_Bus_Id cfg)) in
  if read_handler then
    r <- call (COMMBUS__READ (Generic_Comm_Bus_Id cfg) (Bus_Instance_Channel inst)
                 (NVM_Buffer_Pointer inst) (NVM_Buffer_Size inst)) ;;
    if r =? TRUE then start_timeout ;; ret true else ret false
  else ret false.

Definition SendWriteHeader (instance_id : nat) : M bool :=
  inst <- get_instance instance_id ;;
  cfg <- get_map instance_id ;;
  let header := write_header (NVM_Target_Address inst) (NVM_Buffer_Progress inst) in
  let write_handler := BusWrite (GENERIC_COMM_BUS_HANDLERS (Generic_Comm_Bus_Id cfg)) in
  if write_handler then
    r <- call (COMMBUS__WRITE (Generic_Comm_Bus_Id cfg) (Bus_Instance_Channel inst)
                 (HeaderBytes (header_bytes header)) (sizeof_header header)) ;;
    if r =? TRUE then start_timeout ;; ret true else ret false
  else ret false.

Definition WriteData (instance_id : nat) (write_size : Z) : M bool :=
  inst <- get_instance instance_id ;;
  cfg <- get_map instance_id ;;
  let write_handler := BusWrite (GENERIC_COMM_BUS_HANDLERS (Generic_Comm_Bus_Id cfg)) in
  if write_handler then
    r <- call (COMMBUS__WRITE (Generic_Comm_Bus_Id cfg) (Bus_Instance_Channel inst)
                 (ClientBuffer (NVM_Buffer_Pointer inst + NVM_Buffer_Progress inst))
                 write_size) ;;
    if r =? TRUE then start_timeout ;; ret true else ret false
  else ret false.

(** [ExecuteCallBack]: stamps the record with this module's provider id
    and hands it to the callback registry. *)
Definition ExecuteCallBack (data : COMMON_I_CALLBACK_TYPE) : M unit :=
  let data := {| Generic_Provider_Id := GENERIC_NVDATA_EXTERNAL_FLASH;
                 Source_Instance_Id := Source_Instance_Id data;
                 Event_Value := Event_Value data |} in
  call (Callback__Notify data (Source_Instance_Id data)) ;;
  ret tt.

(** The record [nv_callback] of the poll step once its two fields are
    filled; its provider id is not set there. *)
Definition nv_callback_of (instance_id : nat) (inst : NVMEMORY_INSTANCE_TYPE)
    : COMMON_I_CALLBACK_TYPE :=
  {| Generic_Provider_Id := 0;
     Source_Instance_Id := Z.of_nat instance_id;
     Event_Value := COMBINE_BYTES (NVDATA_PROCESS_value (NVM_Current_Process inst))
                                  (NVM_Buffer_Size inst) |}.

(** [memset (ExternalFlash_Instance_Store, 0x00, sizeof (...))]. *)
Definition memset_Instance_Store : M unit :=
  fun d => Some (tt, set_Instance_Store (replicate EXTERNAL_FLASH_CH_NUM zero_instance) d).

Definition ExternalFlash__Initialize : M unit :=
  call Callback__Initialize ;;
  index <- call (SystemTimers__CreateTask EXTERNAL_FLASH_HANDLER_PERIOD_MS) ;;
  put_Handler_Index (uint8 index) ;;
  call (SYS_ASSERT (negb (uint8 index =? INVALID_VALUE_8))) ;;
  memset_Instance_Store ;;
  for_each (seq 0 EXTERNAL_FLASH_CH_NUM) (fun instance_id =>
    cfg <- get_map instance_id ;;
    let alloc_handler :=
      BusGetAllocation (GENERIC_COMM_BUS_HANDLERS (Generic_Comm_Bus_Id cfg)) in
    (if alloc_handler then
       channel <- call (COMMBUS__GETALLOCATION (Generic_Comm_Bus_Id cfg)
                          (ExternalFlash_Provider_Bound_Id cfg)) ;;
       update_instance instance_id (set_Bus_Instance_Channel (uint8 channel))
     else ret tt) ;;
    (if ExternalFlash_WP_Feature cfg then
       call (GENERIC_IO_DIGITALIO_Write (ExternalFlash_WP_Pin cfg)
               (negb (ExternalFlash_WP_Level cfg))) ;; ret tt
     else ret tt) ;;
    (if ExternalFlash_Reset_Feature cfg then
       call (GENERIC_IO_DIGITALIO_Write (ExternalFlash_Reset_Pin cfg)
               (negb (ExternalFlash_Reset_Level cfg))) ;; ret tt
     else ret tt) ;;
    let register_handler :=
      BusRegisterEventHandler (GENERIC_COMM_BUS_HANDLERS (Generic_Comm_Bus_Id cfg)) in
    (if register_handler then
       inst <- get_instance instance_id ;;
       call (COMMBUS__REGISTERHANDLER (Generic_Comm_Bus_Id cfg)
               (Bus_Instance_Channel inst)) ;; ret tt
     else ret tt) ;;
    update_instance instance_id (set_NVM_State EXTERNAL_FLASH_STATE_INITIALIZE) ;;
    update_instance instance_id (set_NVM_Current_Process NVDATA_PROCESS_NONE)).

(** One turn of the loop of [ExternalFlash_Handler], for one instance. *)
Definition ExternalFlash_Handler_instance (instance_id : nat) : M unit :=
  cfg <- get_map instance_id ;;
  let stop_handler :=
    BusStopTransaction (GENERIC_COMM_BUS_HANDLERS (Generic_Comm_Bus_Id cfg)) in
  inst <- get_instance instance_id ;;
  match NVM_State inst with
  | EXTERNAL_FLASH_STATE_INITIALIZE => ret tt
  | EXTERNAL_FLASH_STATE_IDLE => ret tt
  | EXTERNAL_FLASH_STATE_SEND_READ_HEADER =>
      match NVM_Current_Process inst with
      | NVDATA_PROCESS_WRITE =>
          update_instance instance_id (set_NVM_Current_Process NVDATA_PROCESS_WAIT_READ) ;;
          update_instance instance_id (set_NVM_State EXTERNAL_FLASH_STATE_READ) ;;
          ReadData instance_id ;;
          ret tt
      | _ => ret tt
      end
  | EXTERNAL_FLASH_STATE_READ =>
      match NVM_Current_Process inst with
      | NVDATA_PROCESS_READ =>
          call_unchecked stop_handler
            (COMMBUS__STOPTRANSACTION (Generic_Comm_Bus_Id cfg) (Bus_Instance_Channel inst)) ;;
          let nv_callback := nv_callback_of instance_id inst in
          update_instance instance_id (set_NVM_Current_Process NVDATA_PROCESS_NONE) ;;
          update_instance instance_id (set_NVM_State EXTERNAL_FLASH_STATE_IDLE) ;;
          ExecuteCallBack nv_callback
      | _ => ret tt
      end
  | EXTERNAL_FLASH_STATE_SEND_WRITE_HEADER =>
      match NVM_Current_Process inst with
      | NVDATA_PROCESS_WRITE =>
          let write_size := write_size inst in
          let start_handler :=
            BusStartTransaction (GENERIC_COMM_BUS_HANDLERS (Generic_Comm_Bus_Id cfg)) in
          if start_handler then
            r <- call (COMMBUS__STARTTRANSACTION (Generic_Comm_Bus_Id cfg)
                         (Bus_Instance_Channel inst)) ;;
            if r =? TRUE then
              update_instance instance_id
                (set_NVM_Current_Process NVDATA_PROCESS_WAIT_WRITE) ;;
              update_instance instance_id (set_NVM_State EXTERNAL_FLASH_STATE_WRITE) ;;
              WriteData instance_id write_size ;;
              ret tt
            else ret tt
          else ret tt
      | _ => ret tt
      end
  | EXTERNAL_FLASH_STATE_WRITE =>
      match NVM_Current_Process inst with
      | NVDATA_PROCESS_WRITE =>
          call_unchecked stop_handler
            (COMMBUS__STOPTRANSACTION (Generic_Comm_Bus_Id cfg) (Bus_Instance_Channel inst)) ;;
          if NVM_Buffer_Progress inst <? NVM_Buffer_Size inst then
            SendWriteHeader instance_id ;;
            ret tt
          else
            (if ExternalFlash_WP_Feature cfg then
               call (GENERIC_IO_DIGITALIO_Write (ExternalFlash_WP_Pin cfg)
                       (negb (ExternalFlash_WP_Level cfg))) ;; ret tt
             else ret tt) ;;
            let nv_callback := nv_callback_of instance_id inst in
            ExecuteCallBack nv_callback ;;
            update_instance instance_id (set_NVM_Current_Process NVDATA_PROCESS_NONE) ;;
            update_instance instance_id (set_NVM_State EXTERNAL_FLASH_STATE_IDLE)
      | _ => ret tt
      end
  | _ => ret tt
  end.

Definition ExternalFlash_Handler : M unit :=
  for_each (seq 0 EXTERNAL_FLASH_CH_NUM) ExternalFlash_Handler_instance.

Definition ExternalFlash__Read (instance_id : nat) (buffer data_address size : Z)
    : M bool :=
  let success := false in
  if (instance_id <? EXTERNAL_FLASH_CH_NUM)%nat then
    inst <- get_instance instance_id ;;
    if negb (Bus_Instance_Channel inst =? INVALID_VALUE_8) then
      match NVM_Current_Process inst, NVM_State inst with
      | NVDATA_PROCESS_NONE, EXTERNAL_FLASH_STATE_IDLE =>
          cfg <- get_map instance_id ;;
          let start_handler :=
            BusStartTransaction (GENERIC_COMM_BUS_HANDLERS (Generic_Comm_Bus_Id cfg)) in
          if start_handler then
            r <- call (COMMBUS__STARTTRANSACTION (Generic_Comm_Bus_Id cfg)
                         (Bus_Instance_Channel inst)) ;;
            if r =? TRUE then
              update_instance instance_id (set_NVM_Buffer_Pointer buffer) ;;
              update_instance instance_id
                (set_NVM_Target_Address
                   (uint32 (NVM_Instance_Memory_Offset inst + data_address))) ;;
              update_instance instance_id (set_NVM_Buffer_Size size) ;;
              update_instance instance_id (set_NVM_Buffer_Progress 0) ;;
              update_instance instance_id
                (set_NVM_Current_Process NVDATA_PROCESS_WAIT_WRITE) ;;
              update_instance instance_id
                (set_NVM_State EXTERNAL_FLASH_STATE_SEND_READ_HEADER) ;;
              SendReadHeader instance_id ;;
              ret success
            else ret success
          else ret success
      | _, _ => ret success
      end
    else ret success
  else ret success.

Definition ExternalFlash__Write (instance_id : nat) (buffer data_address size : Z)
    : M bool :=
  let success := false in
  if (instance_id <? EXTERNAL_FLASH_CH_NUM)%nat then
    inst <- get_instance instance_id ;;
    if negb (Bus_Instance_Channel inst =? INVALID_VALUE_8) then
      match NVM_Current_Process inst, NVM_State inst with
      | NVDATA_PROCESS_NONE, EXTERNAL_FLASH_STATE_IDLE =>
          cfg <- get_map instance_id ;;
          let start_handler :=
            BusStartTransaction (GENERIC_COMM_BUS_HANDLERS (Generic_Comm_Bus_Id cfg)) in
          if start_handler then
            r <- call (COMMBUS__STARTTRANSACTION (Generic_Comm_Bus_Id cfg)
                         (Bus_Instance_Channel inst)) ;;
            if r =? TRUE then
              (if ExternalFlash_WP_Feature cfg then
                 call (GENERIC_IO_DIGITALIO_Write (ExternalFlash_WP_Pin cfg)
                         (ExternalFlash_WP_Level cfg)) ;; ret tt
               else ret tt) ;;
              update_instance instance_id (set_NVM_Buffer_Pointer buffer) ;;
              update_instance instance_id
                (set_NVM_Target_Address
                   (uint32 (NVM_Instance_Memory_Offset inst + data_address))) ;;
              update_instance instance_id (set_NVM_Buffer_Size size) ;;
              update_instance instance_id (set_NVM_Buffer_Progress 0) ;;
              update_instance instance_id
                (set_NVM_Current_Process NVDATA_PROCESS_WAIT_WRITE) ;;
              update_instance instance_id
                (set_NVM_State EXTERNAL_FLASH_STATE_SEND_WRITE_HEADER) ;;
              SendWriteHeader instance_id ;;
              (if negb (NVM_Mirror_Pointer inst =? NULL) then
                 call (memcpy_to_mirror (NVM_Mirror_Pointer inst + data_address)
                         buffer size) ;; ret tt
               else ret tt) ;;
              task <- get_Handler_Index ;;
              call (SystemTimers__ResumeTask task) ;;
              let success := true in
              ret success
            else ret success
          else ret success
      | _, _ => ret success
      end
    else ret success
  else ret success.

(** The loop of [ExternalFlash__GetAllocation]: the index at which it
    stops, by [break] on a match or at the end of the map. *)
Fixpoint GetAllocation_loop (instance_id : nat) (entries : list EXTERNAL_FLASH_MAP_TYPE)
    (client_id mirror_pointer nv_instance_offset : Z) : M nat :=
  match entries with
  | [] => ret instance_id
  | cfg :: rest =>
      if ExternalFlash_Channel cfg =? client_id then
        update_instance instance_id (set_NVM_Mirror_Pointer mirror_pointer) ;;
        update_instance instance_id
          (set_NVM_Instance_Memory_Offset nv_instance_offset) ;;
        ret instance_id
      else
        GetAllocation_loop (S instance_id) rest client_id mirror_pointer nv_instance_offset
  end.

(** [instance_id] is initialised to [INVALID_VALUE_8] and then serves as
    the loop counter, starting from 0; the map has fewer than 256 entries,
    so the 8-bit counter does not wrap. *)
Definition ExternalFlash__GetAllocation (client_id mirror_pointer nv_instance_offset : Z)
    : M Z :=
  let instance_id := INVALID_VALUE_8 in
  instance_id <- GetAllocation_loop 0 ExternalFlash_Map
                   client_id mirror_pointer nv_instance_offset ;;
  ret (Z.of_nat instance_id).

(** One turn of the loop of [CommBusEventHandler].  [event_match] is
    [FALSE] when a turn starts, since the only turn that sets it leaves
    the loop.  The [switch] either sets [event_match] or, by [continue],
    skips the rest of the turn ([None]). *)
Definition CommBusEventHandler_channel (bus_event : COMMON_I_CALLBACK_TYPE)
    (channel_index : nat) : M loop_control :=
  let event_match := false in
  let bus_process := HIBYTE (Event_Value bus_event) in
  let bus_length := uint8 (LOBYTE (Event_Value bus_event)) in
  cfg <- get_map channel_index ;;
  if Generic_Provider_Id bus_event =? Generic_Comm_Bus_Id cfg then
    inst <- get_instance channel_index ;;
    after_switch <-
      (if Bus_Instance_Channel inst =? Source_Instance_Id bus_event then
         match NVM_Current_Process inst with
         | NVDATA_PROCESS_WAIT_READ =>
             update_instance channel_index
               (set_NVM_Current_Process NVDATA_PROCESS_READ) ;;
             task <- get_Handler_Index ;;
             call (SystemTimers__SetTaskIdxNextCall task) ;;
             ret (Some true)
         | NVDATA_PROCESS_WAIT_WRITE =>
             update_instance channel_index
               (set_NVM_Current_Process NVDATA_PROCESS_WRITE) ;;
             task <- get_Handler_Index ;;
             call (SystemTimers__SetTaskIdxNextCall task) ;;
             ret (Some true)
         | _ => ret None
         end
       else ret (Some event_match)) ;;
    match after_switch with
    | None => ret loop_next
    | Some event_match =>
        if event_match : bool then
          inst <- get_instance channel_index ;;
          update_instance channel_index
            (set_NVM_Buffer_Progress (uint16 (NVM_Buffer_Progress inst + bus_length))) ;;
          handle <- get_Timeout_Handle ;;
          call (SystemTimers__ReleaseHandle handle) ;;
          put_Timeout_Handle INVALID_VALUE_8 ;;
          ret loop_break
        else ret loop_next
    end
  else ret loop_next.

Definition CommBusEventHandler (event : COMMON_I_CALLBACK_TYPE) : M unit :=
  for_each_break (seq 0 EXTERNAL_FLASH_CH_NUM) (CommBusEventHandler_channel event).

(** ** Runs: the entry points called one after the other *)

Inductive Entry : Set :=
| Call_Initialize
| Call_Handler
| Call_Read (instance_id : nat) (buffer data_address size : Z)
| Call_Write (instance_id : nat) (buffer data_address size : Z)
| Call_GetAllocation (client_id mirror_pointer nv_instance_offset : Z)
| Call_CommBusEvent (event : COMMON_I_CALLBACK_TYPE).

(** The value an entry point returns, as an integer ([void] as 0). *)
Definition enter (e : Entry) : M Z :=
  match e with
  | Call_Initialize => ExternalFlash__Initialize ;; ret 0
  | Call_Handler => ExternalFlash_Handler ;; ret 0
  | Call_Read i buffer address size =>
      r <- ExternalFlash__Read i buffer address size ;; ret (if r : bool then TRUE else FALSE)
  | Call_Write i buffer address size =>
      r <- ExternalFlash__Write i buffer address size ;; ret (if r : bool then TRUE else FALSE)
  | Call_GetAllocation client mirror offset =>
      ExternalFlash__GetAllocation client mirror offset
  | Call_CommBusEvent event => CommBusEventHandler event ;; ret 0
  end.

Fixpoint run (entries : list Entry) : M (list Z) :=
  match entries with
  | [] => ret []
  | e :: rest => r <- enter e ;; rs <- run rest ;; ret (r :: rs)
  end.

(** ** Functions of the file that nothing calls *)

(** The address of the static [Status_Register]. *)
Variable Status_Register : Z.

(** [SendCommand]: one command byte on the bus.  [success] starts as
    [TRUE]. *)
Definition SendCommand (instance_id : nat) (command_id : Z) : M bool :=
  let success := true in
  inst <- get_instance instance_id ;;
  cfg <- get_map instance_id ;;
  let write_handler := BusWrite (GENERIC_COMM_BUS_HANDLERS (Generic_Comm_Bus_Id cfg)) in
  if write_handler then
    r <- call (COMMBUS__WRITE (Generic_Comm_Bus_Id cfg) (Bus_Instance_Channel inst)
                 (HeaderBytes (object_bytes 1 (uint8 command_id))) 1) ;;
    if r =? TRUE then
      start_timeout ;;
      let success := true in
      ret success
    else ret success
  else ret success.

(** [ReadStatusRegister]: the length given to the bus is the value of
    [sizeof (EXTERNAL_FLASH_STATUS_REGISTER_TYPE) == TRUE], and the [if]
    tests what the bus returns. *)
Definition ReadStatusRegister (instance_id : nat) : M bool :=
  let success := false in
  inst <- get_instance instance_id ;;
  cfg <- get_map instance_id ;;
  let read_handler := BusRead (GENERIC_COMM_BUS_HANDLERS (Generic_Comm_Bus_Id cfg)) in
  if read_handler then
    r <- call (COMMBUS__READ (Generic_Comm_Bus_Id cfg) (Bus_Instance_Channel inst)
                 Status_Register
                 (if sizeof_EXTERNAL_FLASH_STATUS_REGISTER_TYPE =? TRUE then 1 else 0)) ;;
    if negb (r =? 0) then
      start_timeout ;;
      let success := true in
      ret success
    else ret success
  else ret success.

(** [ExternalFlash__IsBusy] and [ExternalFlash__CheckIntegrity]. *)
Definition ExternalFlash__IsBusy (externalflash_instance : nat) : bool :=
  let retval := true in retval.

Definition ExternalFlash__CheckIntegrity (flash_instance : nat) : bool :=
  let retval := true in retval.

(** ** Vocabulary of the statements *)

(** The calls of the timeout block. *)
Definition is_timeout_call (c : Call) : bool :=
  match c with
  | SystemTimers__AllocateHandle | SYS_ASSERT _ | SystemTimers__SetMs _ _ => true
  | _ => false
  end.

(** [d'] differs from [d] by the calls [t] and, at most, the timeout
    handle. *)
Definition advances (d d' : Driver) (t : list Call) : Prop :=
  ExternalFlash_Instance_Store d' = ExternalFlash_Instance_Store d /\
  ExternalFlash_Handler_Index d' = ExternalFlash_Handler_Index d /\
  trace d' = trace d ++ t.

(** The shape shared by [SendReadHeader], [ReadData], [SendWriteHeader]
    and [WriteData] once the instance and its map entry are read. *)
Definition bus_request (handler : bool) (c : Call) : M bool :=
  if handler then
    r <- call c ;;
    if r =? TRUE then start_timeout ;; ret true else ret false
  else ret false.

(** The guard of both entry points on the instance: a bound channel, no
    process, state [IDLE]. *)
Definition instance_free (inst : NVMEMORY_INSTANCE_TYPE) : bool :=
  negb (Bus_Instance_Channel inst =? INVALID_VALUE_8) &&
  match NVM_Current_Process inst, NVM_State inst with
  | NVDATA_PROCESS_NONE, EXTERNAL_FLASH_STATE_IDLE => true
  | _, _ => false
  end.

(** A call on instance [i] is rejected: the id is out of range, or the
    instance is unbound, or it is not idle with process none. *)
Definition rejected (d : Driver) (i : nat) : Prop :=
  (EXTERNAL_FLASH_CH_NUM <= i)%nat \/
  exists inst, ExternalFlash_Instance_Store d !! i = Some inst /\
    (Bus_Instance_Channel inst = INVALID_VALUE_8 \/
     NVM_Current_Process inst <> NVDATA_PROCESS_NONE \/
     NVM_State inst <> EXTERNAL_FLASH_STATE_IDLE).

(** The run-state an accepted call leaves in the instance. *)
Definition accepted_instance (inst : NVMEMORY_INSTANCE_TYPE) (buffer data_address size : Z)
    (state : EXTERNAL_FLASH_STATE_TYPE) : NVMEMORY_INSTANCE_TYPE :=
  set_NVM_State state
    (set_NVM_Current_Process NVDATA_PROCESS_WAIT_WRITE
       (set_NVM_Buffer_Progress 0
          (set_NVM_Buffer_Size size
             (set_NVM_Target_Address (uint32 (NVM_Instance_Memory_Offset inst + data_address))
                (set_NVM_Buffer_Pointer buffer inst))))).

(** [m] is defined on [d], and its result and final driver satisfy [Q]. *)
Definition wp {A} (m : M A) (d : Driver) (Q : A -> Driver -> Prop) : Prop :=
  exists a d', m d = Some (a, d') /\ Q a d'.

(** A call that passes the guard while the transaction does not start:
    the provider has no start function, or the start is refused. *)
Definition start_fails (d : Driver) (inst : NVMEMORY_INSTANCE_TYPE)
    (cfg : EXTERNAL_FLASH_MAP_TYPE) : Prop :=
  BusStartTransaction (GENERIC_COMM_BUS_HANDLERS (Generic_Comm_Bus_Id cfg)) = false \/
  respond (trace d)
    (COMMBUS__STARTTRANSACTION (Generic_Comm_Bus_Id cfg) (Bus_Instance_Channel inst)) <> TRUE.

(** The event is for an instance that waits for it: the provider id is
    the one of the instance's map entry, the channel handle is the one of
    the instance, and its process is [WAIT_READ] or [WAIT_WRITE]. *)
Definition event_finds_waiting_instance (d : Driver) (event : COMMON_I_CALLBACK_TYPE)
    : Prop :=
  exists i cfg inst,
    ExternalFlash_Map !! i = Some cfg /\
    ExternalFlash_Instance_Store d !! i = Some inst /\
    Generic_Provider_Id event = Generic_Comm_Bus_Id cfg /\
    Bus_Instance_Channel inst = Source_Instance_Id event /\
    (NVM_Current_Process inst = NVDATA_PROCESS_WAIT_READ \/
     NVM_Current_Process inst = NVDATA_PROCESS_WAIT_WRITE).

(** The instance is as [ExternalFlash__Initialize] leaves it. *)
Definition uninitialised (inst : NVMEMORY_INSTANCE_TYPE) : Prop :=
  NVM_State inst = EXTERNAL_FLASH_STATE_INITIALIZE /\
  NVM_Current_Process inst = NVDATA_PROCESS_NONE.

Definition all_uninitialised (d : Driver) : Prop :=
  length (ExternalFlash_Instance_Store d) = EXTERNAL_FLASH_CH_NUM /\
  Forall uninitialised (ExternalFlash_Instance_Store d).

(** The notifications among the calls of a trace, with the source id each
    was given to the registry with. *)
Definition notifications (t : list Call) : list (COMMON_I_CALLBACK_TYPE * Z) :=
  omap (fun c => match c with
                 | Callback__Notify event source => Some (event, source)
                 | _ => None
                 end) t.

(** The payload writes among the calls of a trace: buffer address and
    size. *)
Definition payload_writes (t : list Call) : list (Z * Z) :=
  omap (fun c => match c with
                 | COMMBUS__WRITE _ _ (ClientBuffer pointer) size => Some (pointer, size)
                 | _ => None
                 end) t.

(** The headers among the calls of a trace. *)
Definition header_writes (t : list Call) : list (list Z) :=
  omap (fun c => match c with
                 | COMMBUS__WRITE _ _ (HeaderBytes bytes) _ => Some bytes
                 | _ => None
                 end) t.

(** The operation of the instance is complete: the poll step notifies. *)
Definition completed (inst : NVMEMORY_INSTANCE_TYPE) : Prop :=
  (NVM_State inst = EXTERNAL_FLASH_STATE_READ /\
   NVM_Current_Process inst = NVDATA_PROCESS_READ) \/
  (NVM_State inst = EXTERNAL_FLASH_STATE_WRITE /\
   NVM_Current_Process inst = NVDATA_PROCESS_WRITE /\
   NVM_Buffer_Size inst <= NVM_Buffer_Progress inst).

(** The notification of a completed instance: the instance id, this
    module's provider id, and the process marker packed with the
    requested size. *)
Definition completion_event (instance_id : nat) (inst : NVMEMORY_INSTANCE_TYPE)
    : COMMON_I_CALLBACK_TYPE :=
  {| Generic_Provider_Id := GENERIC_NVDATA_EXTERNAL_FLASH;
     Source_Instance_Id := Z.of_nat instance_id;
     Event_Value := COMBINE_BYTES (NVDATA_PROCESS_value (NVM_Current_Process inst))
                                  (NVM_Buffer_Size inst) |}.

(** What one turn of the poll loop does for instance [i]: it leaves the
    other instances alone, and notifies at most once, when the instance
    is complete. *)
Definition instance_turn (d : Driver) (i : nat) (d' : Driver) : Prop :=
  exists t,
    trace d' = trace d ++ t /\
    (forall j, j <> i ->
       ExternalFlash_Instance_Store d' !! j = ExternalFlash_Instance_Store d !! j) /\
    (notifications t = [] \/
     exists inst,
       ExternalFlash_Instance_Store d !! i = Some inst /\ completed inst /\
       notifications t = [(completion_event i inst, Z.of_nat i)]).

(** A notification of the poll loop run from [d0]: the completion event
    of an instance that is complete in [d0]. *)
Definition completion_of (d0 : Driver) (n : COMMON_I_CALLBACK_TYPE * Z) : Prop :=
  exists i inst,
    ExternalFlash_Instance_Store d0 !! i = Some inst /\ completed inst /\
    n = (completion_event i inst, Z.of_nat i).

(** C7 as the claim states it: a notification of the poll loop carries
    the instance id and the process marker packed with the number of
    bytes transferred ([NVM_Buffer_Progress]). *)
Definition notification_carries_transferred_bytes (d : Driver) : Prop :=
  forall d' t event source,
    ExternalFlash_Handler d = Some (tt, d') ->
    trace d' = trace d ++ t ->
    Callback__Notify event source ∈ t ->
    exists i inst,
      ExternalFlash_Instance_Store d !! i = Some inst /\
      Source_Instance_Id event = Z.of_nat i /\
      Event_Value event =
        COMBINE_BYTES (NVDATA_PROCESS_value (NVM_Current_Process inst))
                      (NVM_Buffer_Progress inst).

(** The value [FALSE] for the entries that are a [Read] or a [Write]. *)
Definition refused (e : Entry) (r : Z) : Prop :=
  match e with
  | Call_Read _ _ _ _ | Call_Write _ _ _ _ => r = FALSE
  | _ => True
  end.

(** The entries that come from outside while an operation is in flight:
    poll steps and bus events. *)
Definition poll_or_event (e : Entry) : Prop :=
  match e with
  | Call_Handler | Call_CommBusEvent _ => True
  | _ => False
  end.

(** Instance [i] has sent a chunk and has more to send. *)
Definition chunk_sent (d : Driver) (i : nat) (inst : NVMEMORY_INSTANCE_TYPE) : Prop :=
  ExternalFlash_Instance_Store d !! i = Some inst /\
  NVM_State inst = EXTERNAL_FLASH_STATE_WRITE /\
  NVM_Current_Process inst = NVDATA_PROCESS_WRITE /\
  NVM_Buffer_Progress inst < NVM_Buffer_Size inst.

(** From [d] to [d'] the run-state of instance [i] is kept, and no
    notification is sent for it. *)
Definition kept_waiting (d d' : Driver) (i : nat) (inst : NVMEMORY_INSTANCE_TYPE) : Prop :=
  ExternalFlash_Instance_Store d' !! i = Some inst /\
  exists t, trace d' = trace d ++ t /\
            Forall (fun n => snd n <> Z.of_nat i) (notifications t).

(** The map entry at [i] is the first one with channel [client_id]. *)
Definition first_entry_of (client_id : Z) (i : nat) : Prop :=
  (exists cfg, ExternalFlash_Map !! i = Some cfg /\ ExternalFlash_Channel cfg = client_id) /\
  forall j cfg, (j < i)%nat -> ExternalFlash_Map !! j = Some cfg ->
                ExternalFlash_Channel cfg <> client_id.

(** The instance once bound to a mirror and a memory offset. *)
Definition bound_instance (mirror_pointer nv_instance_offset : Z)
    (inst : NVMEMORY_INSTANCE_TYPE) : NVMEMORY_INSTANCE_TYPE :=
  set_NVM_Instance_Memory_Offset nv_instance_offset
    (set_NVM_Mirror_Pointer mirror_pointer inst).

(** The tests a bus event makes on an instance, in the order of the
    source: provider of the map entry, channel handle, a process that
    waits. *)
Definition waits_for (event : COMMON_I_CALLBACK_TYPE) (cfg : EXTERNAL_FLASH_MAP_TYPE)
    (inst : NVMEMORY_INSTANCE_TYPE) : bool :=
  (Generic_Provider_Id event =? Generic_Comm_Bus_Id cfg) &&
  (Bus_Instance_Channel inst =? Source_Instance_Id event) &&
  match NVM_Current_Process inst with
  | NVDATA_PROCESS_WAIT_READ | NVDATA_PROCESS_WAIT_WRITE => true
  | _ => false
  end.

(** The process a waiting process becomes when its event arrives. *)
Definition served_process (p : NVDATA_PROCESS_TYPE) : NVDATA_PROCESS_TYPE :=
  match p with
  | NVDATA_PROCESS_WAIT_READ => NVDATA_PROCESS_READ
  | NVDATA_PROCESS_WAIT_WRITE => NVDATA_PROCESS_WRITE
  | p => p
  end.

(** The instance an event was for, after the event. *)
Definition served_instance (event : COMMON_I_CALLBACK_TYPE) (inst : NVMEMORY_INSTANCE_TYPE)
    : NVMEMORY_INSTANCE_TYPE :=
  set_NVM_Buffer_Progress
    (uint16 (NVM_Buffer_Progress inst + uint8 (LOBYTE (Event_Value event))))
    (set_NVM_Current_Process (served_process (NVM_Current_Process inst)) inst).

(** Instance [i] is the first, in the order of the map, that waits for the
    event. *)
Definition first_waiting (d : Driver) (event : COMMON_I_CALLBACK_TYPE) (i : nat)
    (inst : NVMEMORY_INSTANCE_TYPE) : Prop :=
  length (ExternalFlash_Instance_Store d) = EXTERNAL_FLASH_CH_NUM /\
  ExternalFlash_Instance_Store d !! i = Some inst /\
  (exists cfg, ExternalFlash_Map !! i = Some cfg /\ waits_for event cfg inst = true) /\
  forall j cfg_j inst_j,
    (j < i)%nat -> ExternalFlash_Map !! j = Some cfg_j ->
    ExternalFlash_Instance_Store d !! j = Some inst_j ->
    waits_for event cfg_j inst_j = false.

(** What a bus event can change in an instance: its process and its
    progress count, nothing else. *)
Definition same_request (inst inst' : NVMEMORY_INSTANCE_TYPE) : Prop :=
  Bus_Instance_Channel inst' = Bus_Instance_Channel inst /\
  NVM_State inst' = NVM_State inst /\
  NVM_Target_Address inst' = NVM_Target_Address inst /\
  NVM_Buffer_Pointer inst' = NVM_Buffer_Pointer inst /\
  NVM_Buffer_Size inst' = NVM_Buffer_Size inst /\
  NVM_Mirror_Pointer inst' = NVM_Mirror_Pointer inst /\
  NVM_Instance_Memory_Offset inst' = NVM_Instance_Memory_Offset inst.

(** The (state, process) pairs on which the poll step acts. *)
Definition poll_pending (inst : NVMEMORY_INSTANCE_TYPE) : bool :=
  match NVM_State inst, NVM_Current_Process inst with
  | EXTERNAL_FLASH_STATE_SEND_READ_HEADER, NVDATA_PROCESS_WRITE
  | EXTERNAL_FLASH_STATE_READ, NVDATA_PROCESS_READ
  | EXTERNAL_FLASH_STATE_SEND_WRITE_HEADER, NVDATA_PROCESS_WRITE
  | EXTERNAL_FLASH_STATE_WRITE, NVDATA_PROCESS_WRITE => true
  | _, _ => false
  end.

(** The store has its size, and no instance but [i] is one the poll step
    acts on. *)
Definition only_pending (d : Driver) (i : nat) : Prop :=
  length (ExternalFlash_Instance_Store d) = EXTERNAL_FLASH_CH_NUM /\
  forall j inst, j <> i -> ExternalFlash_Instance_Store d !! j = Some inst ->
                 poll_pending inst = false.

(** The store has its size, and the poll step acts on no instance. *)
Definition none_pending (d : Driver) : Prop :=
  length (ExternalFlash_Instance_Store d) = EXTERNAL_FLASH_CH_NUM /\
  Forall (fun inst => poll_pending inst = false) (ExternalFlash_Instance_Store d).

(** The driver after an event was served to instance [i]: the instance is
    marked, the polling task is asked to run, the timeout timer is
    released and its handle invalidated. *)
Definition served_driver (d : Driver) (event : COMMON_I_CALLBACK_TYPE) (i : nat)
    (inst : NVMEMORY_INSTANCE_TYPE) : Driver :=
  {| ExternalFlash_Instance_Store :=
       <[i := served_instance event inst]> (ExternalFlash_Instance_Store d);
     ExternalFlash_Handler_Index := ExternalFlash_Handler_Index d;
     ExternalFlash_Timeout_Handle := INVALID_VALUE_8;
     trace := trace d ++ [SystemTimers__SetTaskIdxNextCall (ExternalFlash_Handler_Index d);
                          SystemTimers__ReleaseHandle (ExternalFlash_Timeout_Handle d)] |}.

(** The instance back to idle. *)
Definition idle_again (inst : NVMEMORY_INSTANCE_TYPE) : NVMEMORY_INSTANCE_TYPE :=
  set_NVM_State EXTERNAL_FLASH_STATE_IDLE
    (set_NVM_Current_Process NVDATA_PROCESS_NONE inst).

(** The calls of a completing poll step. *)
Definition completion_calls (i : nat) (inst : NVMEMORY_INSTANCE_TYPE)
    (cfg : EXTERNAL_FLASH_MAP_TYPE) : list Call :=
  COMMBUS__STOPTRANSACTION (Generic_Comm_Bus_Id cfg) (Bus_Instance_Channel inst) ::
  match NVM_State inst with
  | EXTERNAL_FLASH_STATE_WRITE =>
      if ExternalFlash_WP_Feature cfg
      then [GENERIC_IO_DIGITALIO_Write (ExternalFlash_WP_Pin cfg)
              (negb (ExternalFlash_WP_Level cfg))]
      else []
  | _ => []
  end ++
  [Callback__Notify (completion_event i inst) (Z.of_nat i)].

(** The provider of the map entry never starts a transaction on the
    channel: it has no start function, or it refuses every time. *)
Definition start_never_accepted (cfg : EXTERNAL_FLASH_MAP_TYPE) (channel : Z) : Prop :=
  BusStartTransaction (GENERIC_COMM_BUS_HANDLERS (Generic_Comm_Bus_Id cfg)) = false \/
  forall t, respond t (COMMBUS__STARTTRANSACTION (Generic_Comm_Bus_Id cfg) channel) <> TRUE.

(** The calls of a poll step that tries to start a transaction. *)
Definition start_attempt (cfg : EXTERNAL_FLASH_MAP_TYPE) (channel : Z) : list Call :=
  if BusStartTransaction (GENERIC_COMM_BUS_HANDLERS (Generic_Comm_Bus_Id cfg))
  then [COMMBUS__STARTTRANSACTION (Generic_Comm_Bus_Id cfg) channel]
  else [].

(** The poll step stops the transaction of the instance: (read, read) or
    (write, write). *)
Definition stops_transaction (inst : NVMEMORY_INSTANCE_TYPE) : Prop :=
  (NVM_State inst = EXTERNAL_FLASH_STATE_READ /\
   NVM_Current_Process inst = NVDATA_PROCESS_READ) \/
  (NVM_State inst = EXTERNAL_FLASH_STATE_WRITE /\
   NVM_Current_Process inst = NVDATA_PROCESS_WRITE).

(** The four functions that put a request on the bus. *)
Inductive BUS_FUNCTION : Set :=
| Send_Read_Header
| Read_Data
| Send_Write_Header
| Write_Data (write_size : Z).

Definition bus_function (f : BUS_FUNCTION) (instance_id : nat) : M bool :=
  match f with
  | Send_Read_Header => SendReadHeader instance_id
  | Read_Data => ReadData instance_id
  | Send_Write_Header => SendWriteHeader instance_id
  | Write_Data write_size => WriteData instance_id write_size
  end.

(** The function of the provider each of them needs, and the call it
    makes. *)
Definition bus_handler_of (f : BUS_FUNCTION) (cfg : EXTERNAL_FLASH_MAP_TYPE) : bool :=
  match f with
  | Read_Data => BusRead (GENERIC_COMM_BUS_HANDLERS (Generic_Comm_Bus_Id cfg))
  | _ => BusWrite (GENERIC_COMM_BUS_HANDLERS (Generic_Comm_Bus_Id cfg))
  end.

Definition bus_call_of (f : BUS_FUNCTION) (cfg : EXTERNAL_FLASH_MAP_TYPE)
    (inst : NVMEMORY_INSTANCE_TYPE) : Call :=
  match f with
  | Send_Read_Header =>
      COMMBUS__WRITE (Generic_Comm_Bus_Id cfg) (Bus_Instance_Channel inst)
        (HeaderBytes (header_bytes (read_header (NVM_Target_Address inst))))
        (sizeof_header (read_header (NVM_Target_Address inst)))
  | Read_Data =>
      COMMBUS__READ (Generic_Comm_Bus_Id cfg) (Bus_Instance_Channel inst)
        (NVM_Buffer_Pointer inst) (NVM_Buffer_Size inst)
  | Send_Write_Header =>
      COMMBUS__WRITE (Generic_Comm_Bus_Id cfg) (Bus_Instance_Channel inst)
        (HeaderBytes (header_bytes
           (write_header (NVM_Target_Address inst) (NVM_Buffer_Progress inst))))
        (sizeof_header (write_header (NVM_Target_Address inst) (NVM_Buffer_Progress inst)))
  | Write_Data write_size =>
      COMMBUS__WRITE (Generic_Comm_Bus_Id cfg) (Bus_Instance_Channel inst)
        (ClientBuffer (NVM_Buffer_Pointer inst + NVM_Buffer_Progress inst)) write_size
  end.

(** The timer calls that arm the timeout with the handle [handle]. *)
Definition timeout_calls (handle : Z) : list Call :=
  [SystemTimers__AllocateHandle;
   SYS_ASSERT (negb (handle =? INVALID_VALUE_8));
   SystemTimers__SetMs handle EXTERNAL_FLASH_WAIT_TIMEOUT_MS].

(** The request fields of an instance are zero. *)
Definition request_cleared (inst : NVMEMORY_INSTANCE_TYPE) : Prop :=
  NVM_Target_Address inst = 0 /\
  NVM_Buffer_Pointer inst = NULL /\
  NVM_Buffer_Size inst = 0 /\
  NVM_Buffer_Progress inst = 0 /\
  NVM_Mirror_Pointer inst = NULL /\
  NVM_Instance_Memory_Offset inst = 0.

(** The store right after [ExternalFlash__Initialize]: one cleared slot
    per map entry, with channel 0 where the provider has no allocation
    function. *)
Definition store_initialised (store : list NVMEMORY_INSTANCE_TYPE) : Prop :=
  length store = EXTERNAL_FLASH_CH_NUM /\
  Forall request_cleared store /\
  forall j cfg inst,
    ExternalFlash_Map !! j = Some cfg -> store !! j = Some inst ->
    BusGetAllocation (GENERIC_COMM_BUS_HANDLERS (Generic_Comm_Bus_Id cfg)) = false ->
    Bus_Instance_Channel inst = 0.

(** No instance but [i] has an operation in flight. *)
Definition others_at_rest (d : Driver) (i : nat) : Prop :=
  length (ExternalFlash_Instance_Store d) = EXTERNAL_FLASH_CH_NUM /\
  forall j inst, j <> i -> ExternalFlash_Instance_Store d !! j = Some inst ->
                 NVM_Current_Process inst = NVDATA_PROCESS_NONE.

(** The event comes from the provider and the channel of the instance. *)
Definition event_for (event : COMMON_I_CALLBACK_TYPE) (cfg : EXTERNAL_FLASH_MAP_TYPE)
    (inst : NVMEMORY_INSTANCE_TYPE) : Prop :=
  Generic_Provider_Id event = Generic_Comm_Bus_Id cfg /\
  Source_Instance_Id event = Bus_Instance_Channel inst.

(** The length a bus event reports. *)
Definition event_length (event : COMMON_I_CALLBACK_TYPE) : Z :=
  uint8 (LOBYTE (Event_Value event)).

(** The instance at the end of an operation that took two bus events. *)
Definition finished_instance (inst : NVMEMORY_INSTANCE_TYPE) (buffer data_address size : Z)
    (header_event payload_event : COMMON_I_CALLBACK_TYPE) : NVMEMORY_INSTANCE_TYPE :=
  {| Bus_Instance_Channel := Bus_Instance_Channel inst;
     NVM_State := EXTERNAL_FLASH_STATE_IDLE;
     NVM_Current_Process := NVDATA_PROCESS_NONE;
     NVM_Target_Address := uint32 (NVM_Instance_Memory_Offset inst + data_address);
     NVM_Buffer_Pointer := buffer;
     NVM_Buffer_Size := size;
     NVM_Buffer_Progress :=
       uint16 (uint16 (0 + event_length header_event) + event_length payload_event);
     NVM_Mirror_Pointer := NVM_Mirror_Pointer inst;
     NVM_Instance_Memory_Offset := NVM_Instance_Memory_Offset inst |}.

(** The bus reads among the calls of a trace: buffer address and size. *)
Definition payload_reads (t : list Call) : list (Z * Z) :=
  omap (fun c => match c with
                 | COMMBUS__READ _ _ pointer size => Some (pointer, size)
                 | _ => None
                 end) t.

(** The provider of the map entry starts a transaction on the channel
    whenever it is asked. *)
Definition start_always_accepted (cfg : EXTERNAL_FLASH_MAP_TYPE) (channel : Z) : Prop :=
  BusStartTransaction (GENERIC_COMM_BUS_HANDLERS (Generic_Comm_Bus_Id cfg)) = true /\
  forall t, respond t (COMMBUS__STARTTRANSACTION (Generic_Comm_Bus_Id cfg) channel) = TRUE.

(** The instance of an accepted write once the event for its header has
    arrived. *)
Definition header_sent_instance (inst : NVMEMORY_INSTANCE_TYPE)
    (buffer data_address size : Z) (header_event : COMMON_I_CALLBACK_TYPE)
    : NVMEMORY_INSTANCE_TYPE :=
  served_instance header_event
    (accepted_instance inst buffer data_address size EXTERNAL_FLASH_STATE_SEND_WRITE_HEADER).

(** The instance of a write that the second poll finds short of bytes. *)
Definition unfinished_instance (inst : NVMEMORY_INSTANCE_TYPE) (buffer data_address size : Z)
    (header_event payload_event : COMMON_I_CALLBACK_TYPE) : NVMEMORY_INSTANCE_TYPE :=
  set_NVM_State EXTERNAL_FLASH_STATE_WRITE
    (set_NVM_Current_Process NVDATA_PROCESS_WRITE
       (finished_instance inst buffer data_address size header_event payload_event)).

(** Every provider of the map has a stop function. *)
Definition stop_functions_present : Prop :=
  forall i cfg, ExternalFlash_Map !! i = Some cfg ->
    BusStopTransaction (GENERIC_COMM_BUS_HANDLERS (Generic_Comm_Bus_Id cfg)) = true.

(** The store has one slot per map entry. *)
Definition store_sized (d : Driver) : Prop :=
  length (ExternalFlash_Instance_Store d) = EXTERNAL_FLASH_CH_NUM.

(** Two events that differ at most in the high byte of their value, the
    process the bus announces. *)
Definition same_but_process (event event' : COMMON_I_CALLBACK_TYPE) : Prop :=
  Generic_Provider_Id event = Generic_Provider_Id event' /\
  Source_Instance_Id event = Source_Instance_Id event' /\
  LOBYTE (Event_Value event) = LOBYTE (Event_Value event').

(** * Properties *)

(** ** Basic facts about computations *)

Lemma bind_Some {A B} (m : M A) (k : A -> M B) d a d' :
  m d = Some (a, d') -> bind m k d = k a d'.
Proof. intros H. unfold bind. now rewrite H. Qed.

Lemma bind_inv {A B} (m : M A) (k : A -> M B) d b d'' :
  bind m k d = Some (b, d'') ->
  exists a d', m d = Some (a, d') /\ k a d' = Some (b, d'').
Proof.
  unfold bind. destruct (m d) as [[a d']|]; [|discriminate].
  intros H. now exists a, d'.
Qed.

Lemma get_instance_Some i d inst :
  ExternalFlash_Instance_Store d !! i = Some inst -> get_instance i d = Some (inst, d).
Proof. intros H. unfold get_instance. now rewrite H. Qed.

Lemma get_map_Some i d cfg :
  ExternalFlash_Map !! i = Some cfg -> get_map i d = Some (cfg, d).
Proof. intros H. unfold get_map. now rewrite H. Qed.

Lemma update_instance_Some i f d inst :
  ExternalFlash_Instance_Store d !! i = Some inst ->
  update_instance i f d =
    Some (tt, set_Instance_Store (<[i := f inst]> (ExternalFlash_Instance_Store d)) d).
Proof. intros H. unfold update_instance. now rewrite H. Qed.

Ltac bind_with H :=
  erewrite bind_Some;
  [|first [ exact H
          | apply get_instance_Some; exact H
          | apply get_map_Some; exact H
          | apply update_instance_Some; exact H ]].

Lemma lookup_insert_same {A} (l : list A) i x y :
  l !! i = Some x -> <[i := y]> l !! i = Some y.
Proof. intros H. apply list_lookup_insert_eq. eapply lookup_lt_Some, H. Qed.

Lemma map_index_in_range i :
  (i < EXTERNAL_FLASH_CH_NUM)%nat -> exists cfg, ExternalFlash_Map !! i = Some cfg.
Proof. intros H. apply lookup_lt_is_Some_2 in H. destruct H as [cfg H]. eauto. Qed.

Lemma advances_refl d : advances d d [].
Proof. unfold advances. now rewrite app_nil_r. Qed.

Lemma advances_trans d1 d2 d3 t1 t2 :
  advances d1 d2 t1 -> advances d2 d3 t2 -> advances d1 d3 (t1 ++ t2).
Proof.
  unfold advances. intros (S1 & H1 & T1) (S2 & H2 & T2).
  rewrite S2, S1, H2, H1, T2, T1, app_assoc. auto.
Qed.

Lemma call_advances c d :
  call c d = Some (respond (trace d) c, set_trace (trace d ++ [c]) d) /\
  advances d (set_trace (trace d ++ [c]) d) [c].
Proof. split; [reflexivity|]. unfold advances. simpl. auto. Qed.

Lemma start_timeout_spec d :
  exists d' t, start_timeout d = Some (tt, d') /\ advances d d' t /\
               forallb is_timeout_call t = true.
Proof.
  unfold start_timeout, bind, get_Timeout_Handle, put_Timeout_Handle, call, ret.
  destruct (ExternalFlash_Timeout_Handle d =? INVALID_VALUE_8).
  - eexists _, _. split; [reflexivity|]. split.
    + unfold advances. simpl. repeat split. rewrite <- !app_assoc. simpl. reflexivity.
    + reflexivity.
  - exists d, []. split; [reflexivity|]. split; [apply advances_refl|reflexivity].
Qed.

Lemma bus_request_spec handler c d :
  exists r d' t, bus_request handler c d = Some (r, d') /\
    advances d d' ((if handler then [c] else []) ++ t) /\
    forallb is_timeout_call t = true.
Proof.
  unfold bus_request. destruct handler.
  - destruct (call_advances c d) as [Hc Ha].
    bind_with Hc.
    destruct (respond (trace d) c =? TRUE).
    + destruct (start_timeout_spec (set_trace (trace d ++ [c]) d)) as (d' & t & Hs & Ht & Hf).
      bind_with Hs. exists true, d', t.
      split; [reflexivity|]. split; [|exact Hf].
      eapply advances_trans; eauto.
    + exists false, (set_trace (trace d ++ [c]) d), [].
      split; [reflexivity|]. split; [|reflexivity]. now rewrite app_nil_r.
  - exists false, d, []. split; [reflexivity|]. split; [apply advances_refl|reflexivity].
Qed.

Section WithInstance.
Variables (d : Driver) (i : nat) (inst : NVMEMORY_INSTANCE_TYPE)
          (cfg : EXTERNAL_FLASH_MAP_TYPE).
Hypothesis Hinst : ExternalFlash_Instance_Store d !! i = Some inst.
Hypothesis Hcfg : ExternalFlash_Map !! i = Some cfg.

Lemma SendReadHeader_eq :
  SendReadHeader i d =
  bus_request (BusWrite (GENERIC_COMM_BUS_HANDLERS (Generic_Comm_Bus_Id cfg)))
    (COMMBUS__WRITE (Generic_Comm_Bus_Id cfg) (Bus_Instance_Channel inst)
       (HeaderBytes (header_bytes (read_header (NVM_Target_Address inst))))
       (sizeof_header (read_header (NVM_Target_Address inst)))) d.
Proof.
  unfold SendReadHeader.
  bind_with Hinst.
  bind_with Hcfg. reflexivity.
Qed.

Lemma SendWriteHeader_eq :
  SendWriteHeader i d =
  bus_request (BusWrite (GENERIC_COMM_BUS_HANDLERS (Generic_Comm_Bus_Id cfg)))
    (COMMBUS__WRITE (Generic_Comm_Bus_Id cfg) (Bus_Instance_Channel inst)
       (HeaderBytes (header_bytes
          (write_header (NVM_Target_Address inst) (NVM_Buffer_Progress inst))))
       (sizeof_header
          (write_header (NVM_Target_Address inst) (NVM_Buffer_Progress inst)))) d.
Proof.
  unfold SendWriteHeader.
  bind_with Hinst.
  bind_with Hcfg. reflexivity.
Qed.

Lemma ReadData_eq :
  ReadData i d =
  bus_request (BusRead (GENERIC_COMM_BUS_HANDLERS (Generic_Comm_Bus_Id cfg)))
    (COMMBUS__READ (Generic_Comm_Bus_Id cfg) (Bus_Instance_Channel inst)
       (NVM_Buffer_Pointer inst) (NVM_Buffer_Size inst)) d.
Proof.
  unfold ReadData.
  bind_with Hinst.
  bind_with Hcfg. reflexivity.
Qed.

Lemma WriteData_eq size :
  WriteData i size d =
  bus_request (BusWrite (GENERIC_COMM_BUS_HANDLERS (Generic_Comm_Bus_Id cfg)))
    (COMMBUS__WRITE (Generic_Comm_Bus_Id cfg) (Bus_Instance_Channel inst)
       (ClientBuffer (NVM_Buffer_Pointer inst + NVM_Buffer_Progress inst)) size) d.
Proof.
  unfold WriteData.
  bind_with Hinst.
  bind_with Hcfg. reflexivity.
Qed.
End WithInstance.

Lemma SendReadHeader_spec d i inst cfg :
  ExternalFlash_Instance_Store d !! i = Some inst ->
  ExternalFlash_Map !! i = Some cfg ->
  exists r d' t, SendReadHeader i d = Some (r, d') /\
    advances d d'
      ((if BusWrite (GENERIC_COMM_BUS_HANDLERS (Generic_Comm_Bus_Id cfg))
        then [COMMBUS__WRITE (Generic_Comm_Bus_Id cfg) (Bus_Instance_Channel inst)
                (HeaderBytes (header_bytes (read_header (NVM_Target_Address inst))))
                (sizeof_header (read_header (NVM_Target_Address inst)))]
        else []) ++ t) /\
    forallb is_timeout_call t = true.
Proof.
  intros Hinst Hcfg. rewrite (SendReadHeader_eq d i inst cfg Hinst Hcfg).
  apply bus_request_spec.
Qed.

Lemma SendWriteHeader_spec d i inst cfg :
  ExternalFlash_Instance_Store d !! i = Some inst ->
  ExternalFlash_Map !! i = Some cfg ->
  exists r d' t, SendWriteHeader i d = Some (r, d') /\
    advances d d'
      ((if BusWrite (GENERIC_COMM_BUS_HANDLERS (Generic_Comm_Bus_Id cfg))
        then [COMMBUS__WRITE (Generic_Comm_Bus_Id cfg) (Bus_Instance_Channel inst)
                (HeaderBytes (header_bytes
                   (write_header (NVM_Target_Address inst) (NVM_Buffer_Progress inst))))
                (sizeof_header
                   (write_header (NVM_Target_Address inst) (NVM_Buffer_Progress inst)))]
        else []) ++ t) /\
    forallb is_timeout_call t = true.
Proof.
  intros Hinst Hcfg. rewrite (SendWriteHeader_eq d i inst cfg Hinst Hcfg).
  apply bus_request_spec.
Qed.

Lemma ReadData_spec d i inst cfg :
  ExternalFlash_Instance_Store d !! i = Some inst ->
  ExternalFlash_Map !! i = Some cfg ->
  exists r d' t, ReadData i d = Some (r, d') /\
    advances d d'
      ((if BusRead (GENERIC_COMM_BUS_HANDLERS (Generic_Comm_Bus_Id cfg))
        then [COMMBUS__READ (Generic_Comm_Bus_Id cfg) (Bus_Instance_Channel inst)
                (NVM_Buffer_Pointer inst) (NVM_Buffer_Size inst)]
        else []) ++ t) /\
    forallb is_timeout_call t = true.
Proof.
  intros Hinst Hcfg. rewrite (ReadData_eq d i inst cfg Hinst Hcfg).
  apply bus_request_spec.
Qed.

Lemma WriteData_spec d i inst cfg size :
  ExternalFlash_Instance_Store d !! i = Some inst ->
  ExternalFlash_Map !! i = Some cfg ->
  exists r d' t, WriteData i size d = Some (r, d') /\
    advances d d'
      ((if BusWrite (GENERIC_COMM_BUS_HANDLERS (Generic_Comm_Bus_Id cfg))
        then [COMMBUS__WRITE (Generic_Comm_Bus_Id cfg) (Bus_Instance_Channel inst)
                (ClientBuffer (NVM_Buffer_Pointer inst + NVM_Buffer_Progress inst)) size]
        else []) ++ t) /\
    forallb is_timeout_call t = true.
Proof.
  intros Hinst Hcfg. rewrite (WriteData_eq d i inst cfg Hinst Hcfg).
  apply bus_request_spec.
Qed.

(** Runs the plumbing of a computation applied to a driver, using the
    lookups known from the context. *)
Ltac monad_cbn :=
  unfold set_Instance_Store, set_Handler_Index, set_Timeout_Handle, set_trace;
  cbn [ExternalFlash_Instance_Store ExternalFlash_Handler_Index
       ExternalFlash_Timeout_Handle trace fst snd negb andb].
Ltac monad_cbn_in H :=
  unfold set_Instance_Store, set_Handler_Index, set_Timeout_Handle, set_trace in H;
  cbn [ExternalFlash_Instance_Store ExternalFlash_Handler_Index
       ExternalFlash_Timeout_Handle trace fst snd negb andb] in H.
Ltac monad_rewrite :=
  match goal with
  | H : ExternalFlash_Map !! ?i = Some _ |- context [ExternalFlash_Map !! ?i] =>
      rewrite H
  | H : ?l !! ?i = Some _ |- context [?l !! ?i] => rewrite H
  | |- context [<[?i := _]> (<[?i := _]> _)] => rewrite list_insert_insert_eq
  | H : ?l !! ?i = Some _ |- context [<[?i := ?y]> ?l !! ?i] =>
      rewrite (lookup_insert_same l i _ y H)
  end.
Ltac monad :=
  unfold bind, ret, call, call_unchecked, undefined, get_map, get_instance,
    update_instance, get_Timeout_Handle, put_Timeout_Handle, get_Handler_Index,
    put_Handler_Index;
  monad_cbn; repeat (monad_rewrite; monad_cbn).

(** ** The wire headers *)

Lemma write_header_opcode target progress :
  ExternalFlash_OpCode_Cmd (write_header target progress) = EXTERNAL_FLASH_CMD_READ_MEMORY.
Proof. reflexivity. Qed.

Lemma write_header_bytes target progress :
  exists address,
    header_bytes (write_header target progress) = EXTERNAL_FLASH_CMD_READ_MEMORY :: address /\
    length address = 3%nat /\
    sizeof_header (write_header target progress) = 4.
Proof. eexists. split; [reflexivity|]. split; reflexivity. Qed.

Lemma read_header_bytes target :
  exists address,
    header_bytes (read_header target) = EXTERNAL_FLASH_CMD_READ_MEMORY :: address /\
    length address = 4%nat /\
    sizeof_header (read_header target) = 5.
Proof. eexists. split; [reflexivity|]. split; reflexivity. Qed.

(** C10: every write header [SendWriteHeader] transmits carries the opcode
    byte 0xD2 of the read-memory command, not the write-memory opcode
    0x58 first assigned to the field: the call puts at most one bus write
    on the trace, exactly one when the provider has a write function, and
    that write is four bytes long and starts with 0xD2. *)
Theorem SendWriteHeader_transmits_read_opcode d i inst cfg :
  ExternalFlash_Instance_Store d !! i = Some inst ->
  ExternalFlash_Map !! i = Some cfg ->
  exists r d' address rest,
    SendWriteHeader i d = Some (r, d') /\
    trace d' =
      trace d ++
      (if BusWrite (GENERIC_COMM_BUS_HANDLERS (Generic_Comm_Bus_Id cfg))
       then [COMMBUS__WRITE (Generic_Comm_Bus_Id cfg) (Bus_Instance_Channel inst)
               (HeaderBytes (0xd2 :: address)) 4]
       else []) ++ rest /\
    length address = 3%nat /\
    forallb is_timeout_call rest = true /\
    0xd2 <> EXTERNAL_FLASH_CMD_WRITE_MEMORY.
Proof.
  intros Hinst Hcfg.
  rewrite (SendWriteHeader_eq d i inst cfg Hinst Hcfg).
  destruct (write_header_bytes (NVM_Target_Address inst) (NVM_Buffer_Progress inst))
    as (address & Hb & Hl & Hs).
  rewrite Hb, Hs.
  match goal with |- context [bus_request ?h ?c d] =>
    destruct (bus_request_spec h c d) as (r & d' & t & Hr & (_ & _ & Ht) & Hf) end.
  exists r, d', address, t. repeat split; try assumption.
  discriminate.
Qed.

(** ** The size of a write chunk *)

Lemma write_size_formula inst :
  NVM_Buffer_Progress inst <= NVM_Buffer_Size inst ->
  write_size inst =
    Z.min (Z.min (NVM_Buffer_Size inst - NVM_Buffer_Progress inst) EXTERNAL_FLASH_PAGE_SIZE)
          (EXTERNAL_FLASH_PAGE_SIZE
           - (NVM_Target_Address inst + NVM_Buffer_Progress inst) mod EXTERNAL_FLASH_PAGE_SIZE).
Proof.
  intros Hle. unfold write_size, MIN, uint16, uint32, EXTERNAL_FLASH_PAGE_SIZE.
  set (remaining := NVM_Buffer_Size inst - NVM_Buffer_Progress inst).
  assert (0 <= remaining) by (unfold remaining; lia).
  replace (((NVM_Target_Address inst + NVM_Buffer_Progress inst) mod 2 ^ 32) mod 256)
    with ((NVM_Target_Address inst + NVM_Buffer_Progress inst) mod 256).
  2:{ symmetry. apply Z.mod_mod_divide. exists 16777216. reflexivity. }
  set (x := (NVM_Target_Address inst + NVM_Buffer_Progress inst) mod 256).
  assert (0 <= x < 256) by (apply Z.mod_pos_bound; lia).
  assert (Hr : (if remaining <? 256 then remaining else 256) mod 2 ^ 16
               = Z.min remaining 256).
  { destruct (Z.ltb_spec remaining 256); rewrite Z.mod_small; lia. }
  rewrite Hr.
  destruct (Z.ltb_spec (256 - x) (Z.min remaining 256)); rewrite Z.mod_small; lia.
Qed.

Lemma write_size_bounds inst :
  1 <= NVM_Buffer_Size inst - NVM_Buffer_Progress inst ->
  1 <= write_size inst <= EXTERNAL_FLASH_PAGE_SIZE /\
  (NVM_Target_Address inst + NVM_Buffer_Progress inst) mod EXTERNAL_FLASH_PAGE_SIZE
    + write_size inst <= EXTERNAL_FLASH_PAGE_SIZE.
Proof.
  intros H1. rewrite write_size_formula by lia.
  unfold EXTERNAL_FLASH_PAGE_SIZE.
  assert (0 <= (NVM_Target_Address inst + NVM_Buffer_Progress inst) mod 256 < 256)
    by (apply Z.mod_pos_bound; lia).
  lia.
Qed.

(** C5 (what the code does): the page index is [address / 1024] and the
    byte address is [address mod 1024] cut to one byte, so the addresses 0
    and 256 of the 256 x 1024 byte device get the same address bytes, in
    read headers and in write headers; no decoder recovers the address
    from the header. *)
Theorem address_bytes_collide :
  ExternalFlash_Address (read_header 0) = ExternalFlash_Address (read_header 256) /\
  ExternalFlash_Address (write_header 0 0) = ExternalFlash_Address (write_header 256 0) /\
  ~ (exists decode : list Z -> Z,
       forall a, 0 <= a < EXTERNAL_FLASH_PAGE_SIZE * EXTERNAL_FLASH_PAGE_NUMBER ->
                 decode (ExternalFlash_Address (read_header a)) = a) /\
  ~ (exists decode : list Z -> Z,
       forall a, 0 <= a < EXTERNAL_FLASH_PAGE_SIZE * EXTERNAL_FLASH_PAGE_NUMBER ->
                 decode (ExternalFlash_Address (write_header a 0)) = a).
Proof.
  assert (R : ExternalFlash_Address (read_header 0)
              = ExternalFlash_Address (read_header 256)) by reflexivity.
  assert (W : ExternalFlash_Address (write_header 0 0)
              = ExternalFlash_Address (write_header 256 0)) by reflexivity.
  split; [exact R|]. split; [exact W|]. split.
  - intros [decode H].
    assert (H0 := H 0 ltac:(unfold EXTERNAL_FLASH_PAGE_SIZE, EXTERNAL_FLASH_PAGE_NUMBER; lia)).
    assert (H1 := H 256 ltac:(unfold EXTERNAL_FLASH_PAGE_SIZE, EXTERNAL_FLASH_PAGE_NUMBER; lia)).
    rewrite <- R, H0 in H1. discriminate.
  - intros [decode H].
    assert (H0 := H 0 ltac:(unfold EXTERNAL_FLASH_PAGE_SIZE, EXTERNAL_FLASH_PAGE_NUMBER; lia)).
    assert (H1 := H 256 ltac:(unfold EXTERNAL_FLASH_PAGE_SIZE, EXTERNAL_FLASH_PAGE_NUMBER; lia)).
    rewrite <- W, H0 in H1. discriminate.
Qed.

(** ** [ExternalFlash__Read] and [ExternalFlash__Write] *)

Lemma rejected_not_free d i inst :
  rejected d i -> (i < EXTERNAL_FLASH_CH_NUM)%nat ->
  ExternalFlash_Instance_Store d !! i = Some inst -> instance_free inst = false.
Proof.
  intros [Hge | (inst' & Hl & Hr)] Hlt Hinst; [lia|].
  rewrite Hinst in Hl. injection Hl as <-. unfold instance_free.
  destruct Hr as [Hc | [Hp | Hs]].
  - rewrite Hc. reflexivity.
  - destruct (NVM_Current_Process inst); try congruence; apply andb_false_r.
  - destruct (NVM_State inst), (NVM_Current_Process inst); try congruence;
      apply andb_false_r.
Qed.

Lemma Read_rejected d i buffer data_address size :
  rejected d i -> ExternalFlash__Read i buffer data_address size d = Some (false, d).
Proof.
  intros Hr. unfold ExternalFlash__Read.
  destruct (Nat.ltb_spec i EXTERNAL_FLASH_CH_NUM) as [Hlt | Hge]; [|reflexivity].
  destruct Hr as [Hge | (inst & Hinst & Hr)]; [lia|].
  assert (Hf := rejected_not_free d i inst (or_intror (ex_intro _ inst (conj Hinst Hr))) Hlt Hinst).
  unfold instance_free in Hf. monad.
  destruct (negb (Bus_Instance_Channel inst =? INVALID_VALUE_8)); [|reflexivity].
  simpl in Hf.
  destruct (NVM_Current_Process inst), (NVM_State inst); try discriminate; reflexivity.
Qed.

Lemma Write_rejected d i buffer data_address size :
  rejected d i -> ExternalFlash__Write i buffer data_address size d = Some (false, d).
Proof.
  intros Hr. unfold ExternalFlash__Write.
  destruct (Nat.ltb_spec i EXTERNAL_FLASH_CH_NUM) as [Hlt | Hge]; [|reflexivity].
  destruct Hr as [Hge | (inst & Hinst & Hr)]; [lia|].
  assert (Hf := rejected_not_free d i inst (or_intror (ex_intro _ inst (conj Hinst Hr))) Hlt Hinst).
  unfold instance_free in Hf. monad.
  destruct (negb (Bus_Instance_Channel inst =? INVALID_VALUE_8)); [|reflexivity].
  simpl in Hf.
  destruct (NVM_Current_Process inst), (NVM_State inst); try discriminate; reflexivity.
Qed.

Lemma instance_free_inv inst :
  instance_free inst = true ->
  (Bus_Instance_Channel inst =? INVALID_VALUE_8) = false /\
  NVM_Current_Process inst = NVDATA_PROCESS_NONE /\
  NVM_State inst = EXTERNAL_FLASH_STATE_IDLE.
Proof.
  unfold instance_free. intros H. apply andb_prop in H as [Hc Hs].
  apply negb_true_iff in Hc.
  destruct (NVM_Current_Process inst), (NVM_State inst); try discriminate; auto.
Qed.

Lemma in_range_of_map i cfg :
  ExternalFlash_Map !! i = Some cfg -> (i <? EXTERNAL_FLASH_CH_NUM)%nat = true.
Proof. intros H. apply Nat.ltb_lt. eapply lookup_lt_Some, H. Qed.

(** An accepted [ExternalFlash__Read]: the transaction starts, the
    run-state is filled in, the read header goes on the bus. The value
    returned is [success], which is still [FALSE]. *)
Lemma Read_accepted d i inst cfg buffer data_address size :
  ExternalFlash_Instance_Store d !! i = Some inst ->
  ExternalFlash_Map !! i = Some cfg ->
  instance_free inst = true ->
  BusStartTransaction (GENERIC_COMM_BUS_HANDLERS (Generic_Comm_Bus_Id cfg)) = true ->
  respond (trace d)
    (COMMBUS__STARTTRANSACTION (Generic_Comm_Bus_Id cfg) (Bus_Instance_Channel inst)) = TRUE ->
  exists d' t,
    ExternalFlash__Read i buffer data_address size d = Some (false, d') /\
    ExternalFlash_Instance_Store d' =
      <[i := accepted_instance inst buffer data_address size
               EXTERNAL_FLASH_STATE_SEND_READ_HEADER]> (ExternalFlash_Instance_Store d) /\
    ExternalFlash_Handler_Index d' = ExternalFlash_Handler_Index d /\
    trace d' =
      trace d ++
      COMMBUS__STARTTRANSACTION (Generic_Comm_Bus_Id cfg) (Bus_Instance_Channel inst) ::
      (if BusWrite (GENERIC_COMM_BUS_HANDLERS (Generic_Comm_Bus_Id cfg))
       then [COMMBUS__WRITE (Generic_Comm_Bus_Id cfg) (Bus_Instance_Channel inst)
               (HeaderBytes (header_bytes
                  (read_header (uint32 (NVM_Instance_Memory_Offset inst + data_address)))))
               5]
       else []) ++ t /\
    forallb is_timeout_call t = true.
Proof.
  intros Hinst Hcfg Hfree Hstart Hresp.
  destruct (instance_free_inv inst Hfree) as (Hc & Hp & Hs).
  destruct (SendReadHeader_spec
    {| ExternalFlash_Instance_Store :=
         <[i := accepted_instance inst buffer data_address size
                  EXTERNAL_FLASH_STATE_SEND_READ_HEADER]> (ExternalFlash_Instance_Store d);
       ExternalFlash_Handler_Index := ExternalFlash_Handler_Index d;
       ExternalFlash_Timeout_Handle := ExternalFlash_Timeout_Handle d;
       trace := trace d ++
         [COMMBUS__STARTTRANSACTION (Generic_Comm_Bus_Id cfg) (Bus_Instance_Channel inst)] |}
    i _ cfg (lookup_insert_same _ _ _ _ Hinst) Hcfg)
    as (r & d' & t & Hr & (HS & HH & HT) & Hf).
  exists d', t. split.
  - unfold ExternalFlash__Read. rewrite (in_range_of_map i cfg Hcfg).
    monad. rewrite Hc, Hp, Hs. monad. rewrite Hstart. monad.
    rewrite Hresp.
    change (TRUE =? TRUE) with true. monad.
    unfold accepted_instance in Hr. rewrite Hr. reflexivity.
  - split; [exact HS|]. split; [exact HH|]. split; [|exact Hf].
    rewrite HT. cbn. rewrite <- app_assoc. reflexivity.
Qed.

(** ** Running a computation to a postcondition *)

Lemma wp_ret {A} (a : A) d Q : Q a d -> wp (ret a) d Q.
Proof. intros H. exists a, d. auto. Qed.

Lemma wp_bind {A B} (m : M A) (k : A -> M B) d Q :
  wp m d (fun a d' => wp (k a) d' Q) -> wp (bind m k) d Q.
Proof.
  intros (a & d' & Hm & b & d'' & Hk & HQ). exists b, d''.
  split; [|exact HQ]. unfold bind. now rewrite Hm.
Qed.

Lemma wp_conseq {A} (m : M A) d (P Q : A -> Driver -> Prop) :
  wp m d P -> (forall a d', P a d' -> Q a d') -> wp m d Q.
Proof. intros (a & d' & Hm & HP) H. exists a, d'. auto. Qed.

Lemma wp_call c d Q :
  Q (respond (trace d) c) (set_trace (trace d ++ [c]) d) -> wp (call c) d Q.
Proof. intros H. eexists _, _. split; [reflexivity|exact H]. Qed.

Lemma wp_get_instance i d inst Q :
  ExternalFlash_Instance_Store d !! i = Some inst -> Q inst d -> wp (get_instance i) d Q.
Proof. intros Hl H. exists inst, d. split; [now apply get_instance_Some|exact H]. Qed.

Lemma wp_get_map i d cfg Q :
  ExternalFlash_Map !! i = Some cfg -> Q cfg d -> wp (get_map i) d Q.
Proof. intros Hl H. exists cfg, d. split; [now apply get_map_Some|exact H]. Qed.

Lemma wp_update_instance i f d inst Q :
  ExternalFlash_Instance_Store d !! i = Some inst ->
  Q tt (set_Instance_Store (<[i := f inst]> (ExternalFlash_Instance_Store d)) d) ->
  wp (update_instance i f) d Q.
Proof.
  intros Hl H. eexists _, _. split; [apply (update_instance_Some _ _ _ _ Hl)|exact H].
Qed.

Lemma wp_get_Timeout_Handle d Q :
  Q (ExternalFlash_Timeout_Handle d) d -> wp get_Timeout_Handle d Q.
Proof. intros H. eexists _, _. split; [reflexivity|exact H]. Qed.

Lemma wp_put_Timeout_Handle v d Q :
  Q tt (set_Timeout_Handle v d) -> wp (put_Timeout_Handle v) d Q.
Proof. intros H. eexists _, _. split; [reflexivity|exact H]. Qed.

Lemma wp_get_Handler_Index d Q :
  Q (ExternalFlash_Handler_Index d) d -> wp get_Handler_Index d Q.
Proof. intros H. eexists _, _. split; [reflexivity|exact H]. Qed.

Lemma wp_put_Handler_Index v d Q :
  Q tt (set_Handler_Index v d) -> wp (put_Handler_Index v) d Q.
Proof. intros H. eexists _, _. split; [reflexivity|exact H]. Qed.

Lemma wp_call_unchecked c d Q :
  Q (respond (trace d) c) (set_trace (trace d ++ [c]) d) -> wp (call_unchecked true c) d Q.
Proof. apply wp_call. Qed.

Lemma set_trace_same d : set_trace (trace d ++ []) d = d.
Proof. unfold set_trace. rewrite app_nil_r. now destruct d. Qed.

(** A call made only when a feature is enabled. *)
Lemma wp_optional_call (b : bool) c d Q :
  Q tt (set_trace (trace d ++ (if b then [c] else [])) d) ->
  wp (if b then bind (call c) (fun _ => ret tt) else ret tt) d Q.
Proof.
  destruct b; intros H.
  - apply wp_bind, wp_call, wp_ret, H.
  - apply wp_ret. now rewrite set_trace_same in H.
Qed.

(** Looks a slot up in a store written as updates of a known store. *)
Ltac solve_lookup :=
  monad_cbn;
  repeat match goal with
         | H : ExternalFlash_Instance_Store ?d = _
           |- context [ExternalFlash_Instance_Store ?d] => rewrite H; monad_cbn
         end;
  rewrite ?list_insert_insert_eq;
  first [ eassumption
        | eapply lookup_insert_same; eassumption ].

(** One step of a computation under [wp]. *)
Ltac wp_step :=
  lazymatch goal with
  | |- wp (bind _ _) _ _ => apply wp_bind
  | |- wp (if _ then bind (call _) (fun _ => ret tt) else ret tt) _ _ =>
      apply wp_optional_call
  | |- wp (ret _) _ _ => apply wp_ret
  | |- wp (call _) _ _ => apply wp_call
  | |- wp (call_unchecked true _) _ _ => apply wp_call_unchecked
  | |- wp (get_instance _) _ _ => eapply wp_get_instance; [solve_lookup|]
  | |- wp (get_map _) _ _ => eapply wp_get_map; [eassumption|]
  | |- wp (update_instance _ _) _ _ => eapply wp_update_instance; [solve_lookup|]
  | |- wp get_Timeout_Handle _ _ => apply wp_get_Timeout_Handle
  | |- wp (put_Timeout_Handle _) _ _ => apply wp_put_Timeout_Handle
  | |- wp get_Handler_Index _ _ => apply wp_get_Handler_Index
  | |- wp (put_Handler_Index _) _ _ => apply wp_put_Handler_Index
  end; monad_cbn; rewrite ?list_insert_insert_eq.
Ltac wp_steps := repeat wp_step.

(** Runs a sub-computation by its specification. *)
Ltac wp_apply lem :=
  eapply wp_conseq;
  [ eapply lem; first [eassumption | solve_lookup]
  | let t := fresh "t" in
    let HS := fresh "HS" in
    let HH := fresh "HH" in
    let HT := fresh "HT" in
    let Hf := fresh "Hf" in
    intros ? ? (t & (HS & HH & HT) & Hf); monad_cbn_in HS; monad_cbn_in HH;
    monad_cbn_in HT ].

Lemma SendWriteHeader_wp d i inst cfg :
  ExternalFlash_Instance_Store d !! i = Some inst ->
  ExternalFlash_Map !! i = Some cfg ->
  wp (SendWriteHeader i) d (fun _ d' => exists t,
    advances d d'
      ((if BusWrite (GENERIC_COMM_BUS_HANDLERS (Generic_Comm_Bus_Id cfg))
        then [COMMBUS__WRITE (Generic_Comm_Bus_Id cfg) (Bus_Instance_Channel inst)
                (HeaderBytes (header_bytes
                   (write_header (NVM_Target_Address inst) (NVM_Buffer_Progress inst))))
                (sizeof_header
                   (write_header (NVM_Target_Address inst) (NVM_Buffer_Progress inst)))]
        else []) ++ t) /\
    forallb is_timeout_call t = true).
Proof.
  intros Hinst Hcfg.
  destruct (SendWriteHeader_spec d i inst cfg Hinst Hcfg) as (r & d' & t & H & Ha & Hf).
  exists r, d'. split; [exact H|]. exists t. auto.
Qed.

Lemma SendReadHeader_wp d i inst cfg :
  ExternalFlash_Instance_Store d !! i = Some inst ->
  ExternalFlash_Map !! i = Some cfg ->
  wp (SendReadHeader i) d (fun _ d' => exists t,
    advances d d'
      ((if BusWrite (GENERIC_COMM_BUS_HANDLERS (Generic_Comm_Bus_Id cfg))
        then [COMMBUS__WRITE (Generic_Comm_Bus_Id cfg) (Bus_Instance_Channel inst)
                (HeaderBytes (header_bytes (read_header (NVM_Target_Address inst))))
                (sizeof_header (read_header (NVM_Target_Address inst)))]
        else []) ++ t) /\
    forallb is_timeout_call t = true).
Proof.
  intros Hinst Hcfg.
  destruct (SendReadHeader_spec d i inst cfg Hinst Hcfg) as (r & d' & t & H & Ha & Hf).
  exists r, d'. split; [exact H|]. exists t. auto.
Qed.

Lemma ReadData_wp d i inst cfg :
  ExternalFlash_Instance_Store d !! i = Some inst ->
  ExternalFlash_Map !! i = Some cfg ->
  wp (ReadData i) d (fun _ d' => exists t,
    advances d d'
      ((if BusRead (GENERIC_COMM_BUS_HANDLERS (Generic_Comm_Bus_Id cfg))
        then [COMMBUS__READ (Generic_Comm_Bus_Id cfg) (Bus_Instance_Channel inst)
                (NVM_Buffer_Pointer inst) (NVM_Buffer_Size inst)]
        else []) ++ t) /\
    forallb is_timeout_call t = true).
Proof.
  intros Hinst Hcfg.
  destruct (ReadData_spec d i inst cfg Hinst Hcfg) as (r & d' & t & H & Ha & Hf).
  exists r, d'. split; [exact H|]. exists t. auto.
Qed.

Lemma WriteData_wp d i inst cfg size :
  ExternalFlash_Instance_Store d !! i = Some inst ->
  ExternalFlash_Map !! i = Some cfg ->
  wp (WriteData i size) d (fun _ d' => exists t,
    advances d d'
      ((if BusWrite (GENERIC_COMM_BUS_HANDLERS (Generic_Comm_Bus_Id cfg))
        then [COMMBUS__WRITE (Generic_Comm_Bus_Id cfg) (Bus_Instance_Channel inst)
                (ClientBuffer (NVM_Buffer_Pointer inst + NVM_Buffer_Progress inst)) size]
        else []) ++ t) /\
    forallb is_timeout_call t = true).
Proof.
  intros Hinst Hcfg.
  destruct (WriteData_spec d i inst cfg size Hinst Hcfg) as (r & d' & t & H & Ha & Hf).
  exists r, d'. split; [exact H|]. exists t. auto.
Qed.

(** An accepted [ExternalFlash__Write]. *)
Lemma Write_accepted d i inst cfg buffer data_address size :
  ExternalFlash_Instance_Store d !! i = Some inst ->
  ExternalFlash_Map !! i = Some cfg ->
  instance_free inst = true ->
  BusStartTransaction (GENERIC_COMM_BUS_HANDLERS (Generic_Comm_Bus_Id cfg)) = true ->
  respond (trace d)
    (COMMBUS__STARTTRANSACTION (Generic_Comm_Bus_Id cfg) (Bus_Instance_Channel inst)) = TRUE ->
  exists d' t,
    ExternalFlash__Write i buffer data_address size d = Some (true, d') /\
    ExternalFlash_Instance_Store d' =
      <[i := accepted_instance inst buffer data_address size
               EXTERNAL_FLASH_STATE_SEND_WRITE_HEADER]> (ExternalFlash_Instance_Store d) /\
    ExternalFlash_Handler_Index d' = ExternalFlash_Handler_Index d /\
    trace d' =
      trace d ++
      COMMBUS__STARTTRANSACTION (Generic_Comm_Bus_Id cfg) (Bus_Instance_Channel inst) :: t.
Proof.
  intros Hinst Hcfg Hfree Hstart Hresp.
  destruct (instance_free_inv inst Hfree) as (Hc & Hp & Hs).
  enough (W : wp (ExternalFlash__Write i buffer data_address size) d
    (fun r d' => r = true /\
       ExternalFlash_Instance_Store d' =
         <[i := accepted_instance inst buffer data_address size
                  EXTERNAL_FLASH_STATE_SEND_WRITE_HEADER]> (ExternalFlash_Instance_Store d) /\
       ExternalFlash_Handler_Index d' = ExternalFlash_Handler_Index d /\
       exists t, trace d' =
         trace d ++
         COMMBUS__STARTTRANSACTION (Generic_Comm_Bus_Id cfg) (Bus_Instance_Channel inst) :: t)).
  { destruct W as (r & d' & HW & -> & HS & HH & t & HT). exists d', t. auto. }
  unfold ExternalFlash__Write. rewrite (in_range_of_map i cfg Hcfg).
  wp_steps. rewrite Hc, Hp, Hs. monad_cbn. wp_steps. rewrite Hstart. wp_steps.
  rewrite Hresp. change (TRUE =? TRUE) with true. cbv iota.
  wp_steps. wp_apply SendWriteHeader_wp. wp_steps.
  rewrite HH. wp_steps.
  split; [reflexivity|]. split; [rewrite HS; reflexivity|]. split; [reflexivity|].
  rewrite HT, <- !app_assoc. cbn [app]. eexists. reflexivity.
Qed.

Lemma not_free_rejected d i inst :
  ExternalFlash_Instance_Store d !! i = Some inst ->
  instance_free inst = false -> rejected d i.
Proof.
  intros Hinst Hf. right. exists inst. split; [exact Hinst|].
  unfold instance_free in Hf. apply andb_false_iff in Hf as [Hc | Hs].
  - left. apply negb_false_iff, Z.eqb_eq in Hc. exact Hc.
  - right. destruct (NVM_Current_Process inst); try (left; discriminate).
    right. destruct (NVM_State inst); try discriminate.
Qed.

Lemma Read_not_started d i inst cfg buffer data_address size :
  ExternalFlash_Instance_Store d !! i = Some inst ->
  ExternalFlash_Map !! i = Some cfg ->
  instance_free inst = true ->
  start_fails d inst cfg ->
  exists d',
    ExternalFlash__Read i buffer data_address size d = Some (false, d') /\
    ExternalFlash_Instance_Store d' = ExternalFlash_Instance_Store d /\
    ExternalFlash_Timeout_Handle d' = ExternalFlash_Timeout_Handle d.
Proof.
  intros Hinst Hcfg Hfree Hfail.
  destruct (instance_free_inv inst Hfree) as (Hc & Hp & Hs).
  unfold ExternalFlash__Read. rewrite (in_range_of_map i cfg Hcfg).
  monad. rewrite Hc, Hp, Hs. monad.
  destruct (BusStartTransaction (GENERIC_COMM_BUS_HANDLERS (Generic_Comm_Bus_Id cfg)))
    eqn:Hstart.
  - destruct Hfail as [Hfail | Hfail]; [congruence|].
    apply Z.eqb_neq in Hfail. monad. rewrite Hfail. eexists. split; [reflexivity|].
    split; reflexivity.
  - exists d. auto.
Qed.

Lemma Write_not_started d i inst cfg buffer data_address size :
  ExternalFlash_Instance_Store d !! i = Some inst ->
  ExternalFlash_Map !! i = Some cfg ->
  instance_free inst = true ->
  start_fails d inst cfg ->
  exists d',
    ExternalFlash__Write i buffer data_address size d = Some (false, d') /\
    ExternalFlash_Instance_Store d' = ExternalFlash_Instance_Store d /\
    ExternalFlash_Timeout_Handle d' = ExternalFlash_Timeout_Handle d.
Proof.
  intros Hinst Hcfg Hfree Hfail.
  destruct (instance_free_inv inst Hfree) as (Hc & Hp & Hs).
  unfold ExternalFlash__Write. rewrite (in_range_of_map i cfg Hcfg).
  monad. rewrite Hc, Hp, Hs. monad.
  destruct (BusStartTransaction (GENERIC_COMM_BUS_HANDLERS (Generic_Comm_Bus_Id cfg)))
    eqn:Hstart.
  - destruct Hfail as [Hfail | Hfail]; [congruence|].
    apply Z.eqb_neq in Hfail. monad. rewrite Hfail. eexists. split; [reflexivity|].
    split; reflexivity.
  - exists d. auto.
Qed.

(** A [Write] that reports success was accepted: it left its instance in
    state [SEND_WRITE_HEADER] with process [WAIT_WRITE]. *)
Lemma Write_true_inv d0 d i buffer data_address size :
  ExternalFlash__Write i buffer data_address size d0 = Some (true, d) ->
  exists inst,
    ExternalFlash_Instance_Store d0 !! i = Some inst /\
    ExternalFlash_Instance_Store d =
      <[i := accepted_instance inst buffer data_address size
               EXTERNAL_FLASH_STATE_SEND_WRITE_HEADER]> (ExternalFlash_Instance_Store d0).
Proof.
  intros HW.
  destruct (Nat.ltb_spec i EXTERNAL_FLASH_CH_NUM) as [Hlt | Hge].
  2:{ rewrite (Write_rejected d0 i buffer data_address size (or_introl Hge)) in HW.
      discriminate. }
  destruct (map_index_in_range i Hlt) as [cfg Hcfg].
  destruct (ExternalFlash_Instance_Store d0 !! i) as [inst|] eqn:Hinst.
  2:{ unfold ExternalFlash__Write in HW. rewrite (in_range_of_map i cfg Hcfg) in HW.
      unfold bind, get_instance in HW. rewrite Hinst in HW. discriminate. }
  destruct (instance_free inst) eqn:Hfree.
  2:{ rewrite (Write_rejected d0 i buffer data_address size
                 (not_free_rejected d0 i inst Hinst Hfree)) in HW. discriminate. }
  destruct (BusStartTransaction (GENERIC_COMM_BUS_HANDLERS (Generic_Comm_Bus_Id cfg)))
    eqn:Hstart.
  2:{ destruct (Write_not_started d0 i inst cfg buffer data_address size Hinst Hcfg Hfree
                  (or_introl Hstart)) as (d' & HW' & _).
      rewrite HW' in HW. discriminate. }
  destruct (Z.eq_dec
    (respond (trace d0)
       (COMMBUS__STARTTRANSACTION (Generic_Comm_Bus_Id cfg) (Bus_Instance_Channel inst)))
    TRUE) as [Hresp | Hresp].
  2:{ destruct (Write_not_started d0 i inst cfg buffer data_address size Hinst Hcfg Hfree
                  (or_intror Hresp)) as (d' & HW' & _).
      rewrite HW' in HW. discriminate. }
  destruct (Write_accepted d0 i inst cfg buffer data_address size Hinst Hcfg Hfree
              Hstart Hresp) as (d' & t & HW' & HS & _).
  rewrite HW' in HW. injection HW as <-. exists inst. auto.
Qed.

(** C6: a [Read] or [Write] that is rejected (instance id out of range,
    channel unbound, or instance not idle with process none) returns
    failure and leaves the driver as it was: every instance's run-state,
    the timeout handle, and no collaborator is called.  A [Write] issued
    right after a [Write] that was accepted on the same instance is such a
    call. *)
Theorem rejected_call_changes_nothing d i buffer data_address size :
  rejected d i \/
  (exists d0 buffer0 address0 size0,
     ExternalFlash__Write i buffer0 address0 size0 d0 = Some (true, d)) ->
  ExternalFlash__Read i buffer data_address size d = Some (false, d) /\
  ExternalFlash__Write i buffer data_address size d = Some (false, d).
Proof.
  intros H.
  assert (Hr : rejected d i).
  { destruct H as [H | (d0 & b0 & a0 & n0 & HW)]; [exact H|].
    destruct (Write_true_inv d0 d i b0 a0 n0 HW) as (inst & Hinst & HS).
    right. eexists. split.
    - rewrite HS. eapply lookup_insert_same, Hinst.
    - right. right. discriminate. }
  split; [now apply Read_rejected | now apply Write_rejected].
Qed.

(** C2 (what the code does): a [Read] that passes the guard never returns
    [TRUE].  If the transaction starts, the call is accepted (the instance
    goes to [SEND_READ_HEADER] with process [WAIT_WRITE], and the read
    header is sent when the provider can write) and the value returned is
    still [FALSE]; if the transaction does not start, the run-state is
    unchanged and the value returned is [FALSE]. *)
Theorem Read_returns_FALSE_when_accepted d i inst cfg buffer data_address size :
  ExternalFlash_Instance_Store d !! i = Some inst ->
  ExternalFlash_Map !! i = Some cfg ->
  instance_free inst = true ->
  (BusStartTransaction (GENERIC_COMM_BUS_HANDLERS (Generic_Comm_Bus_Id cfg)) = true ->
   respond (trace d)
     (COMMBUS__STARTTRANSACTION (Generic_Comm_Bus_Id cfg) (Bus_Instance_Channel inst)) = TRUE ->
   exists d' inst',
     ExternalFlash__Read i buffer data_address size d = Some (false, d') /\
     ExternalFlash_Instance_Store d' !! i = Some inst' /\
     NVM_State inst' = EXTERNAL_FLASH_STATE_SEND_READ_HEADER /\
     NVM_Current_Process inst' = NVDATA_PROCESS_WAIT_WRITE /\
     NVM_Buffer_Size inst' = size) /\
  (start_fails d inst cfg ->
   exists d',
     ExternalFlash__Read i buffer data_address size d = Some (false, d') /\
     ExternalFlash_Instance_Store d' = ExternalFlash_Instance_Store d).
Proof.
  intros Hinst Hcfg Hfree. split.
  - intros Hstart Hresp.
    destruct (Read_accepted d i inst cfg buffer data_address size Hinst Hcfg Hfree
                Hstart Hresp) as (d' & t & HR & HS & _).
    exists d', (accepted_instance inst buffer data_address size
                  EXTERNAL_FLASH_STATE_SEND_READ_HEADER).
    split; [exact HR|]. split; [|auto].
    rewrite HS. eapply lookup_insert_same, Hinst.
  - intros Hfail.
    destruct (Read_not_started d i inst cfg buffer data_address size Hinst Hcfg Hfree
                Hfail) as (d' & HR & HS & _).
    exists d'. auto.
Qed.

(** ** [CommBusEventHandler] *)

Lemma CommBusEventHandler_channel_skips d event i :
  (i < EXTERNAL_FLASH_CH_NUM)%nat ->
  length (ExternalFlash_Instance_Store d) = EXTERNAL_FLASH_CH_NUM ->
  ~ event_finds_waiting_instance d event ->
  CommBusEventHandler_channel event i d = Some (loop_next, d).
Proof.
  intros Hlt Hlen Hno.
  destruct (map_index_in_range i Hlt) as [cfg Hcfg].
  destruct (lookup_lt_is_Some_2 (ExternalFlash_Instance_Store d) i) as [inst Hinst];
    [lia|].
  unfold CommBusEventHandler_channel. monad.
  destruct (Z.eqb_spec (Generic_Provider_Id event) (Generic_Comm_Bus_Id cfg)) as [Hp|];
    [|reflexivity].
  monad.
  destruct (Z.eqb_spec (Bus_Instance_Channel inst) (Source_Instance_Id event)) as [Hc|];
    [|reflexivity].
  destruct (NVM_Current_Process inst) eqn:Hproc; try reflexivity;
    exfalso; apply Hno; exists i, cfg, inst; auto 10.
Qed.

Lemma CommBusEventHandler_loop_skips d event l :
  length (ExternalFlash_Instance_Store d) = EXTERNAL_FLASH_CH_NUM ->
  ~ event_finds_waiting_instance d event ->
  Forall (fun i => (i < EXTERNAL_FLASH_CH_NUM)%nat) l ->
  for_each_break l (CommBusEventHandler_channel event) d = Some (tt, d).
Proof.
  intros Hlen Hno. induction l as [|i l IH]; intros Hl; [reflexivity|].
  apply Forall_cons in Hl as [Hi Hl]. cbn [for_each_break].
  bind_with (CommBusEventHandler_channel_skips d event i Hi Hlen Hno).
  apply IH, Hl.
Qed.

Lemma indices_in_range : Forall (fun i => (i < EXTERNAL_FLASH_CH_NUM)%nat)
                                (seq 0 EXTERNAL_FLASH_CH_NUM).
Proof. apply Forall_forall. intros i Hi. apply elem_of_seq in Hi. lia. Qed.

(** C8: a bus event that finds no instance waiting for it (no instance
    with the event's provider and channel holds [WAIT_READ] or
    [WAIT_WRITE]) leaves the driver as it was: no instance's run-state
    changes, the timeout handle is neither released nor invalidated, and
    no collaborator is called. *)
Theorem unmatched_event_changes_nothing d event :
  length (ExternalFlash_Instance_Store d) = EXTERNAL_FLASH_CH_NUM ->
  ~ event_finds_waiting_instance d event ->
  CommBusEventHandler event d = Some (tt, d).
Proof.
  intros Hlen Hno. unfold CommBusEventHandler.
  apply CommBusEventHandler_loop_skips; [exact Hlen | exact Hno |].
  apply indices_in_range.
Qed.

(** ** [ExternalFlash__GetAllocation] *)

Lemma GetAllocation_loop_no_match entries k d client_id mirror_pointer nv_instance_offset :
  Forall (fun cfg => ExternalFlash_Channel cfg <> client_id) entries ->
  GetAllocation_loop k entries client_id mirror_pointer nv_instance_offset d
  = Some ((k + length entries)%nat, d).
Proof.
  revert k. induction entries as [|cfg rest IH]; intros k Hno; cbn [GetAllocation_loop].
  - unfold ret. now rewrite Nat.add_0_r.
  - apply Forall_cons in Hno as [Hc Hrest]. apply Z.eqb_neq in Hc. rewrite Hc.
    rewrite IH by exact Hrest. cbn [length]. now rewrite Nat.add_succ_r.
Qed.

(** C9 (what the code does): with a client id that no map entry has,
    [ExternalFlash__GetAllocation] changes nothing, and it returns the
    loop counter, which is the number of map entries; that is not
    [INVALID_VALUE_8], the value the variable was initialised with, unless
    the map has 255 entries. *)
Theorem GetAllocation_without_match d client_id mirror_pointer nv_instance_offset :
  Forall (fun cfg => ExternalFlash_Channel cfg <> client_id) ExternalFlash_Map ->
  ExternalFlash__GetAllocation client_id mirror_pointer nv_instance_offset d
    = Some (Z.of_nat EXTERNAL_FLASH_CH_NUM, d) /\
  (EXTERNAL_FLASH_CH_NUM <> 255%nat -> Z.of_nat EXTERNAL_FLASH_CH_NUM <> INVALID_VALUE_8).
Proof.
  intros Hno. split.
  - unfold ExternalFlash__GetAllocation.
    bind_with (GetAllocation_loop_no_match ExternalFlash_Map 0 d client_id mirror_pointer
                 nv_instance_offset Hno).
    reflexivity.
  - unfold INVALID_VALUE_8. lia.
Qed.

(** ** [ExternalFlash__Initialize] *)

Lemma wp_for_each (Inv : Driver -> Prop) l body d :
  Inv d ->
  (forall i d, i ∈ l -> Inv d -> wp (body i) d (fun _ d' => Inv d')) ->
  wp (for_each l body) d (fun _ d' => Inv d').
Proof.
  revert d. induction l as [|i l IH]; intros d Hd Hbody; cbn [for_each].
  - apply wp_ret, Hd.
  - apply wp_bind. eapply wp_conseq.
    + apply Hbody; [apply elem_of_cons; auto | exact Hd].
    + intros [] d' Hd'. apply IH; [exact Hd'|].
      intros j d'' Hj. apply Hbody. apply elem_of_cons. auto.
Qed.

Lemma all_uninitialised_insert d i inst (keep : Driver -> Driver) :
  all_uninitialised d -> uninitialised inst ->
  all_uninitialised
    {| ExternalFlash_Instance_Store := <[i := inst]> (ExternalFlash_Instance_Store d);
       ExternalFlash_Handler_Index := ExternalFlash_Handler_Index (keep d);
       ExternalFlash_Timeout_Handle := ExternalFlash_Timeout_Handle (keep d);
       trace := trace (keep d) |}.
Proof.
  intros [Hlen Hall] Hi. split; cbn.
  - now rewrite length_insert.
  - now apply Forall_insert.
Qed.

Lemma Initialize_instance_keeps_uninitialised i d :
  (i < EXTERNAL_FLASH_CH_NUM)%nat ->
  all_uninitialised d ->
  wp (cfg <- get_map i ;;
      let alloc_handler :=
        BusGetAllocation (GENERIC_COMM_BUS_HANDLERS (Generic_Comm_Bus_Id cfg)) in
      (if alloc_handler then
         channel <- call (COMMBUS__GETALLOCATION (Generic_Comm_Bus_Id cfg)
                            (ExternalFlash_Provider_Bound_Id cfg)) ;;
         update_instance i (set_Bus_Instance_Channel (uint8 channel))
       else ret tt) ;;
      (if ExternalFlash_WP_Feature cfg then
         call (GENERIC_IO_DIGITALIO_Write (ExternalFlash_WP_Pin cfg)
                 (negb (ExternalFlash_WP_Level cfg))) ;; ret tt
       else ret tt) ;;
      (if ExternalFlash_Reset_Feature cfg then
         call (GENERIC_IO_DIGITALIO_Write (ExternalFlash_Reset_Pin cfg)
                 (negb (ExternalFlash_Reset_Level cfg))) ;; ret tt
       else ret tt) ;;
      let register_handler :=
        BusRegisterEventHandler (GENERIC_COMM_BUS_HANDLERS (Generic_Comm_Bus_Id cfg)) in
      (if register_handler then
         inst <- get_instance i ;;
         call (COMMBUS__REGISTERHANDLER (Generic_Comm_Bus_Id cfg)
                 (Bus_Instance_Channel inst)) ;; ret tt
       else ret tt) ;;
      update_instance i (set_NVM_State EXTERNAL_FLASH_STATE_INITIALIZE) ;;
      update_instance i (set_NVM_Current_Process NVDATA_PROCESS_NONE))
     d (fun _ d' => all_uninitialised d').
Proof.
  intros Hlt Hinv.
  destruct (map_index_in_range i Hlt) as [cfg Hcfg].
  wp_steps.
  apply wp_conseq with (P := fun _ d' => all_uninitialised d').
  { destruct (lookup_lt_is_Some_2 (ExternalFlash_Instance_Store d) i) as [inst Hinst];
      [destruct Hinv; lia|].
    assert (Hu : uninitialised inst).
    { destruct Hinv as [_ Hall]. eapply Forall_lookup_1 in Hall; eauto. }
    destruct (BusGetAllocation _); wp_steps; [|exact Hinv].
    apply (all_uninitialised_insert d i _ (fun d => d) Hinv). exact Hu. }
  clear d Hinv. intros [] d Hinv. wp_steps.
  apply wp_conseq with (P := fun _ d' => all_uninitialised d').
  { destruct (lookup_lt_is_Some_2 (ExternalFlash_Instance_Store d) i) as [inst Hinst];
      [destruct Hinv; lia|].
    destruct (BusRegisterEventHandler _); wp_steps; exact Hinv. }
  clear d Hinv. intros [] d Hinv.
  destruct (lookup_lt_is_Some_2 (ExternalFlash_Instance_Store d) i) as [inst Hinst];
    [destruct Hinv; lia|].
  wp_steps.
  apply (all_uninitialised_insert d i _ (fun d => d) Hinv). split; reflexivity.
Qed.

Lemma all_uninitialised_rejected d i : all_uninitialised d -> rejected d i.
Proof.
  intros [Hlen Hall].
  destruct (Nat.le_gt_cases EXTERNAL_FLASH_CH_NUM i) as [Hge | Hlt]; [now left|].
  destruct (lookup_lt_is_Some_2 (ExternalFlash_Instance_Store d) i) as [inst Hinst];
    [lia|].
  right. exists inst. split; [exact Hinst|].
  eapply Forall_lookup_1 in Hall; [|exact Hinst]. destruct Hall as [Hs _].
  right. right. rewrite Hs. discriminate.
Qed.

Lemma Initialize_wp d :
  wp ExternalFlash__Initialize d (fun _ d' => all_uninitialised d').
Proof.
  unfold ExternalFlash__Initialize. wp_steps.
  eexists tt, _. split; [reflexivity|].
  apply wp_for_each.
  - split; cbn.
    + apply length_replicate.
    + apply Forall_replicate. split; reflexivity.
  - intros i d0 Hi Hinv. apply Initialize_instance_keeps_uninitialised; [|exact Hinv].
    apply elem_of_seq in Hi. lia.
Qed.

(** While every instance is in state [INITIALIZE], the poll loop does
    nothing. *)
Lemma Handler_uninitialised d :
  all_uninitialised d -> ExternalFlash_Handler d = Some (tt, d).
Proof.
  intros [Hlen Hall]. unfold ExternalFlash_Handler.
  assert (H : forall l, Forall (fun i => (i < EXTERNAL_FLASH_CH_NUM)%nat) l ->
              for_each l ExternalFlash_Handler_instance d = Some (tt, d)).
  { induction l as [|i l IH]; intros Hl; [reflexivity|].
    apply Forall_cons in Hl as [Hi Hl]. cbn [for_each].
    destruct (map_index_in_range i Hi) as [cfg Hcfg].
    destruct (lookup_lt_is_Some_2 (ExternalFlash_Instance_Store d) i) as [inst Hinst];
      [lia|].
    assert (Hu : uninitialised inst) by (eapply Forall_lookup_1 in Hall; eauto).
    erewrite bind_Some; [apply IH, Hl|].
    unfold ExternalFlash_Handler_instance. bind_with Hcfg. bind_with Hinst.
    destruct Hu as [-> _]. reflexivity. }
  apply H, indices_in_range.
Qed.

Lemma uninitialised_not_waiting d event :
  all_uninitialised d -> ~ event_finds_waiting_instance d event.
Proof.
  intros [_ Hall] (i & cfg & inst & _ & Hinst & _ & _ & Hwait).
  eapply Forall_lookup_1 in Hall; [|exact Hinst]. destruct Hall as [_ Hp].
  rewrite Hp in Hwait. destruct Hwait; discriminate.
Qed.

Lemma GetAllocation_loop_uninitialised entries k d client_id mirror_pointer
    nv_instance_offset :
  (k + length entries <= EXTERNAL_FLASH_CH_NUM)%nat ->
  all_uninitialised d ->
  wp (GetAllocation_loop k entries client_id mirror_pointer nv_instance_offset) d
     (fun _ d' => all_uninitialised d' /\ trace d' = trace d).
Proof.
  revert k. induction entries as [|cfg rest IH]; intros k Hk Hinv; cbn [GetAllocation_loop].
  - apply wp_ret. auto.
  - cbn [length] in Hk. destruct (ExternalFlash_Channel cfg =? client_id).
    + destruct (lookup_lt_is_Some_2 (ExternalFlash_Instance_Store d) k) as [inst Hinst];
        [destruct Hinv; lia|].
      assert (Hu : uninitialised inst).
      { destruct Hinv as [_ Hall]. eapply Forall_lookup_1 in Hall; eauto. }
      wp_steps. split; [|reflexivity].
      apply (all_uninitialised_insert d k _ (fun d => d) Hinv). exact Hu.
    + apply IH; [lia | exact Hinv].
Qed.

(** While every instance is in state [INITIALIZE], an entry point other
    than [Initialize] calls no collaborator and leaves every instance in
    state [INITIALIZE]; a [Read] or [Write] returns [FALSE]. *)
Lemma enter_uninitialised e d :
  e <> Call_Initialize ->
  all_uninitialised d ->
  wp (enter e) d (fun r d' => all_uninitialised d' /\ trace d' = trace d /\ refused e r).
Proof.
  intros He Hinv. destruct e as [| |i b a n|i b a n|c m o|event]; cbn [enter].
  - contradiction.
  - apply wp_bind. exists tt, d. split; [now apply Handler_uninitialised|].
    apply wp_ret. cbn. auto.
  - apply wp_bind. exists false, d.
    split; [apply Read_rejected, all_uninitialised_rejected, Hinv|].
    apply wp_ret. cbn. auto.
  - apply wp_bind. exists false, d.
    split; [apply Write_rejected, all_uninitialised_rejected, Hinv|].
    apply wp_ret. cbn. auto.
  - unfold ExternalFlash__GetAllocation. apply wp_bind.
    eapply wp_conseq.
    + apply GetAllocation_loop_uninitialised; [unfold EXTERNAL_FLASH_CH_NUM; lia|exact Hinv].
    + intros k d' [Hinv' Ht]. apply wp_ret. cbn. auto.
  - apply wp_bind. exists tt, d. split.
    + unfold CommBusEventHandler. apply CommBusEventHandler_loop_skips.
      * apply Hinv.
      * apply uninitialised_not_waiting, Hinv.
      * apply indices_in_range.
    + apply wp_ret. cbn. auto.
Qed.

Lemma run_uninitialised entries d :
  Forall (fun e => e <> Call_Initialize) entries ->
  all_uninitialised d ->
  wp (run entries) d (fun rs d' =>
    all_uninitialised d' /\ trace d' = trace d /\ Forall2 refused entries rs).
Proof.
  revert d. induction entries as [|e entries IH]; intros d Hne Hinv; cbn [run].
  - apply wp_ret. auto.
  - apply Forall_cons in Hne as [He Hne]. apply wp_bind.
    eapply wp_conseq; [apply enter_uninitialised; [exact He|exact Hinv]|].
    intros r d1 (Hinv1 & Ht1 & Hr). apply wp_bind.
    eapply wp_conseq; [apply IH; [exact Hne|exact Hinv1]|].
    intros rs d2 (Hinv2 & Ht2 & Hrs). apply wp_ret.
    split; [exact Hinv2|]. split; [congruence|]. now constructor.
Qed.

(** C1 (what the code does): [ExternalFlash__Initialize] returns, and it
    leaves every configured instance in state [INITIALIZE], not [IDLE],
    with process [NONE]; every [Read] and [Write] issued then is rejected
    and changes nothing.  It stays so: whatever entry points are called
    afterwards ([Initialize] apart), every [Read] and [Write] among them
    returns [FALSE], and the driver calls no collaborator. *)
Theorem Initialize_leaves_state_INITIALIZE d :
  exists d',
    ExternalFlash__Initialize d = Some (tt, d') /\
    length (ExternalFlash_Instance_Store d') = EXTERNAL_FLASH_CH_NUM /\
    Forall (fun inst => NVM_State inst = EXTERNAL_FLASH_STATE_INITIALIZE /\
                        NVM_Current_Process inst = NVDATA_PROCESS_NONE)
           (ExternalFlash_Instance_Store d') /\
    (forall i buffer data_address size,
       ExternalFlash__Read i buffer data_address size d' = Some (false, d') /\
       ExternalFlash__Write i buffer data_address size d' = Some (false, d')) /\
    (forall entries,
       Forall (fun e => e <> Call_Initialize) entries ->
       exists rs d'',
         run entries d' = Some (rs, d'') /\
         trace d'' = trace d' /\
         Forall2 refused entries rs /\
         Forall (fun inst => NVM_State inst = EXTERNAL_FLASH_STATE_INITIALIZE)
                (ExternalFlash_Instance_Store d'')).
Proof.
  destruct (Initialize_wp d) as ([] & d' & HI & Hinv). exists d'.
  split; [exact HI|]. split; [apply Hinv|]. split; [apply Hinv|]. split.
  - intros i buffer data_address size.
    split; [apply Read_rejected | apply Write_rejected];
      apply all_uninitialised_rejected, Hinv.
  - intros entries Hne.
    destruct (run_uninitialised entries d' Hne Hinv) as (rs & d'' & Hrun & Hinv' & Ht & Hrs).
    exists rs, d''. split; [exact Hrun|]. split; [exact Ht|]. split; [exact Hrs|].
    destruct Hinv' as [_ Hall]. eapply Forall_impl; [exact Hall|].
    intros inst [Hs _]. exact Hs.
Qed.

(** ** [ExternalFlash_Handler] *)

Lemma notifications_app t1 t2 :
  notifications (t1 ++ t2) = notifications t1 ++ notifications t2.
Proof. apply omap_app. Qed.

Lemma notifications_timeout t :
  forallb is_timeout_call t = true -> notifications t = [].
Proof.
  induction t as [|c t IH]; [reflexivity|]. cbn [forallb]. intros H.
  apply andb_prop in H as [Hc Ht]. unfold notifications in *. cbn [omap].
  destruct c; try discriminate; cbn; auto.
Qed.

Lemma wp_elim {A} (m : M A) d Q a d' : wp m d Q -> m d = Some (a, d') -> Q a d'.
Proof. intros (a0 & d0 & Hm & HQ) H. rewrite Hm in H. now injection H as <- <-. Qed.

Lemma Handler_instance_in_WRITE d i inst cfg :
  ExternalFlash_Instance_Store d !! i = Some inst ->
  ExternalFlash_Map !! i = Some cfg ->
  NVM_State inst = EXTERNAL_FLASH_STATE_WRITE ->
  NVM_Current_Process inst = NVDATA_PROCESS_WRITE ->
  NVM_Buffer_Progress inst < NVM_Buffer_Size inst ->
  BusStopTransaction (GENERIC_COMM_BUS_HANDLERS (Generic_Comm_Bus_Id cfg)) = true ->
  exists d' t,
    ExternalFlash_Handler_instance i d = Some (tt, d') /\
    ExternalFlash_Instance_Store d' = ExternalFlash_Instance_Store d /\
    trace d' =
      trace d ++
      COMMBUS__STOPTRANSACTION (Generic_Comm_Bus_Id cfg) (Bus_Instance_Channel inst) ::
      (if BusWrite (GENERIC_COMM_BUS_HANDLERS (Generic_Comm_Bus_Id cfg))
       then [COMMBUS__WRITE (Generic_Comm_Bus_Id cfg) (Bus_Instance_Channel inst)
               (HeaderBytes (header_bytes
                  (write_header (NVM_Target_Address inst) (NVM_Buffer_Progress inst))))
               4]
       else []) ++ t /\
    forallb is_timeout_call t = true.
Proof.
  intros Hinst Hcfg Hstate Hproc Hlt Hstop.
  enough (W : wp (ExternalFlash_Handler_instance i) d (fun _ d' => exists t,
    ExternalFlash_Instance_Store d' = ExternalFlash_Instance_Store d /\
    trace d' =
      trace d ++
      COMMBUS__STOPTRANSACTION (Generic_Comm_Bus_Id cfg) (Bus_Instance_Channel inst) ::
      (if BusWrite (GENERIC_COMM_BUS_HANDLERS (Generic_Comm_Bus_Id cfg))
       then [COMMBUS__WRITE (Generic_Comm_Bus_Id cfg) (Bus_Instance_Channel inst)
               (HeaderBytes (header_bytes
                  (write_header (NVM_Target_Address inst) (NVM_Buffer_Progress inst))))
               4]
       else []) ++ t /\
    forallb is_timeout_call t = true)).
  { destruct W as ([] & d' & HW & t & HS & HT & Hf). exists d', t. auto. }
  unfold ExternalFlash_Handler_instance. wp_steps.
  rewrite Hstate, Hproc, Hstop. wp_steps.
  apply Z.ltb_lt in Hlt. rewrite Hlt. wp_step.
  wp_apply SendWriteHeader_wp. wp_steps.
  exists t. split; [exact HS|]. split; [|exact Hf].
  rewrite HT, <- app_assoc. reflexivity.
Qed.

Lemma instance_turn_refl d i : instance_turn d i d.
Proof. exists []. rewrite app_nil_r. auto. Qed.

Lemma lookup_insert_other {A} (l : list A) i j x : j <> i -> <[i := x]> l !! j = l !! j.
Proof. intros H. apply list_lookup_insert_ne. auto. Qed.

Lemma Handler_instance_turn d i d' :
  ExternalFlash_Handler_instance i d = Some (tt, d') -> instance_turn d i d'.
Proof.
  unfold ExternalFlash_Handler_instance. intros H.
  destruct (ExternalFlash_Map !! i) as [cfg|] eqn:Hcfg.
  2:{ unfold bind, get_map in H. rewrite Hcfg in H. discriminate. }
  destruct (ExternalFlash_Instance_Store d !! i) as [inst|] eqn:Hinst.
  2:{ unfold bind, get_map, get_instance in H. rewrite Hcfg, Hinst in H. discriminate. }
  revert H. bind_with Hcfg. bind_with Hinst.
  destruct (NVM_State inst) eqn:Hstate;
    try (intros H; injection H as <-; apply instance_turn_refl);
    destruct (NVM_Current_Process inst) eqn:Hproc;
    try (intros H; injection H as <-; apply instance_turn_refl);
    intros H.
  - (* SEND_READ_HEADER, header transmitted *)
    refine (wp_elim _ d (fun _ x => instance_turn d i x) tt d' _ H); unfold instance_turn. wp_steps. wp_apply ReadData_wp. wp_steps.
    exists (((if BusRead (GENERIC_COMM_BUS_HANDLERS (Generic_Comm_Bus_Id cfg))
              then [COMMBUS__READ (Generic_Comm_Bus_Id cfg) (Bus_Instance_Channel inst)
                      (NVM_Buffer_Pointer inst) (NVM_Buffer_Size inst)]
              else []) ++ t)).
    split; [exact HT|]. split.
    + intros j Hj. rewrite HS. now apply lookup_insert_other.
    + left. rewrite notifications_app, (notifications_timeout t Hf).
      destruct (BusRead _); reflexivity.
  - (* READ, payload received *)
    destruct (BusStopTransaction (GENERIC_COMM_BUS_HANDLERS (Generic_Comm_Bus_Id cfg)));
      [|discriminate].
    refine (wp_elim _ d (fun _ x => instance_turn d i x) tt d' _ H); unfold instance_turn. unfold ExecuteCallBack. wp_steps.
    eexists. split; [rewrite <- app_assoc; reflexivity|]. split.
    + intros j Hj. now apply lookup_insert_other.
    + right. exists inst. split; [exact Hinst|]. split.
      * left. auto.
      * reflexivity.
  - (* SEND_WRITE_HEADER, header transmitted *)
    destruct (BusStartTransaction (GENERIC_COMM_BUS_HANDLERS (Generic_Comm_Bus_Id cfg))).
    2:{ injection H as <-. apply instance_turn_refl. }
    refine (wp_elim _ d (fun _ x => instance_turn d i x) tt d' _ H); unfold instance_turn. wp_steps.
    destruct (_ =? TRUE).
    2:{ wp_steps. eexists. split; [reflexivity|]. split; [auto|]. left. reflexivity. }
    wp_steps. wp_apply WriteData_wp. wp_steps.
    eexists. split; [rewrite HT, <- app_assoc; reflexivity|]. split.
    + intros j Hj. rewrite HS. now apply lookup_insert_other.
    + left. rewrite !notifications_app, (notifications_timeout t Hf).
      destruct (BusWrite _); reflexivity.
  - (* WRITE, chunk transmitted *)
    destruct (BusStopTransaction (GENERIC_COMM_BUS_HANDLERS (Generic_Comm_Bus_Id cfg)));
      [|discriminate].
    refine (wp_elim _ d (fun _ x => instance_turn d i x) tt d' _ H); unfold instance_turn. wp_steps.
    destruct (Z.ltb_spec (NVM_Buffer_Progress inst) (NVM_Buffer_Size inst)) as [Hlt | Hge].
    + wp_steps. wp_apply SendWriteHeader_wp. wp_steps.
      eexists. split; [rewrite HT, <- app_assoc; reflexivity|]. split.
      * intros j Hj. now rewrite HS.
      * left. rewrite !notifications_app, (notifications_timeout t Hf).
        destruct (BusWrite _); reflexivity.
    + unfold ExecuteCallBack. wp_steps.
      eexists. split; [rewrite <- !app_assoc; reflexivity|]. split.
      * intros j Hj. now apply lookup_insert_other.
      * right. exists inst. split; [exact Hinst|]. split.
        -- right. auto.
        -- rewrite !notifications_app.
           destruct (ExternalFlash_WP_Feature cfg); reflexivity.
Qed.

Lemma Handler_loop_notifications d0 l :
  NoDup l ->
  forall d d',
    (forall j, j ∈ l ->
       ExternalFlash_Instance_Store d !! j = ExternalFlash_Instance_Store d0 !! j) ->
    for_each l ExternalFlash_Handler_instance d = Some (tt, d') ->
    exists t, trace d' = trace d ++ t /\ Forall (completion_of d0) (notifications t).
Proof.
  induction 1 as [|i l Hni Hnd IH]; intros d d' Hsame Hrun; cbn [for_each] in Hrun.
  - injection Hrun as <-. exists []. rewrite app_nil_r. split; [reflexivity|constructor].
  - apply bind_inv in Hrun as ([] & d1 & Hturn & Hrest).
    apply Handler_instance_turn in Hturn as (t1 & HT1 & Hother & Hnote).
    destruct (IH d1 d') as (t2 & HT2 & Hall2); [|exact Hrest|].
    { intros j Hj. rewrite Hother.
      - apply Hsame. apply elem_of_cons. auto.
      - intros ->. contradiction. }
    exists (t1 ++ t2). split; [rewrite HT2, HT1, app_assoc; reflexivity|].
    rewrite notifications_app. apply Forall_app. split; [|exact Hall2].
    destruct Hnote as [-> | (inst & Hinst & Hdone & ->)]; [constructor|].
    constructor; [|constructor]. exists i, inst. split; [|auto].
    rewrite <- Hsame; [exact Hinst|]. apply elem_of_cons. auto.
Qed.

(** C7, amended: every notification the poll loop emits is for an
    instance whose operation is complete; it carries that instance's id
    (also as the source given to the registry), this module's provider id,
    and the marker of the finished process packed with the requested size
    of the operation ([NVM_Buffer_Size]). *)
Theorem notification_carries_requested_size d d' :
  ExternalFlash_Handler d = Some (tt, d') ->
  exists t,
    trace d' = trace d ++ t /\
    forall event source,
      Callback__Notify event source ∈ t ->
      exists i inst,
        ExternalFlash_Instance_Store d !! i = Some inst /\
        completed inst /\
        source = Z.of_nat i /\
        Source_Instance_Id event = Z.of_nat i /\
        Generic_Provider_Id event = GENERIC_NVDATA_EXTERNAL_FLASH /\
        Event_Value event =
          COMBINE_BYTES (NVDATA_PROCESS_value (NVM_Current_Process inst))
                        (NVM_Buffer_Size inst).
Proof.
  intros Hrun. unfold ExternalFlash_Handler in Hrun.
  destruct (Handler_loop_notifications d (seq 0 EXTERNAL_FLASH_CH_NUM)
              (NoDup_seq _ _) d d' (fun _ _ => eq_refl) Hrun) as (t & HT & Hall).
  exists t. split; [exact HT|]. intros event source Hin.
  assert (Hn : (event, source) ∈ notifications t).
  { apply list_elem_of_omap. exists (Callback__Notify event source). auto. }
  rewrite Forall_forall in Hall. destruct (Hall _ Hn) as (i & inst & Hinst & Hdone & Heq).
  injection Heq as -> ->. exists i, inst. repeat split; auto.
Qed.

(** ** A write that needs a second chunk *)

Lemma kept_waiting_refl d i inst :
  ExternalFlash_Instance_Store d !! i = Some inst -> kept_waiting d d i inst.
Proof. intros H. split; [exact H|]. exists []. rewrite app_nil_r. split; [auto|constructor]. Qed.

Lemma kept_waiting_trans d1 d2 d3 i inst :
  kept_waiting d1 d2 i inst -> kept_waiting d2 d3 i inst -> kept_waiting d1 d3 i inst.
Proof.
  intros (_ & t1 & HT1 & HN1) (H3 & t2 & HT2 & HN2). split; [exact H3|].
  exists (t1 ++ t2). split; [rewrite HT2, HT1, app_assoc; reflexivity|].
  rewrite notifications_app. apply Forall_app. auto.
Qed.

Lemma CommBusEventHandler_channel_keeps event j d c d' i inst :
  ExternalFlash_Instance_Store d !! i = Some inst ->
  NVM_Current_Process inst = NVDATA_PROCESS_WRITE ->
  CommBusEventHandler_channel event j d = Some (c, d') ->
  kept_waiting d d' i inst.
Proof.
  intros Hi Hp. unfold CommBusEventHandler_channel.
  destruct (ExternalFlash_Map !! j) as [cfg|] eqn:Hcfg.
  2:{ unfold bind, get_map. rewrite Hcfg. discriminate. }
  bind_with Hcfg.
  destruct (Generic_Provider_Id event =? Generic_Comm_Bus_Id cfg).
  2:{ intros H. injection H as <- <-. now apply kept_waiting_refl. }
  destruct (ExternalFlash_Instance_Store d !! j) as [instj|] eqn:Hj.
  2:{ unfold bind, get_instance. rewrite Hj. discriminate. }
  bind_with Hj.
  destruct (Bus_Instance_Channel instj =? Source_Instance_Id event).
  2:{ intros H. injection H as <- <-. now apply kept_waiting_refl. }
  assert (Hne : NVM_Current_Process instj <> NVDATA_PROCESS_WRITE -> j <> i).
  { intros Hpj ->. rewrite Hi in Hj. injection Hj as <-. contradiction. }
  destruct (NVM_Current_Process instj) eqn:Hpj;
    try (intros H; injection H as <- <-; now apply kept_waiting_refl);
    intros H;
    refine (wp_elim _ d (fun _ x => kept_waiting d x i inst) c d' _ H);
    wp_steps; unfold kept_waiting; monad_cbn; (split;
      [ rewrite list_lookup_insert_ne; [exact Hi | apply Hne; discriminate]
      | eexists; split; [rewrite <- app_assoc; reflexivity | constructor] ]).
Qed.

Lemma CommBusEventHandler_keeps event d d' i inst :
  ExternalFlash_Instance_Store d !! i = Some inst ->
  NVM_Current_Process inst = NVDATA_PROCESS_WRITE ->
  CommBusEventHandler event d = Some (tt, d') ->
  kept_waiting d d' i inst.
Proof.
  intros Hi Hp. unfold CommBusEventHandler.
  generalize (seq 0 EXTERNAL_FLASH_CH_NUM). intros l. revert d Hi.
  induction l as [|j l IH]; intros d Hi H; cbn [for_each_break] in H.
  - injection H as <-. now apply kept_waiting_refl.
  - apply bind_inv in H as (c & d1 & Hj & Hrest).
    assert (K := CommBusEventHandler_channel_keeps event j d c d1 i inst Hi Hp Hj).
    destruct c.
    + eapply kept_waiting_trans; [exact K|]. apply IH; [apply K|exact Hrest].
    + injection Hrest as <-. exact K.
Qed.

Lemma Handler_instance_keeps d d' i inst j :
  chunk_sent d i inst ->
  ExternalFlash_Handler_instance j d = Some (tt, d') ->
  kept_waiting d d' i inst.
Proof.
  intros (Hi & Hs & Hp & Hlt) H.
  destruct (Handler_instance_turn d j d' H) as (t & HT & Hother & Hnote).
  destruct (Nat.eq_dec j i) as [-> | Hne].
  - assert (Hstore : ExternalFlash_Instance_Store d' = ExternalFlash_Instance_Store d).
    { destruct (ExternalFlash_Map !! i) as [cfg|] eqn:Hcfg.
      2:{ unfold ExternalFlash_Handler_instance, bind, get_map in H. rewrite Hcfg in H.
          discriminate. }
      destruct (BusStopTransaction (GENERIC_COMM_BUS_HANDLERS (Generic_Comm_Bus_Id cfg)))
        eqn:Hstop.
      - destruct (Handler_instance_in_WRITE d i inst cfg Hi Hcfg Hs Hp Hlt Hstop)
          as (d1 & t1 & H1 & HS & _).
        rewrite H1 in H. injection H as <-. exact HS.
      - unfold ExternalFlash_Handler_instance in H. revert H.
        bind_with Hcfg. bind_with Hi. rewrite Hs, Hp, Hstop. discriminate. }
    split; [rewrite Hstore; exact Hi|]. exists t. split; [exact HT|].
    destruct Hnote as [-> | (inst' & Hi' & Hdone & _)]; [constructor|].
    rewrite Hi in Hi'. injection Hi' as <-.
    destruct Hdone as [[Hs' _] | (_ & _ & Hge)]; [congruence | lia].
  - split; [rewrite Hother; [exact Hi | auto]|]. exists t. split; [exact HT|].
    destruct Hnote as [-> | (instj & _ & _ & ->)]; [constructor|].
    constructor; [|constructor]. cbn. lia.
Qed.

Lemma Handler_keeps d d' i inst :
  chunk_sent d i inst ->
  ExternalFlash_Handler d = Some (tt, d') ->
  kept_waiting d d' i inst.
Proof.
  unfold ExternalFlash_Handler.
  generalize (seq 0 EXTERNAL_FLASH_CH_NUM). intros l. revert d.
  induction l as [|j l IH]; intros d Hc H; cbn [for_each] in H.
  - injection H as <-. apply kept_waiting_refl, Hc.
  - apply bind_inv in H as ([] & d1 & Hj & Hrest).
    assert (K := Handler_instance_keeps d d1 i inst j Hc Hj).
    eapply kept_waiting_trans; [exact K|]. apply IH; [|exact Hrest].
    destruct Hc as (_ & Hc). split; [apply K | exact Hc].
Qed.

Lemma run_keeps entries d rs d' i inst :
  Forall poll_or_event entries ->
  chunk_sent d i inst ->
  run entries d = Some (rs, d') ->
  kept_waiting d d' i inst.
Proof.
  revert d rs. induction entries as [|e entries IH]; intros d rs Hpe Hc H; cbn [run] in H.
  - injection H as <- <-. apply kept_waiting_refl, Hc.
  - apply Forall_cons in Hpe as [He Hpe].
    apply bind_inv in H as (r & d1 & Henter & H).
    apply bind_inv in H as (rs' & d2 & Hrest & H). injection H as <- <-.
    assert (K : kept_waiting d d1 i inst).
    { destruct e; cbn in He; try contradiction; cbn [enter] in Henter;
        apply bind_inv in Henter as ([] & d0 & Hstep & Hret); injection Hret as <- <-.
      - now apply Handler_keeps.
      - eapply CommBusEventHandler_keeps; [apply Hc | apply Hc | exact Hstep]. }
    eapply kept_waiting_trans; [exact K|]. eapply IH; [exact Hpe | | exact Hrest].
    destruct Hc as (_ & Hc). split; [apply K | exact Hc].
Qed.

(** C3 (what the code does): in state [WRITE] with process [WRITE] and
    fewer bytes transferred than requested, the poll step stops the
    transaction and sends a write header, and changes no run-state: the
    instance stays in state [WRITE] with process [WRITE] instead of going
    back to [SEND_WRITE_HEADER] with process [WAIT_WRITE]; it starts no
    transaction, writes no payload and notifies nobody.  It stays so:
    whatever poll steps and bus events follow, the run-state of the
    instance is the same and no notification is sent for it. *)
Theorem Handler_in_WRITE_does_not_loop_back d i inst cfg :
  ExternalFlash_Instance_Store d !! i = Some inst ->
  ExternalFlash_Map !! i = Some cfg ->
  NVM_State inst = EXTERNAL_FLASH_STATE_WRITE ->
  NVM_Current_Process inst = NVDATA_PROCESS_WRITE ->
  NVM_Buffer_Progress inst < NVM_Buffer_Size inst ->
  BusStopTransaction (GENERIC_COMM_BUS_HANDLERS (Generic_Comm_Bus_Id cfg)) = true ->
  (exists d' t,
     ExternalFlash_Handler_instance i d = Some (tt, d') /\
     ExternalFlash_Instance_Store d' = ExternalFlash_Instance_Store d /\
     trace d' =
       trace d ++
       COMMBUS__STOPTRANSACTION (Generic_Comm_Bus_Id cfg) (Bus_Instance_Channel inst) ::
       (if BusWrite (GENERIC_COMM_BUS_HANDLERS (Generic_Comm_Bus_Id cfg))
        then [COMMBUS__WRITE (Generic_Comm_Bus_Id cfg) (Bus_Instance_Channel inst)
                (HeaderBytes (header_bytes
                   (write_header (NVM_Target_Address inst) (NVM_Buffer_Progress inst))))
                4]
        else []) ++ t /\
     forallb is_timeout_call t = true) /\
  (forall entries rs d',
     Forall poll_or_event entries ->
     run entries d = Some (rs, d') ->
     ExternalFlash_Instance_Store d' !! i = Some inst /\
     exists t, trace d' = trace d ++ t /\
               forall event source,
                 Callback__Notify event source ∈ t -> source <> Z.of_nat i).
Proof.
  intros Hinst Hcfg Hstate Hproc Hlt Hstop. split.
  - exact (Handler_instance_in_WRITE d i inst cfg Hinst Hcfg Hstate Hproc Hlt Hstop).
  - intros entries rs d' Hpe Hrun.
    destruct (run_keeps entries d rs d' i inst Hpe (conj Hinst (conj Hstate (conj Hproc Hlt)))
                Hrun) as (Hi & t & HT & HN).
    split; [exact Hi|]. exists t. split; [exact HT|].
    intros event source Hin. rewrite Forall_forall in HN.
    apply (HN (event, source)). apply list_elem_of_omap.
    exists (Callback__Notify event source). auto.
Qed.

(** ** More on [ExternalFlash__GetAllocation] and [ExternalFlash__Write] *)

Lemma GetAllocation_loop_first_match entries k p cfg d inst client_id mirror_pointer
    nv_instance_offset :
  entries !! p = Some cfg ->
  ExternalFlash_Channel cfg = client_id ->
  (forall q c, (q < p)%nat -> entries !! q = Some c -> ExternalFlash_Channel c <> client_id) ->
  ExternalFlash_Instance_Store d !! (k + p)%nat = Some inst ->
  GetAllocation_loop k entries client_id mirror_pointer nv_instance_offset d
  = Some ((k + p)%nat,
          set_Instance_Store
            (<[(k + p)%nat := bound_instance mirror_pointer nv_instance_offset inst]>
               (ExternalFlash_Instance_Store d)) d).
Proof.
  revert k p. induction entries as [|c rest IH]; intros k p Hp Hc Hfirst Hinst.
  - discriminate.
  - cbn [GetAllocation_loop]. destruct p as [|p].
    + cbn in Hp. injection Hp as ->. apply Z.eqb_eq in Hc. rewrite Hc.
      rewrite Nat.add_0_r in *. monad. reflexivity.
    + assert (Hne : ExternalFlash_Channel c <> client_id)
        by (apply (Hfirst 0%nat c); [lia | reflexivity]).
      apply Z.eqb_neq in Hne. rewrite Hne.
      replace (k + S p)%nat with (S k + p)%nat in * by lia.
      apply IH; auto.
      intros q c' Hq Hc'. apply (Hfirst (S q) c'); [lia | exact Hc'].
Qed.

Lemma GetAllocation_first_match d i inst client_id mirror_pointer nv_instance_offset :
  first_entry_of client_id i ->
  ExternalFlash_Instance_Store d !! i = Some inst ->
  ExternalFlash__GetAllocation client_id mirror_pointer nv_instance_offset d
  = Some (Z.of_nat i,
          set_Instance_Store
            (<[i := bound_instance mirror_pointer nv_instance_offset inst]>
               (ExternalFlash_Instance_Store d)) d).
Proof.
  intros [(cfg & Hcfg & Hc) Hfirst] Hinst. unfold ExternalFlash__GetAllocation.
  bind_with (GetAllocation_loop_first_match ExternalFlash_Map 0 i cfg d inst client_id
               mirror_pointer nv_instance_offset Hcfg Hc Hfirst Hinst).
  reflexivity.
Qed.

(** X1: with a client id that the map has, [ExternalFlash__GetAllocation]
    returns the index of the first entry with that channel and stores the
    mirror pointer and the memory offset in that instance; the other fields
    of the instance, the other instances, the task index, the timeout
    handle and the trace are as before (no collaborator is called), also
    when the instance is in the middle of an operation. *)
Theorem GetAllocation_binds_first_match d i inst client_id mirror_pointer
    nv_instance_offset :
  first_entry_of client_id i ->
  ExternalFlash_Instance_Store d !! i = Some inst ->
  exists d',
    ExternalFlash__GetAllocation client_id mirror_pointer nv_instance_offset d
      = Some (Z.of_nat i, d') /\
    ExternalFlash_Instance_Store d' !! i
      = Some (bound_instance mirror_pointer nv_instance_offset inst) /\
    (forall j, j <> i ->
       ExternalFlash_Instance_Store d' !! j = ExternalFlash_Instance_Store d !! j) /\
    NVM_State (bound_instance mirror_pointer nv_instance_offset inst) = NVM_State inst /\
    NVM_Current_Process (bound_instance mirror_pointer nv_instance_offset inst)
      = NVM_Current_Process inst /\
    NVM_Target_Address (bound_instance mirror_pointer nv_instance_offset inst)
      = NVM_Target_Address inst /\
    ExternalFlash_Handler_Index d' = ExternalFlash_Handler_Index d /\
    ExternalFlash_Timeout_Handle d' = ExternalFlash_Timeout_Handle d /\
    trace d' = trace d.
Proof.
  intros Hfirst Hinst. eexists. split.
  - apply (GetAllocation_first_match d i inst); assumption.
  - cbn. split; [eapply lookup_insert_same, Hinst|]. split; [|auto 10].
    intros j Hj. now apply lookup_insert_other.
Qed.

(** An accepted [ExternalFlash__Write], call by call. *)
Lemma Write_accepted_trace d i inst cfg buffer data_address size :
  ExternalFlash_Instance_Store d !! i = Some inst ->
  ExternalFlash_Map !! i = Some cfg ->
  instance_free inst = true ->
  BusStartTransaction (GENERIC_COMM_BUS_HANDLERS (Generic_Comm_Bus_Id cfg)) = true ->
  respond (trace d)
    (COMMBUS__STARTTRANSACTION (Generic_Comm_Bus_Id cfg) (Bus_Instance_Channel inst)) = TRUE ->
  wp (ExternalFlash__Write i buffer data_address size) d (fun r d' =>
    r = true /\
    ExternalFlash_Instance_Store d' =
      <[i := accepted_instance inst buffer data_address size
               EXTERNAL_FLASH_STATE_SEND_WRITE_HEADER]> (ExternalFlash_Instance_Store d) /\
    ExternalFlash_Handler_Index d' = ExternalFlash_Handler_Index d /\
    exists t,
      forallb is_timeout_call t = true /\
      trace d' =
        trace d ++
        COMMBUS__STARTTRANSACTION (Generic_Comm_Bus_Id cfg) (Bus_Instance_Channel inst) ::
        (if ExternalFlash_WP_Feature cfg
         then [GENERIC_IO_DIGITALIO_Write (ExternalFlash_WP_Pin cfg)
                 (ExternalFlash_WP_Level cfg)]
         else []) ++
        (if BusWrite (GENERIC_COMM_BUS_HANDLERS (Generic_Comm_Bus_Id cfg))
         then [COMMBUS__WRITE (Generic_Comm_Bus_Id cfg) (Bus_Instance_Channel inst)
                 (HeaderBytes (header_bytes
                    (write_header (uint32 (NVM_Instance_Memory_Offset inst + data_address))
                       0)))
                 4]
         else []) ++
        t ++
        (if negb (NVM_Mirror_Pointer inst =? NULL)
         then [memcpy_to_mirror (NVM_Mirror_Pointer inst + data_address) buffer size]
         else []) ++
        [SystemTimers__ResumeTask (ExternalFlash_Handler_Index d)]).
Proof.
  intros Hinst Hcfg Hfree Hstart Hresp.
  destruct (instance_free_inv inst Hfree) as (Hc & Hp & Hs).
  unfold ExternalFlash__Write. rewrite (in_range_of_map i cfg Hcfg).
  wp_steps. rewrite Hc, Hp, Hs. monad_cbn. wp_steps. rewrite Hstart. wp_steps.
  rewrite Hresp. change (TRUE =? TRUE) with true. cbv iota.
  wp_steps. wp_apply SendWriteHeader_wp. wp_steps.
  rewrite HH. wp_steps.
  split; [reflexivity|]. split; [rewrite HS; reflexivity|]. split; [reflexivity|].
  exists t. split; [exact Hf|].
  rewrite HT, <- !app_assoc. reflexivity.
Qed.

(** X2: an accepted [ExternalFlash__Write] (instance bound and idle, the
    transaction starts) returns [TRUE] whether or not the write header
    could be sent.  In this order it starts the transaction, drives the
    write-protect pin to its configured level when the feature is enabled,
    sends the four header bytes for (memory offset + address) mod 2^32 when
    the provider can write, copies [size] bytes of the buffer to the mirror
    at (mirror + address) when a mirror is registered, and resumes the
    polling task; the instance goes to [SEND_WRITE_HEADER] with process
    [WAIT_WRITE] and progress 0. *)
Theorem Write_accepted_effects d i inst cfg buffer data_address size :
  ExternalFlash_Instance_Store d !! i = Some inst ->
  ExternalFlash_Map !! i = Some cfg ->
  instance_free inst = true ->
  BusStartTransaction (GENERIC_COMM_BUS_HANDLERS (Generic_Comm_Bus_Id cfg)) = true ->
  respond (trace d)
    (COMMBUS__STARTTRANSACTION (Generic_Comm_Bus_Id cfg) (Bus_Instance_Channel inst)) = TRUE ->
  exists d' t,
    ExternalFlash__Write i buffer data_address size d = Some (true, d') /\
    ExternalFlash_Instance_Store d' =
      <[i := accepted_instance inst buffer data_address size
               EXTERNAL_FLASH_STATE_SEND_WRITE_HEADER]> (ExternalFlash_Instance_Store d) /\
    forallb is_timeout_call t = true /\
    trace d' =
      trace d ++
      COMMBUS__STARTTRANSACTION (Generic_Comm_Bus_Id cfg) (Bus_Instance_Channel inst) ::
      (if ExternalFlash_WP_Feature cfg
       then [GENERIC_IO_DIGITALIO_Write (ExternalFlash_WP_Pin cfg)
               (ExternalFlash_WP_Level cfg)]
       else []) ++
      (if BusWrite (GENERIC_COMM_BUS_HANDLERS (Generic_Comm_Bus_Id cfg))
       then [COMMBUS__WRITE (Generic_Comm_Bus_Id cfg) (Bus_Instance_Channel inst)
               (HeaderBytes (header_bytes
                  (write_header (uint32 (NVM_Instance_Memory_Offset inst + data_address))
                     0)))
               4]
       else []) ++
      t ++
      (if negb (NVM_Mirror_Pointer inst =? NULL)
       then [memcpy_to_mirror (NVM_Mirror_Pointer inst + data_address) buffer size]
       else []) ++
      [SystemTimers__ResumeTask (ExternalFlash_Handler_Index d)].
Proof.
  intros Hinst Hcfg Hfree Hstart Hresp.
  destruct (Write_accepted_trace d i inst cfg buffer data_address size Hinst Hcfg Hfree
              Hstart Hresp) as (r & d' & HW & -> & HS & _ & t & Hf & HT).
  exists d', t. auto.
Qed.

(** X3: binding and writing compose.  After
    [GetAllocation (client, mirror, offset)] has bound instance [i], an
    accepted [Write (i, buffer, address, size)] targets the device address
    (offset + address) mod 2^32, while the mirror copy, made when the
    mirror pointer is not null, goes to (mirror + address): the memory
    offset is not applied to the mirror. *)
Theorem GetAllocation_then_Write d i inst cfg client_id mirror_pointer nv_instance_offset
    buffer data_address size :
  first_entry_of client_id i ->
  ExternalFlash_Instance_Store d !! i = Some inst ->
  ExternalFlash_Map !! i = Some cfg ->
  instance_free inst = true ->
  BusStartTransaction (GENERIC_COMM_BUS_HANDLERS (Generic_Comm_Bus_Id cfg)) = true ->
  respond (trace d)
    (COMMBUS__STARTTRANSACTION (Generic_Comm_Bus_Id cfg) (Bus_Instance_Channel inst)) = TRUE ->
  exists d1 d2 inst2 t,
    ExternalFlash__GetAllocation client_id mirror_pointer nv_instance_offset d
      = Some (Z.of_nat i, d1) /\
    ExternalFlash__Write i buffer data_address size d1 = Some (true, d2) /\
    ExternalFlash_Instance_Store d2 !! i = Some inst2 /\
    NVM_Target_Address inst2 = uint32 (nv_instance_offset + data_address) /\
    NVM_Mirror_Pointer inst2 = mirror_pointer /\
    trace d2 = trace d ++ t /\
    (mirror_pointer <> NULL ->
     memcpy_to_mirror (mirror_pointer + data_address) buffer size ∈ t) /\
    (mirror_pointer = NULL ->
     forall destination source n, memcpy_to_mirror destination source n ∉ t).
Proof.
  intros Hfirst Hinst Hcfg Hfree Hstart Hresp.
  pose proof (GetAllocation_first_match d i inst client_id mirror_pointer nv_instance_offset
                Hfirst Hinst) as HG.
  set (d1 := set_Instance_Store
               (<[i := bound_instance mirror_pointer nv_instance_offset inst]>
                  (ExternalFlash_Instance_Store d)) d) in *.
  assert (Hinst1 : ExternalFlash_Instance_Store d1 !! i
                   = Some (bound_instance mirror_pointer nv_instance_offset inst))
    by (cbn; eapply lookup_insert_same, Hinst).
  destruct (Write_accepted_trace d1 i _ cfg buffer data_address size Hinst1 Hcfg Hfree
              Hstart Hresp) as (r & d2 & HW & -> & HS & _ & t & Hf & HT).
  eexists d1, d2, _, _. split; [exact HG|]. split; [exact HW|].
  split; [rewrite HS; eapply lookup_insert_same, Hinst1|].
  split; [reflexivity|]. split; [reflexivity|]. split; [exact HT|].
  cbn [bound_instance NVM_Mirror_Pointer set_NVM_Instance_Memory_Offset
       set_NVM_Mirror_Pointer]. split.
  - intros Hm. apply Z.eqb_neq in Hm. rewrite Hm. cbn [negb].
    apply elem_of_cons. right. rewrite !elem_of_app. right. right. right. left.
    apply elem_of_cons. left. reflexivity.
  - intros Hm destination source n Hin. apply Z.eqb_eq in Hm. rewrite Hm in Hin.
    cbn [negb] in Hin. apply elem_of_cons in Hin as [Hin | Hin]; [discriminate|].
    rewrite !elem_of_app in Hin.
    assert (Ht : memcpy_to_mirror destination source n ∉ t).
    { intros Hin'. rewrite forallb_forall in Hf.
      apply list_elem_of_In in Hin'. specialize (Hf _ Hin'). discriminate. }
    destruct Hin as [Hin | [Hin | [Hin | [Hin | Hin]]]].
    + destruct (ExternalFlash_WP_Feature cfg); [apply list_elem_of_singleton in Hin|
        apply elem_of_nil in Hin]; [discriminate | contradiction].
    + destruct (BusWrite _); [apply list_elem_of_singleton in Hin|
        apply elem_of_nil in Hin]; [discriminate | contradiction].
    + contradiction.
    + apply elem_of_nil in Hin. contradiction.
    + apply list_elem_of_singleton in Hin. discriminate.
Qed.

(** ** More on [CommBusEventHandler] *)

Lemma CommBusEventHandler_channel_not_waiting d event j cfg inst :
  ExternalFlash_Map !! j = Some cfg ->
  ExternalFlash_Instance_Store d !! j = Some inst ->
  waits_for event cfg inst = false ->
  CommBusEventHandler_channel event j d = Some (loop_next, d).
Proof.
  intros Hcfg Hinst Hw. unfold waits_for in Hw.
  unfold CommBusEventHandler_channel. monad.
  destruct (Generic_Provider_Id event =? Generic_Comm_Bus_Id cfg); [|reflexivity].
  monad.
  destruct (Bus_Instance_Channel inst =? Source_Instance_Id event); [|reflexivity].
  destruct (NVM_Current_Process inst); try reflexivity; discriminate.
Qed.

Lemma CommBusEventHandler_channel_serves d event i cfg inst :
  ExternalFlash_Map !! i = Some cfg ->
  ExternalFlash_Instance_Store d !! i = Some inst ->
  waits_for event cfg inst = true ->
  CommBusEventHandler_channel event i d = Some (loop_break, served_driver d event i inst).
Proof.
  intros Hcfg Hinst Hw. unfold waits_for in Hw.
  apply andb_prop in Hw as [Hw Hp]. apply andb_prop in Hw as [Hprov Hchan].
  enough (W : wp (CommBusEventHandler_channel event i) d
                (fun c d' => c = loop_break /\ d' = served_driver d event i inst)).
  { destruct W as (c & d' & HW & -> & ->). exact HW. }
  unfold CommBusEventHandler_channel. wp_steps. rewrite Hprov. wp_steps. rewrite Hchan.
  unfold served_driver, served_instance.
  destruct (NVM_Current_Process inst) eqn:Hproc; try discriminate;
    wp_steps; (split; [reflexivity|]); cbn [served_process];
    rewrite <- app_assoc; reflexivity.
Qed.

Lemma for_each_break_first l1 i l2 (body : nat -> M loop_control) d d' :
  (forall j, j ∈ l1 -> body j d = Some (loop_next, d)) ->
  body i d = Some (loop_break, d') ->
  for_each_break (l1 ++ i :: l2) body d = Some (tt, d').
Proof.
  intros Hskip Hi. induction l1 as [|j l1 IH]; cbn [app for_each_break].
  - bind_with Hi. reflexivity.
  - bind_with (Hskip j ltac:(apply elem_of_cons; auto)).
    apply IH. intros k Hk. apply Hskip. apply elem_of_cons. auto.
Qed.

Lemma seq_split_at i n : (i < n)%nat -> seq 0 n = seq 0 i ++ i :: seq (S i) (n - S i).
Proof.
  intros H. replace n with (i + S (n - S i))%nat at 1 by lia.
  rewrite seq_app. reflexivity.
Qed.

Lemma CommBusEventHandler_first_waiting d event i inst :
  first_waiting d event i inst ->
  CommBusEventHandler event d = Some (tt, served_driver d event i inst).
Proof.
  intros (Hlen & Hinst & (cfg & Hcfg & Hw) & Hfirst).
  assert (Hi : (i < EXTERNAL_FLASH_CH_NUM)%nat) by (eapply lookup_lt_Some, Hcfg).
  unfold CommBusEventHandler. rewrite (seq_split_at i _ Hi).
  apply for_each_break_first.
  - intros j Hj. apply elem_of_seq in Hj.
    destruct (map_index_in_range j ltac:(lia)) as [cfg_j Hcfg_j].
    destruct (lookup_lt_is_Some_2 (ExternalFlash_Instance_Store d) j) as [inst_j Hinst_j];
      [lia|].
    apply (CommBusEventHandler_channel_not_waiting d event j cfg_j inst_j Hcfg_j Hinst_j).
    apply (Hfirst j cfg_j inst_j); [lia | exact Hcfg_j | exact Hinst_j].
  - now apply (CommBusEventHandler_channel_serves d event i cfg inst).
Qed.

(** X4: a bus event is served to the first instance, in the order of the
    map, bound to the event's provider and channel with process
    [WAIT_READ] or [WAIT_WRITE], and to that one alone.  Its process
    becomes [READ] or [WRITE], its progress count grows by the low byte of
    the event value (modulo 2^16), the polling task is asked to run at
    once, the timeout timer is released and its handle is set to
    [INVALID_VALUE_8]; the state of the instance, the other instances and
    the task index are as before. *)
Theorem event_is_served_to_first_waiting_instance d event i inst :
  first_waiting d event i inst ->
  exists d',
    CommBusEventHandler event d = Some (tt, d') /\
    ExternalFlash_Instance_Store d' !! i = Some (served_instance event inst) /\
    NVM_Current_Process (served_instance event inst)
      = served_process (NVM_Current_Process inst) /\
    NVM_Buffer_Progress (served_instance event inst)
      = (NVM_Buffer_Progress inst + Z.land (Event_Value event) 0xFF mod 256) mod 65536 /\
    NVM_State (served_instance event inst) = NVM_State inst /\
    (forall j, j <> i ->
       ExternalFlash_Instance_Store d' !! j = ExternalFlash_Instance_Store d !! j) /\
    ExternalFlash_Handler_Index d' = ExternalFlash_Handler_Index d /\
    ExternalFlash_Timeout_Handle d' = INVALID_VALUE_8 /\
    trace d' =
      trace d ++ [SystemTimers__SetTaskIdxNextCall (ExternalFlash_Handler_Index d);
                  SystemTimers__ReleaseHandle (ExternalFlash_Timeout_Handle d)].
Proof.
  intros Hfirst. exists (served_driver d event i inst).
  split; [now apply CommBusEventHandler_first_waiting|].
  destruct Hfirst as (_ & Hinst & _). cbn.
  split; [eapply lookup_insert_same, Hinst|].
  split; [reflexivity|]. split; [reflexivity|]. split; [reflexivity|].
  split; [|auto]. intros j Hj. now apply lookup_insert_other.
Qed.

Lemma CommBusEventHandler_loop_cases d event l :
  length (ExternalFlash_Instance_Store d) = EXTERNAL_FLASH_CH_NUM ->
  Forall (fun i => (i < EXTERNAL_FLASH_CH_NUM)%nat) l ->
  for_each_break l (CommBusEventHandler_channel event) d = Some (tt, d) \/
  exists i inst,
    ExternalFlash_Instance_Store d !! i = Some inst /\
    for_each_break l (CommBusEventHandler_channel event) d
      = Some (tt, served_driver d event i inst).
Proof.
  intros Hlen. induction l as [|j l IH]; intros Hl; [left; reflexivity|].
  apply Forall_cons in Hl as [Hj Hl]. cbn [for_each_break].
  destruct (map_index_in_range j Hj) as [cfg Hcfg].
  destruct (lookup_lt_is_Some_2 (ExternalFlash_Instance_Store d) j) as [inst Hinst];
    [lia|].
  destruct (waits_for event cfg inst) eqn:Hw.
  - right. exists j, inst. split; [exact Hinst|].
    bind_with (CommBusEventHandler_channel_serves d event j cfg inst Hcfg Hinst Hw).
    reflexivity.
  - bind_with (CommBusEventHandler_channel_not_waiting d event j cfg inst Hcfg Hinst Hw).
    apply IH, Hl.
Qed.

Lemma same_request_refl inst : same_request inst inst.
Proof. unfold same_request. auto 10. Qed.

(** X5: whatever the event, [CommBusEventHandler] returns, and it changes
    nothing of an instance but its process and its progress count: the
    state, the target address, the buffer pointer and size, the channel,
    the mirror pointer and the memory offset of every instance are as
    before, as is the task index.  It calls neither the bus nor the
    callback registry: an operation is neither started nor completed by a
    bus event. *)
Theorem event_changes_process_and_progress_only d event :
  length (ExternalFlash_Instance_Store d) = EXTERNAL_FLASH_CH_NUM ->
  exists d' t,
    CommBusEventHandler event d = Some (tt, d') /\
    length (ExternalFlash_Instance_Store d') = EXTERNAL_FLASH_CH_NUM /\
    (forall j inst,
       ExternalFlash_Instance_Store d !! j = Some inst ->
       exists inst', ExternalFlash_Instance_Store d' !! j = Some inst' /\
                     same_request inst inst') /\
    ExternalFlash_Handler_Index d' = ExternalFlash_Handler_Index d /\
    trace d' = trace d ++ t /\
    forall c, c ∈ t ->
      c = SystemTimers__SetTaskIdxNextCall (ExternalFlash_Handler_Index d) \/
      c = SystemTimers__ReleaseHandle (ExternalFlash_Timeout_Handle d).
Proof.
  intros Hlen. unfold CommBusEventHandler.
  destruct (CommBusEventHandler_loop_cases d event (seq 0 EXTERNAL_FLASH_CH_NUM) Hlen
              indices_in_range) as [H | (i & inst & Hinst & H)].
  - exists d, []. split; [exact H|]. split; [exact Hlen|]. split.
    + intros j instj Hj. exists instj. split; [exact Hj | apply same_request_refl].
    + split; [reflexivity|]. split; [now rewrite app_nil_r|].
      intros c Hc. apply elem_of_nil in Hc. contradiction.
  - eexists _, _. split; [exact H|]. cbn. split; [now rewrite length_insert|]. split.
    + intros j instj Hj. destruct (Nat.eq_dec j i) as [-> | Hne].
      * rewrite Hinst in Hj. injection Hj as <-. eexists. split.
        -- eapply lookup_insert_same, Hinst.
        -- unfold same_request. cbn. auto 10.
      * exists instj. split; [|apply same_request_refl].
        rewrite lookup_insert_other by exact Hne. exact Hj.
    + split; [reflexivity|]. split; [reflexivity|].
      intros c Hc. apply elem_of_cons in Hc as [-> | Hc]; [auto|].
      apply list_elem_of_singleton in Hc. auto.
Qed.

(** ** More on the poll step *)

Lemma Handler_instance_not_pending d i cfg inst :
  ExternalFlash_Map !! i = Some cfg ->
  ExternalFlash_Instance_Store d !! i = Some inst ->
  poll_pending inst = false ->
  ExternalFlash_Handler_instance i d = Some (tt, d).
Proof.
  intros Hcfg Hinst Hp. unfold poll_pending in Hp.
  unfold ExternalFlash_Handler_instance. bind_with Hcfg. bind_with Hinst.
  destruct (NVM_State inst); try reflexivity;
    destruct (NVM_Current_Process inst); try reflexivity; discriminate.
Qed.

Lemma for_each_unchanged l (body : nat -> M unit) d :
  (forall j, j ∈ l -> body j d = Some (tt, d)) -> for_each l body d = Some (tt, d).
Proof.
  induction l as [|j l IH]; intros H; cbn [for_each]; [reflexivity|].
  bind_with (H j ltac:(apply elem_of_cons; auto)).
  apply IH. intros k Hk. apply H. apply elem_of_cons. auto.
Qed.

Lemma for_each_app l1 l2 (body : nat -> M unit) d d1 d2 :
  for_each l1 body d = Some (tt, d1) ->
  for_each l2 body d1 = Some (tt, d2) ->
  for_each (l1 ++ l2) body d = Some (tt, d2).
Proof.
  revert d. induction l1 as [|j l1 IH]; intros d H1 H2; cbn [app for_each] in *.
  - injection H1 as ->. exact H2.
  - apply bind_inv in H1 as ([] & d0 & Hj & H1). bind_with Hj. now apply IH.
Qed.

Lemma Handler_none_pending d :
  none_pending d -> ExternalFlash_Handler d = Some (tt, d).
Proof.
  intros [Hlen Hall]. unfold ExternalFlash_Handler. apply for_each_unchanged.
  intros j Hj. apply elem_of_seq in Hj.
  destruct (map_index_in_range j ltac:(lia)) as [cfg Hcfg].
  destruct (lookup_lt_is_Some_2 (ExternalFlash_Instance_Store d) j) as [inst Hinst];
    [lia|].
  apply (Handler_instance_not_pending d j cfg inst Hcfg Hinst).
  rewrite Forall_lookup in Hall. apply (Hall j inst Hinst).
Qed.

(** The poll loop when only instance [i] is pending: it is the turn of
    [i]. *)
Lemma Handler_only_pending d i d' :
  only_pending d i ->
  (i < EXTERNAL_FLASH_CH_NUM)%nat ->
  ExternalFlash_Handler_instance i d = Some (tt, d') ->
  (forall j, j <> i ->
     ExternalFlash_Instance_Store d' !! j = ExternalFlash_Instance_Store d !! j) ->
  ExternalFlash_Handler d = Some (tt, d').
Proof.
  intros [Hlen Hothers] Hi Hturn Hsame.
  assert (Hquiet : forall x, (forall j, j <> i ->
              ExternalFlash_Instance_Store x !! j = ExternalFlash_Instance_Store d !! j) ->
            forall j, j <> i -> (j < EXTERNAL_FLASH_CH_NUM)%nat ->
            ExternalFlash_Handler_instance j x = Some (tt, x)).
  { intros x Hx j Hne Hj.
    destruct (map_index_in_range j Hj) as [cfg Hcfg].
    destruct (lookup_lt_is_Some_2 (ExternalFlash_Instance_Store d) j) as [inst Hinst];
      [lia|].
    apply (Handler_instance_not_pending x j cfg inst Hcfg).
    - rewrite Hx by exact Hne. exact Hinst.
    - apply (Hothers j inst Hne Hinst). }
  unfold ExternalFlash_Handler. rewrite (seq_split_at i _ Hi).
  apply (for_each_app _ _ _ d d d').
  - apply for_each_unchanged. intros j Hj. apply elem_of_seq in Hj.
    apply (Hquiet d); [auto | lia | lia].
  - cbn [for_each]. bind_with Hturn. apply for_each_unchanged.
    intros j Hj. apply elem_of_seq in Hj. apply (Hquiet d' Hsame); lia.
Qed.

(** X6: the poll step acts only on the four (state, process) pairs
    (send-read-header, write), (read, read), (send-write-header, write)
    and (write, write).  When no instance is in one of them, any number of
    polls leaves the driver as it is and calls no collaborator: an
    instance that waits for a bus event keeps waiting, whether or not the
    timeout timer has run out, since the poll step never reads the
    timer. *)
Theorem polls_without_pending_instance_change_nothing d n :
  none_pending d ->
  run (replicate n Call_Handler) d = Some (replicate n 0, d).
Proof.
  intros Hnone. induction n as [|n IH]; [reflexivity|].
  cbn [replicate run enter].
  unfold bind at 1. unfold bind at 1. rewrite (Handler_none_pending d Hnone).
  unfold ret at 1. bind_with IH. reflexivity.
Qed.

Lemma Handler_SEND_READ_HEADER d i inst cfg :
  ExternalFlash_Instance_Store d !! i = Some inst ->
  ExternalFlash_Map !! i = Some cfg ->
  NVM_State inst = EXTERNAL_FLASH_STATE_SEND_READ_HEADER ->
  NVM_Current_Process inst = NVDATA_PROCESS_WRITE ->
  wp (ExternalFlash_Handler_instance i) d (fun _ d' => exists t,
    ExternalFlash_Instance_Store d' =
      <[i := set_NVM_State EXTERNAL_FLASH_STATE_READ
               (set_NVM_Current_Process NVDATA_PROCESS_WAIT_READ inst)]>
        (ExternalFlash_Instance_Store d) /\
    ExternalFlash_Handler_Index d' = ExternalFlash_Handler_Index d /\
    trace d' =
      trace d ++
      (if BusRead (GENERIC_COMM_BUS_HANDLERS (Generic_Comm_Bus_Id cfg))
       then [COMMBUS__READ (Generic_Comm_Bus_Id cfg) (Bus_Instance_Channel inst)
               (NVM_Buffer_Pointer inst) (NVM_Buffer_Size inst)]
       else []) ++ t /\
    forallb is_timeout_call t = true).
Proof.
  intros Hinst Hcfg Hstate Hproc.
  unfold ExternalFlash_Handler_instance. wp_steps. rewrite Hstate, Hproc. wp_steps.
  wp_apply ReadData_wp. wp_steps.
  exists t. split; [exact HS|]. split; [exact HH|]. split; [exact HT | exact Hf].
Qed.

(** X7: the poll that finds an instance in state [SEND_READ_HEADER] with
    process [WRITE] (the header event has arrived) moves it to state
    [READ] with process [WAIT_READ] and asks the bus once for the whole
    requested size into the client buffer; there is no split into pages
    and no stop of the transaction between header and payload.  The
    instance is moved also when the provider has no read function or
    refuses the read. *)
Theorem poll_after_read_header_requests_payload d i inst cfg :
  only_pending d i ->
  ExternalFlash_Instance_Store d !! i = Some inst ->
  ExternalFlash_Map !! i = Some cfg ->
  NVM_State inst = EXTERNAL_FLASH_STATE_SEND_READ_HEADER ->
  NVM_Current_Process inst = NVDATA_PROCESS_WRITE ->
  exists d' t,
    ExternalFlash_Handler d = Some (tt, d') /\
    ExternalFlash_Instance_Store d' =
      <[i := set_NVM_State EXTERNAL_FLASH_STATE_READ
               (set_NVM_Current_Process NVDATA_PROCESS_WAIT_READ inst)]>
        (ExternalFlash_Instance_Store d) /\
    trace d' =
      trace d ++
      (if BusRead (GENERIC_COMM_BUS_HANDLERS (Generic_Comm_Bus_Id cfg))
       then [COMMBUS__READ (Generic_Comm_Bus_Id cfg) (Bus_Instance_Channel inst)
               (NVM_Buffer_Pointer inst) (NVM_Buffer_Size inst)]
       else []) ++ t /\
    forallb is_timeout_call t = true.
Proof.
  intros Honly Hinst Hcfg Hstate Hproc.
  destruct (Handler_SEND_READ_HEADER d i inst cfg Hinst Hcfg Hstate Hproc)
    as ([] & d' & Hturn & t & HS & _ & HT & Hf).
  exists d', t. split; [|auto].
  apply (Handler_only_pending d i d' Honly); [eapply lookup_lt_Some, Hcfg | exact Hturn |].
  intros j Hj. rewrite HS. now apply lookup_insert_other.
Qed.

Lemma Handler_instance_completes d i inst cfg :
  ExternalFlash_Instance_Store d !! i = Some inst ->
  ExternalFlash_Map !! i = Some cfg ->
  completed inst ->
  BusStopTransaction (GENERIC_COMM_BUS_HANDLERS (Generic_Comm_Bus_Id cfg)) = true ->
  ExternalFlash_Handler_instance i d =
    Some (tt, set_trace (trace d ++ completion_calls i inst cfg)
                (set_Instance_Store
                   (<[i := idle_again inst]> (ExternalFlash_Instance_Store d)) d)).
Proof.
  intros Hinst Hcfg Hdone Hstop.
  enough (W : wp (ExternalFlash_Handler_instance i) d (fun _ d' =>
                d' = set_trace (trace d ++ completion_calls i inst cfg)
                       (set_Instance_Store
                          (<[i := idle_again inst]> (ExternalFlash_Instance_Store d)) d))).
  { destruct W as ([] & d' & HW & ->). exact HW. }
  unfold ExternalFlash_Handler_instance, completion_calls, idle_again.
  destruct Hdone as [[Hstate Hproc] | (Hstate & Hproc & Hge)].
  - wp_steps. rewrite Hstate, Hproc, Hstop. unfold ExecuteCallBack. wp_steps.
    rewrite <- app_assoc. unfold completion_event, nv_callback_of.
    destruct inst; cbn in *; subst; reflexivity.
  - wp_steps. rewrite Hstate, Hproc, Hstop. wp_steps.
    apply Z.ltb_ge in Hge. rewrite Hge. unfold ExecuteCallBack. wp_steps.
    rewrite <- !app_assoc. unfold completion_event, nv_callback_of.
    destruct inst; cbn in *; subst; reflexivity.
Qed.

(** X8: the poll that finds an instance complete (state [READ] with
    process [READ], or state [WRITE] with process [WRITE] and the progress
    count at or above the requested size) stops the transaction, drives the
    write-protect pin to the opposite of its configured level when it
    completes a write and the feature is enabled, notifies once, and puts
    the instance back to state [IDLE] with process [NONE]; the buffer
    fields and the timeout handle are kept.  A bound instance then passes
    the guard of [Read] and [Write] again. *)
Theorem poll_completes_operation d i inst cfg :
  only_pending d i ->
  ExternalFlash_Instance_Store d !! i = Some inst ->
  ExternalFlash_Map !! i = Some cfg ->
  completed inst ->
  BusStopTransaction (GENERIC_COMM_BUS_HANDLERS (Generic_Comm_Bus_Id cfg)) = true ->
  exists d',
    ExternalFlash_Handler d = Some (tt, d') /\
    ExternalFlash_Instance_Store d' =
      <[i := idle_again inst]> (ExternalFlash_Instance_Store d) /\
    ExternalFlash_Timeout_Handle d' = ExternalFlash_Timeout_Handle d /\
    trace d' = trace d ++ completion_calls i inst cfg /\
    notifications (completion_calls i inst cfg) = [(completion_event i inst, Z.of_nat i)] /\
    (Bus_Instance_Channel inst <> INVALID_VALUE_8 -> instance_free (idle_again inst) = true).
Proof.
  intros Honly Hinst Hcfg Hdone Hstop.
  pose proof (Handler_instance_completes d i inst cfg Hinst Hcfg Hdone Hstop) as Hturn.
  eexists. split.
  - apply (Handler_only_pending d i _ Honly); [eapply lookup_lt_Some, Hcfg | exact Hturn |].
    intros j Hj. cbn. now apply lookup_insert_other.
  - cbn. split; [reflexivity|]. split; [reflexivity|]. split; [reflexivity|]. split.
    + unfold completion_calls.
      destruct (NVM_State inst); try reflexivity.
      destruct (ExternalFlash_WP_Feature cfg); reflexivity.
    + intros Hb. apply Z.eqb_neq in Hb. unfold instance_free, idle_again. cbn.
      now rewrite Hb.
Qed.

Lemma Handler_instance_start_fails d i inst cfg :
  ExternalFlash_Instance_Store d !! i = Some inst ->
  ExternalFlash_Map !! i = Some cfg ->
  NVM_State inst = EXTERNAL_FLASH_STATE_SEND_WRITE_HEADER ->
  NVM_Current_Process inst = NVDATA_PROCESS_WRITE ->
  start_fails d inst cfg ->
  ExternalFlash_Handler_instance i d =
    Some (tt, set_trace (trace d ++ start_attempt cfg (Bus_Instance_Channel inst)) d).
Proof.
  intros Hinst Hcfg Hstate Hproc Hfail.
  unfold ExternalFlash_Handler_instance, start_attempt. bind_with Hcfg. bind_with Hinst.
  rewrite Hstate, Hproc.
  destruct (BusStartTransaction (GENERIC_COMM_BUS_HANDLERS (Generic_Comm_Bus_Id cfg)))
    eqn:Hstart.
  - destruct Hfail as [Hfail | Hfail]; [congruence|].
    apply Z.eqb_neq in Hfail. monad. rewrite Hfail. reflexivity.
  - unfold ret. now rewrite set_trace_same.
Qed.

(** X9: while the provider does not start the transaction (it has no
    start function, or it refuses), an instance in state
    [SEND_WRITE_HEADER] with process [WRITE] stays there: each poll tries
    the start once more and does nothing else.  The payload is not
    written, nobody is notified, and the number of tries is not bounded:
    after [n] polls the run-states and the timeout handle are as before
    and the trace has grown by [n] start attempts. *)
Theorem poll_retries_start_without_bound d i inst cfg n :
  only_pending d i ->
  ExternalFlash_Instance_Store d !! i = Some inst ->
  ExternalFlash_Map !! i = Some cfg ->
  NVM_State inst = EXTERNAL_FLASH_STATE_SEND_WRITE_HEADER ->
  NVM_Current_Process inst = NVDATA_PROCESS_WRITE ->
  start_never_accepted cfg (Bus_Instance_Channel inst) ->
  exists d',
    run (replicate n Call_Handler) d = Some (replicate n 0, d') /\
    ExternalFlash_Instance_Store d' = ExternalFlash_Instance_Store d /\
    ExternalFlash_Timeout_Handle d' = ExternalFlash_Timeout_Handle d /\
    trace d' =
      trace d ++ concat (replicate n (start_attempt cfg (Bus_Instance_Channel inst))).
Proof.
  intros Honly Hinst Hcfg Hstate Hproc Hnever. revert d Honly Hinst.
  induction n as [|n IH]; intros d Honly Hinst.
  - exists d. cbn. rewrite app_nil_r. auto.
  - assert (Hfail : start_fails d inst cfg).
    { destruct Hnever as [H | H]; [left; exact H | right; apply H]. }
    pose proof (Handler_instance_start_fails d i inst cfg Hinst Hcfg Hstate Hproc Hfail)
      as Hturn.
    set (d1 := set_trace (trace d ++ start_attempt cfg (Bus_Instance_Channel inst)) d) in *.
    assert (Hpoll : ExternalFlash_Handler d = Some (tt, d1)).
    { apply (Handler_only_pending d i d1 Honly);
        [eapply lookup_lt_Some, Hcfg | exact Hturn | reflexivity]. }
    destruct (IH d1 Honly Hinst) as (d' & Hrun & HS & HH & HT).
    exists d'. split.
    + cbn [replicate run enter]. unfold bind at 1. unfold bind at 1. rewrite Hpoll.
      unfold ret at 1. bind_with Hrun. reflexivity.
    + split; [exact HS|]. split; [exact HH|].
      rewrite HT. cbn. now rewrite <- app_assoc.
Qed.

Lemma Handler_loop_others l i :
  i ∉ l ->
  forall d d',
    for_each l ExternalFlash_Handler_instance d = Some (tt, d') ->
    ExternalFlash_Instance_Store d' !! i = ExternalFlash_Instance_Store d !! i.
Proof.
  induction l as [|j l IH]; intros Hni d d' H; cbn [for_each] in H.
  - now injection H as <-.
  - apply bind_inv in H as ([] & d1 & Hj & Hrest).
    apply not_elem_of_cons in Hni as [Hne Hni].
    rewrite (IH Hni d1 d' Hrest).
    destruct (Handler_instance_turn d j d1 Hj) as (_ & _ & Hother & _).
    apply Hother. exact Hne.
Qed.

Lemma for_each_undefined l1 i l2 (body : nat -> M unit) d :
  (forall d1, for_each l1 body d = Some (tt, d1) -> body i d1 = None) ->
  for_each (l1 ++ i :: l2) body d = None.
Proof.
  revert d. induction l1 as [|j l1 IH]; intros d H; cbn [app for_each].
  - unfold bind. now rewrite (H d eq_refl).
  - unfold bind at 1. destruct (body j d) as [[[] d0]|] eqn:Hj; [|reflexivity].
    apply IH. intros d1 H1. apply H. cbn [for_each]. bind_with Hj. exact H1.
Qed.

(** X10: the stop function of the provider is called without a test for
    [NULL], unlike its start, read and write functions.  With a provider
    that has no stop function, the poll that finds an instance in state
    [READ] with process [READ] or in state [WRITE] with process [WRITE]
    calls through the null pointer: the behaviour of [ExternalFlash_Handler]
    is undefined, whatever the other instances are doing. *)
Theorem poll_without_stop_function_is_undefined d i inst cfg :
  ExternalFlash_Instance_Store d !! i = Some inst ->
  ExternalFlash_Map !! i = Some cfg ->
  stops_transaction inst ->
  BusStopTransaction (GENERIC_COMM_BUS_HANDLERS (Generic_Comm_Bus_Id cfg)) = false ->
  ExternalFlash_Handler d = None.
Proof.
  intros Hinst Hcfg Hstops Hstop.
  assert (Hi : (i < EXTERNAL_FLASH_CH_NUM)%nat) by (eapply lookup_lt_Some, Hcfg).
  unfold ExternalFlash_Handler. rewrite (seq_split_at i _ Hi).
  apply for_each_undefined. intros d1 H1.
  assert (Hinst1 : ExternalFlash_Instance_Store d1 !! i = Some inst).
  { rewrite (Handler_loop_others (seq 0 i) i) with (d := d) (d' := d1); [exact Hinst | | exact H1].
    intros Hin. apply elem_of_seq in Hin. lia. }
  unfold ExternalFlash_Handler_instance. bind_with Hcfg. bind_with Hinst1.
  destruct Hstops as [[-> ->] | [-> ->]]; rewrite Hstop; reflexivity.
Qed.

(** ** The requests on the bus and the timeout timer *)

Lemma start_timeout_exact d :
  start_timeout d =
    Some (tt,
          if ExternalFlash_Timeout_Handle d =? INVALID_VALUE_8
          then set_trace
                 (trace d ++
                  timeout_calls (uint8 (respond (trace d) SystemTimers__AllocateHandle)))
                 (set_Timeout_Handle
                    (uint8 (respond (trace d) SystemTimers__AllocateHandle)) d)
          else d).
Proof.
  unfold start_timeout, timeout_calls. monad.
  destruct (ExternalFlash_Timeout_Handle d =? INVALID_VALUE_8); [|reflexivity].
  rewrite <- !app_assoc. reflexivity.
Qed.

Lemma bus_request_exact handler c d :
  exists r d',
    bus_request handler c d = Some (r, d') /\
    r = handler && (respond (trace d) c =? TRUE) /\
    ExternalFlash_Instance_Store d' = ExternalFlash_Instance_Store d /\
    ExternalFlash_Handler_Index d' = ExternalFlash_Handler_Index d /\
    ExternalFlash_Timeout_Handle d' =
      (if r && (ExternalFlash_Timeout_Handle d =? INVALID_VALUE_8)
       then uint8 (respond (trace d ++ [c]) SystemTimers__AllocateHandle)
       else ExternalFlash_Timeout_Handle d) /\
    trace d' =
      trace d ++ (if handler then [c] else []) ++
      (if r && (ExternalFlash_Timeout_Handle d =? INVALID_VALUE_8)
       then timeout_calls (uint8 (respond (trace d ++ [c]) SystemTimers__AllocateHandle))
       else []).
Proof.
  unfold bus_request. destruct handler.
  - destruct (call_advances c d) as [Hc _]. bind_with Hc.
    destruct (respond (trace d) c =? TRUE).
    + bind_with (start_timeout_exact (set_trace (trace d ++ [c]) d)). monad_cbn.
      destruct (ExternalFlash_Timeout_Handle d =? INVALID_VALUE_8);
        eexists _, _; (split; [reflexivity|]); cbn; repeat split;
        rewrite <- ?app_assoc, ?app_nil_r; reflexivity.
    + eexists _, _. split; [reflexivity|]. cbn.
      repeat split; rewrite ?app_nil_r; reflexivity.
  - eexists _, _. split; [reflexivity|]. cbn.
    repeat split; rewrite ?app_nil_r; reflexivity.
Qed.

Lemma bus_function_eq f d i inst cfg :
  ExternalFlash_Instance_Store d !! i = Some inst ->
  ExternalFlash_Map !! i = Some cfg ->
  bus_function f i d = bus_request (bus_handler_of f cfg) (bus_call_of f cfg inst) d.
Proof.
  intros Hinst Hcfg. destruct f; cbn [bus_function bus_handler_of bus_call_of].
  - now apply SendReadHeader_eq.
  - now apply ReadData_eq.
  - now apply SendWriteHeader_eq.
  - now apply WriteData_eq.
Qed.

(** X11: each of [SendReadHeader], [ReadData], [SendWriteHeader] and
    [WriteData] returns [TRUE] exactly when the provider has the function
    and the bus answers [TRUE]; it changes no run-state.  The timeout
    timer is allocated and set to 50 ms only on such a success that finds
    the handle at [INVALID_VALUE_8]; the handle is then whatever the
    allocation returned, also [INVALID_VALUE_8].  A success that finds a
    handle allocated calls no timer function: a timer that runs is not
    started again. *)
Theorem bus_function_arms_timeout_once f d i inst cfg :
  ExternalFlash_Instance_Store d !! i = Some inst ->
  ExternalFlash_Map !! i = Some cfg ->
  exists r d',
    bus_function f i d = Some (r, d') /\
    r = bus_handler_of f cfg && (respond (trace d) (bus_call_of f cfg inst) =? TRUE) /\
    ExternalFlash_Instance_Store d' = ExternalFlash_Instance_Store d /\
    ExternalFlash_Timeout_Handle d' =
      (if r && (ExternalFlash_Timeout_Handle d =? INVALID_VALUE_8)
       then uint8 (respond (trace d ++ [bus_call_of f cfg inst]) SystemTimers__AllocateHandle)
       else ExternalFlash_Timeout_Handle d) /\
    trace d' =
      trace d ++ (if bus_handler_of f cfg then [bus_call_of f cfg inst] else []) ++
      (if r && (ExternalFlash_Timeout_Handle d =? INVALID_VALUE_8)
       then timeout_calls
              (uint8 (respond (trace d ++ [bus_call_of f cfg inst])
                        SystemTimers__AllocateHandle))
       else []).
Proof.
  intros Hinst Hcfg. rewrite (bus_function_eq f d i inst cfg Hinst Hcfg).
  destruct (bus_request_exact (bus_handler_of f cfg) (bus_call_of f cfg inst) d)
    as (r & d' & H & Hr & HS & _ & HH & HT).
  exists r, d'. auto.
Qed.

(** ** The functions that nothing calls *)

(** X12: [SendCommand] returns [TRUE] in every case, also when the
    provider has no write function and when the bus refuses the write: its
    result is initialised to [TRUE] and only ever set to [TRUE].  It
    changes no run-state and writes the one command byte when the
    provider can write. *)
Theorem SendCommand_always_returns_TRUE d i inst cfg command_id :
  ExternalFlash_Instance_Store d !! i = Some inst ->
  ExternalFlash_Map !! i = Some cfg ->
  exists d' t,
    SendCommand i command_id d = Some (true, d') /\
    ExternalFlash_Instance_Store d' = ExternalFlash_Instance_Store d /\
    trace d' =
      trace d ++
      (if BusWrite (GENERIC_COMM_BUS_HANDLERS (Generic_Comm_Bus_Id cfg))
       then [COMMBUS__WRITE (Generic_Comm_Bus_Id cfg) (Bus_Instance_Channel inst)
               (HeaderBytes [command_id mod 256]) 1]
       else []) ++ t /\
    forallb is_timeout_call t = true.
Proof.
  intros Hinst Hcfg. unfold SendCommand. bind_with Hinst. bind_with Hcfg.
  assert (Hbyte : object_bytes 1 (uint8 command_id) = [command_id mod 256]).
  { cbn. unfold uint8. rewrite Z.shiftr_0_r.
    change 255 with (Z.ones 8). rewrite Z.land_ones by lia.
    change (2 ^ 8) with 256. now rewrite Z.mod_mod by lia. }
  rewrite Hbyte.
  destruct (BusWrite (GENERIC_COMM_BUS_HANDLERS (Generic_Comm_Bus_Id cfg))).
  - destruct (call_advances
                (COMMBUS__WRITE (Generic_Comm_Bus_Id cfg) (Bus_Instance_Channel inst)
                   (HeaderBytes [command_id mod 256]) 1) d) as [Hc _].
    bind_with Hc. destruct (_ =? TRUE).
    + destruct (start_timeout_spec
                  (set_trace
                     (trace d ++
                      [COMMBUS__WRITE (Generic_Comm_Bus_Id cfg) (Bus_Instance_Channel inst)
                         (HeaderBytes [command_id mod 256]) 1]) d))
        as (d' & t & Hs & (HS & _ & HT) & Hf).
      bind_with Hs. exists d', t. split; [reflexivity|].
      split; [exact HS|]. split; [|exact Hf]. rewrite HT. cbn. now rewrite <- app_assoc.
    + eexists _, []. split; [reflexivity|]. cbn. auto.
  - exists d, []. split; [reflexivity|]. cbn. rewrite app_nil_r. auto.
Qed.

(** X13: [ReadStatusRegister] asks the bus for 0 bytes: the length it
    passes is the value of the comparison of the size of the status
    register with [TRUE], which is 0.  It takes any non-zero answer of
    the bus for a success, not only [TRUE], and returns [FALSE]
    otherwise. *)
Theorem ReadStatusRegister_reads_no_byte d i inst cfg :
  ExternalFlash_Instance_Store d !! i = Some inst ->
  ExternalFlash_Map !! i = Some cfg ->
  exists r d' t,
    ReadStatusRegister i d = Some (r, d') /\
    r = BusRead (GENERIC_COMM_BUS_HANDLERS (Generic_Comm_Bus_Id cfg)) &&
        negb (respond (trace d)
                (COMMBUS__READ (Generic_Comm_Bus_Id cfg) (Bus_Instance_Channel inst)
                   Status_Register 0) =? 0) /\
    ExternalFlash_Instance_Store d' = ExternalFlash_Instance_Store d /\
    trace d' =
      trace d ++
      (if BusRead (GENERIC_COMM_BUS_HANDLERS (Generic_Comm_Bus_Id cfg))
       then [COMMBUS__READ (Generic_Comm_Bus_Id cfg) (Bus_Instance_Channel inst)
               Status_Register 0]
       else []) ++ t /\
    forallb is_timeout_call t = true.
Proof.
  intros Hinst Hcfg. unfold ReadStatusRegister. bind_with Hinst. bind_with Hcfg.
  change (if sizeof_EXTERNAL_FLASH_STATUS_REGISTER_TYPE =? TRUE then 1 else 0) with 0.
  destruct (BusRead (GENERIC_COMM_BUS_HANDLERS (Generic_Comm_Bus_Id cfg))).
  - destruct (call_advances
                (COMMBUS__READ (Generic_Comm_Bus_Id cfg) (Bus_Instance_Channel inst)
                   Status_Register 0) d) as [Hc _].
    bind_with Hc. destruct (_ =? 0); cbn [negb andb].
    + eexists _, _, []. split; [reflexivity|]. cbn. auto.
    + destruct (start_timeout_spec
                  (set_trace
                     (trace d ++
                      [COMMBUS__READ (Generic_Comm_Bus_Id cfg) (Bus_Instance_Channel inst)
                         Status_Register 0]) d))
        as (d' & t & Hs & (HS & _ & HT) & Hf).
      bind_with Hs. exists true, d', t. split; [reflexivity|]. split; [reflexivity|].
      split; [exact HS|]. split; [|exact Hf]. rewrite HT. cbn. now rewrite <- app_assoc.
  - exists false, d, []. split; [reflexivity|]. cbn. rewrite app_nil_r. auto.
Qed.

(** ** More on [ExternalFlash__Initialize] *)

Lemma store_initialised_insert store i inst f :
  store_initialised store ->
  store !! i = Some inst ->
  (request_cleared inst -> request_cleared (f inst)) ->
  (forall cfg, ExternalFlash_Map !! i = Some cfg ->
     BusGetAllocation (GENERIC_COMM_BUS_HANDLERS (Generic_Comm_Bus_Id cfg)) = false ->
     Bus_Instance_Channel inst = 0 -> Bus_Instance_Channel (f inst) = 0) ->
  store_initialised (<[i := f inst]> store).
Proof.
  intros (Hlen & Hall & Hchan) Hi Hf Hc. split; [now rewrite length_insert|]. split.
  - apply Forall_insert; [exact Hall|]. apply Hf.
    eapply Forall_lookup_1 in Hall; eauto.
  - intros j cfg instj Hcfg Hj Hno. destruct (Nat.eq_dec j i) as [-> | Hne].
    + rewrite (lookup_insert_same store i inst _ Hi) in Hj. injection Hj as <-.
      apply (Hc cfg Hcfg Hno). apply (Hchan i cfg inst Hcfg Hi Hno).
    + rewrite lookup_insert_other in Hj by exact Hne. apply (Hchan j cfg instj Hcfg Hj Hno).
Qed.

Lemma Initialize_clears d :
  wp ExternalFlash__Initialize d (fun _ d' =>
    store_initialised (ExternalFlash_Instance_Store d') /\
    ExternalFlash_Timeout_Handle d' = ExternalFlash_Timeout_Handle d /\
    ExternalFlash_Handler_Index d' =
      uint8 (respond (trace d ++ [Callback__Initialize])
               (SystemTimers__CreateTask EXTERNAL_FLASH_HANDLER_PERIOD_MS))).
Proof.
  unfold ExternalFlash__Initialize. wp_steps.
  eexists tt, _. split; [reflexivity|].
  set (handle := ExternalFlash_Timeout_Handle d).
  set (index := uint8 (respond (trace d ++ [Callback__Initialize])
                         (SystemTimers__CreateTask EXTERNAL_FLASH_HANDLER_PERIOD_MS))).
  apply (wp_for_each (fun d' =>
           store_initialised (ExternalFlash_Instance_Store d') /\
           ExternalFlash_Timeout_Handle d' = handle /\
           ExternalFlash_Handler_Index d' = index)).
  - cbn. split; [|auto]. split; [apply length_replicate|]. split.
    + apply Forall_replicate. unfold request_cleared. cbn. auto 10.
    + intros j cfg inst _ Hj _. apply lookup_replicate in Hj as [-> _]. reflexivity.
  - clearbody handle index. clear d. intros i d Hi (Hstore & HT & HH).
    apply elem_of_seq in Hi.
    destruct (map_index_in_range i ltac:(lia)) as [cfg Hcfg].
    wp_steps.
    apply wp_conseq with (P := fun _ d' =>
      store_initialised (ExternalFlash_Instance_Store d') /\
      ExternalFlash_Timeout_Handle d' = ExternalFlash_Timeout_Handle d /\
      ExternalFlash_Handler_Index d' = ExternalFlash_Handler_Index d).
    { destruct (lookup_lt_is_Some_2 (ExternalFlash_Instance_Store d) i) as [inst Hinst];
        [destruct Hstore; lia|].
      destruct (BusGetAllocation _) eqn:Halloc; wp_steps; [|auto].
      split; [|auto].
      apply (store_initialised_insert _ i inst _ Hstore Hinst); [auto|].
      intros cfg' Hcfg' Hno. rewrite Hcfg in Hcfg'. injection Hcfg' as <-. congruence. }
    intros [] d1 (Hstore1 & HT1 & HH1). wp_steps.
    apply wp_conseq with (P := fun _ d' =>
      store_initialised (ExternalFlash_Instance_Store d') /\
      ExternalFlash_Timeout_Handle d' = ExternalFlash_Timeout_Handle d /\
      ExternalFlash_Handler_Index d' = ExternalFlash_Handler_Index d).
    { destruct (lookup_lt_is_Some_2 (ExternalFlash_Instance_Store d1) i) as [inst Hinst];
        [destruct Hstore1; lia|].
      destruct (BusRegisterEventHandler _); wp_steps; auto. }
    intros [] d2 (Hstore2 & HT2 & HH2).
    destruct (lookup_lt_is_Some_2 (ExternalFlash_Instance_Store d2) i) as [inst Hinst];
      [destruct Hstore2; lia|].
    wp_steps. split; [|split; congruence].
    apply (store_initialised_insert _ i inst
             (fun x => set_NVM_Current_Process NVDATA_PROCESS_NONE
                         (set_NVM_State EXTERNAL_FLASH_STATE_INITIALIZE x))
             Hstore2 Hinst); auto.
Qed.

(** X14: [ExternalFlash__Initialize] returns on every driver state, also
    when it is called again while operations are in flight, and leaves a
    store of one slot per map entry in which the target address, the
    buffer pointer, the size, the progress count, the mirror pointer and
    the memory offset of every instance are zero: a mirror and an offset
    registered by [ExternalFlash__GetAllocation] before it are lost.
    Where the provider has no allocation function the channel is 0,
    which is not [INVALID_VALUE_8].  The timeout handle is not reset; the
    task index is the low byte of what [SystemTimers__CreateTask]
    returned. *)
Theorem Initialize_clears_every_instance d :
  exists d',
    ExternalFlash__Initialize d = Some (tt, d') /\
    length (ExternalFlash_Instance_Store d') = EXTERNAL_FLASH_CH_NUM /\
    (forall i inst, ExternalFlash_Instance_Store d' !! i = Some inst ->
                    request_cleared inst) /\
    (forall i cfg inst,
       ExternalFlash_Map !! i = Some cfg ->
       ExternalFlash_Instance_Store d' !! i = Some inst ->
       BusGetAllocation (GENERIC_COMM_BUS_HANDLERS (Generic_Comm_Bus_Id cfg)) = false ->
       Bus_Instance_Channel inst = 0 /\ Bus_Instance_Channel inst <> INVALID_VALUE_8) /\
    ExternalFlash_Timeout_Handle d' = ExternalFlash_Timeout_Handle d /\
    ExternalFlash_Handler_Index d' =
      uint8 (respond (trace d ++ [Callback__Initialize])
               (SystemTimers__CreateTask EXTERNAL_FLASH_HANDLER_PERIOD_MS)).
Proof.
  destruct (Initialize_clears d) as ([] & d' & H & (Hlen & Hall & Hchan) & HT & HH).
  exists d'. split; [exact H|]. split; [exact Hlen|]. split.
  - intros i inst Hi. eapply Forall_lookup_1 in Hall; eauto.
  - split; [|auto]. intros i cfg inst Hcfg Hi Hno.
    rewrite (Hchan i cfg inst Hcfg Hi Hno). split; [reflexivity | discriminate].
Qed.

(** ** The layout of the headers *)

Lemma byte_of_object v k : 0 <= k -> Z.land (Z.shiftr v k) 255 = (v / 2 ^ k) mod 256.
Proof.
  intros Hk. rewrite Z.shiftr_div_pow2 by exact Hk.
  change 255 with (Z.ones 8). now rewrite Z.land_ones by lia.
Qed.

Lemma high_byte_of_uint16 q : (q mod 65536 / 256) mod 256 = (q / 256) mod 256.
Proof.
  pose proof (Z.div_mod q 65536 ltac:(lia)) as E. rewrite E at 2.
  replace (65536 * (q / 65536) + q mod 65536)
    with (q mod 65536 + (q / 65536) * 256 * 256) by lia.
  rewrite Z.div_add by lia. rewrite Z.mod_add by lia. reflexivity.
Qed.

Lemma address_bytes_layout a :
  [Z.land (Z.shiftr (uint16 (a / EXTERNAL_FLASH_PAGE_NUMBER)) (8 * Z.of_nat 0)) 255;
   Z.land (Z.shiftr (uint16 (a / EXTERNAL_FLASH_PAGE_NUMBER)) (8 * Z.of_nat 1)) 255;
   Z.land (Z.shiftr (uint8 (a mod EXTERNAL_FLASH_PAGE_NUMBER)) (8 * Z.of_nat 0)) 255]
  = [(a / 1024) mod 256; (a / 262144) mod 256; a mod 256].
Proof.
  rewrite !byte_of_object by lia.
  unfold uint8, uint16, EXTERNAL_FLASH_PAGE_NUMBER.
  change (8 * Z.of_nat 0) with 0. change (8 * Z.of_nat 1) with 8.
  change (2 ^ 0) with 1. change (2 ^ 8) with 256. change (2 ^ 16) with 65536.
  rewrite !Z.div_1_r. f_equal; [|f_equal; [|f_equal]].
  - apply Z.mod_mod_divide. exists 256. reflexivity.
  - change 262144 with (1024 * 256). rewrite <- (Z.div_div a 1024 256) by lia.
    apply high_byte_of_uint16.
  - rewrite Z.mod_mod by lia. apply Z.mod_mod_divide. exists 4. reflexivity.
Qed.

(** X15: the bytes of the two headers.  The read header is the opcode
    0xD2, the low byte and the high byte of (address / 1024), the byte
    (address mod 256), and one zero dummy byte; the write header for a
    target address and a progress count is the same first four bytes for
    (target + progress) mod 2^32, without dummy byte.  So the header of an
    address depends only on its low 8 bits and on its bits from bit 10
    up. *)
Theorem header_layout target progress :
  header_bytes (read_header target) =
    [0xD2; (target / 1024) mod 256; (target / 262144) mod 256; target mod 256; 0] /\
  header_bytes (write_header target progress) =
    [0xD2; (uint32 (target + progress) / 1024) mod 256;
     (uint32 (target + progress) / 262144) mod 256;
     uint32 (target + progress) mod 256].
Proof.
  split.
  - unfold read_header, header_bytes, static_read_header, object_bytes.
    cbn -[Z.land Z.shiftr Z.div Z.modulo Z.mul Z.pow].
    unfold EXTERNAL_FLASH_PAGE_ADDRESS_BYTE, EXTERNAL_FLASH_PAGE_BYTE_ADDRESS_BYTE.
    cbn -[Z.land Z.shiftr Z.div Z.modulo Z.mul Z.pow].
    pose proof (address_bytes_layout target) as E. injection E as -> -> ->. reflexivity.
  - unfold write_header, header_bytes, static_write_header, object_bytes.
    cbn -[Z.land Z.shiftr Z.div Z.modulo Z.mul Z.pow uint32].
    unfold EXTERNAL_FLASH_PAGE_ADDRESS_BYTE, EXTERNAL_FLASH_PAGE_BYTE_ADDRESS_BYTE.
    cbn -[Z.land Z.shiftr Z.div Z.modulo Z.mul Z.pow uint32].
    pose proof (address_bytes_layout (uint32 (target + progress))) as E.
    injection E as -> -> ->. reflexivity.
Qed.

(** ** Whole operations *)

Lemma run_cons e rest d r d1 rs d2 :
  enter e d = Some (r, d1) ->
  run rest d1 = Some (rs, d2) ->
  run (e :: rest) d = Some (r :: rs, d2).
Proof. intros He Hr. cbn [run]. bind_with He. bind_with Hr. reflexivity. Qed.

Lemma enter_Handler d d' :
  ExternalFlash_Handler d = Some (tt, d') -> enter Call_Handler d = Some (0, d').
Proof. intros H. cbn [enter]. bind_with H. reflexivity. Qed.

Lemma enter_CommBusEvent event d d' :
  CommBusEventHandler event d = Some (tt, d') ->
  enter (Call_CommBusEvent event) d = Some (0, d').
Proof. intros H. cbn [enter]. bind_with H. reflexivity. Qed.

Lemma enter_Read i buffer data_address size d r d' :
  ExternalFlash__Read i buffer data_address size d = Some (r, d') ->
  enter (Call_Read i buffer data_address size) d = Some (if r then TRUE else FALSE, d').
Proof. intros H. cbn [enter]. bind_with H. reflexivity. Qed.

Lemma enter_Write i buffer data_address size d r d' :
  ExternalFlash__Write i buffer data_address size d = Some (r, d') ->
  enter (Call_Write i buffer data_address size) d = Some (if r then TRUE else FALSE, d').
Proof. intros H. cbn [enter]. bind_with H. reflexivity. Qed.

Lemma at_rest_not_pending inst :
  NVM_Current_Process inst = NVDATA_PROCESS_NONE -> poll_pending inst = false.
Proof. intros H. unfold poll_pending. rewrite H. now destruct (NVM_State inst). Qed.

Lemma at_rest_not_waiting event cfg inst :
  NVM_Current_Process inst = NVDATA_PROCESS_NONE -> waits_for event cfg inst = false.
Proof. intros H. unfold waits_for. rewrite H. now rewrite andb_false_r. Qed.

Lemma others_at_rest_store d d' i :
  others_at_rest d i ->
  length (ExternalFlash_Instance_Store d') = length (ExternalFlash_Instance_Store d) ->
  (forall j, j <> i ->
     ExternalFlash_Instance_Store d' !! j = ExternalFlash_Instance_Store d !! j) ->
  others_at_rest d' i.
Proof.
  intros [Hlen Hrest] Hl Hsame. split; [congruence|].
  intros j inst Hne Hj. rewrite Hsame in Hj by exact Hne. now apply (Hrest j inst).
Qed.

Lemma others_at_rest_only_pending d i : others_at_rest d i -> only_pending d i.
Proof.
  intros [Hlen Hrest]. split; [exact Hlen|].
  intros j inst Hne Hj. apply at_rest_not_pending. now apply (Hrest j inst).
Qed.

Lemma others_at_rest_first_waiting d i inst cfg event :
  others_at_rest d i ->
  ExternalFlash_Instance_Store d !! i = Some inst ->
  ExternalFlash_Map !! i = Some cfg ->
  waits_for event cfg inst = true ->
  first_waiting d event i inst.
Proof.
  intros [Hlen Hrest] Hinst Hcfg Hw. split; [exact Hlen|]. split; [exact Hinst|].
  split; [exists cfg; auto|].
  intros j cfg_j inst_j Hlt _ Hj. apply at_rest_not_waiting.
  apply (Hrest j inst_j); [lia | exact Hj].
Qed.

Lemma event_for_waits event cfg inst :
  event_for event cfg (inst : NVMEMORY_INSTANCE_TYPE) ->
  NVM_Current_Process inst = NVDATA_PROCESS_WAIT_READ \/
  NVM_Current_Process inst = NVDATA_PROCESS_WAIT_WRITE ->
  waits_for event cfg inst = true.
Proof.
  intros [Hp Hc] Hw. unfold waits_for. rewrite Hp, Hc, !Z.eqb_refl.
  destruct Hw as [-> | ->]; reflexivity.
Qed.

Lemma notifications_cons_other c t :
  (forall event source, c <> Callback__Notify event source) ->
  notifications (c :: t) = notifications t.
Proof.
  intros H. unfold notifications. cbn [omap].
  destruct c; try reflexivity. exfalso. eapply H. reflexivity.
Qed.

Lemma payload_reads_app t1 t2 : payload_reads (t1 ++ t2) = payload_reads t1 ++ payload_reads t2.
Proof. unfold payload_reads. apply omap_app. Qed.

Lemma payload_reads_cons_other c t :
  (forall bus channel pointer size, c <> COMMBUS__READ bus channel pointer size) ->
  payload_reads (c :: t) = payload_reads t.
Proof.
  intros H. unfold payload_reads. cbn [omap].
  destruct c; try reflexivity. exfalso. eapply H. reflexivity.
Qed.

Lemma payload_reads_timeout t :
  forallb is_timeout_call t = true -> payload_reads t = [].
Proof.
  induction t as [|c t IH]; [reflexivity|]. cbn [forallb]. intros H.
  apply andb_prop in H as [Hc Ht]. unfold payload_reads in *. cbn [omap].
  destruct c; try discriminate; cbn; auto.
Qed.

(** X16: a whole read.  With the other instances at rest, an accepted
    [ExternalFlash__Read] (which returns [FALSE]) followed by the event
    for the header, a poll, the event for the payload and a second poll
    brings the instance back to [IDLE] with process [NONE]: the bus is
    asked once for [size] bytes into [buffer] when the provider can read,
    and one notification is sent, with the process marker [READ] packed
    with the requested size.  The progress count is the sum of the lengths
    the two events reported, header included, and the timeout handle ends
    as [INVALID_VALUE_8]. *)
Theorem Read_completes_after_two_events d i inst cfg buffer data_address size
    header_event payload_event :
  others_at_rest d i ->
  ExternalFlash_Instance_Store d !! i = Some inst ->
  ExternalFlash_Map !! i = Some cfg ->
  instance_free inst = true ->
  BusStartTransaction (GENERIC_COMM_BUS_HANDLERS (Generic_Comm_Bus_Id cfg)) = true ->
  respond (trace d)
    (COMMBUS__STARTTRANSACTION (Generic_Comm_Bus_Id cfg) (Bus_Instance_Channel inst)) = TRUE ->
  BusStopTransaction (GENERIC_COMM_BUS_HANDLERS (Generic_Comm_Bus_Id cfg)) = true ->
  event_for header_event cfg inst ->
  event_for payload_event cfg inst ->
  exists d' t,
    run [Call_Read i buffer data_address size; Call_CommBusEvent header_event; Call_Handler;
         Call_CommBusEvent payload_event; Call_Handler] d
      = Some ([FALSE; 0; 0; 0; 0], d') /\
    ExternalFlash_Instance_Store d' =
      <[i := finished_instance inst buffer data_address size header_event payload_event]>
        (ExternalFlash_Instance_Store d) /\
    ExternalFlash_Timeout_Handle d' = INVALID_VALUE_8 /\
    trace d' = trace d ++ t /\
    notifications t =
      [({| Generic_Provider_Id := GENERIC_NVDATA_EXTERNAL_FLASH;
           Source_Instance_Id := Z.of_nat i;
           Event_Value := COMBINE_BYTES (NVDATA_PROCESS_value NVDATA_PROCESS_READ) size |},
        Z.of_nat i)] /\
    payload_reads t =
      if BusRead (GENERIC_COMM_BUS_HANDLERS (Generic_Comm_Bus_Id cfg))
      then [(buffer, size)] else [].
Proof.
  intros Hrest Hinst Hcfg Hfree Hstart Hresp Hstop He1 He2.
  assert (Hi : (i < EXTERNAL_FLASH_CH_NUM)%nat) by (eapply lookup_lt_Some, Hcfg).
  (* the call *)
  destruct (Read_accepted d i inst cfg buffer data_address size Hinst Hcfg Hfree Hstart Hresp)
    as (d1 & t1 & H1 & HS1 & _ & HT1 & Hf1).
  set (a1 := accepted_instance inst buffer data_address size
               EXTERNAL_FLASH_STATE_SEND_READ_HEADER) in *.
  assert (Hinst1 : ExternalFlash_Instance_Store d1 !! i = Some a1)
    by (rewrite HS1; eapply lookup_insert_same, Hinst).
  assert (Hrest1 : others_at_rest d1 i).
  { apply (others_at_rest_store d d1 i Hrest).
    - rewrite HS1. apply length_insert.
    - intros j Hj. rewrite HS1. now apply lookup_insert_other. }
  (* the event for the header *)
  assert (H2 : CommBusEventHandler header_event d1
               = Some (tt, served_driver d1 header_event i a1)).
  { apply CommBusEventHandler_first_waiting.
    apply (others_at_rest_first_waiting d1 i a1 cfg header_event Hrest1 Hinst1 Hcfg).
    apply event_for_waits; [exact He1 | right; reflexivity]. }
  set (d2 := served_driver d1 header_event i a1) in *.
  set (a2 := served_instance header_event a1).
  assert (Hinst2 : ExternalFlash_Instance_Store d2 !! i = Some a2)
    by (cbn; eapply lookup_insert_same, Hinst1).
  assert (Hrest2 : others_at_rest d2 i).
  { apply (others_at_rest_store d1 d2 i Hrest1).
    - cbn. apply length_insert.
    - intros j Hj. cbn. now apply lookup_insert_other. }
  (* the poll that asks for the payload *)
  destruct (Handler_SEND_READ_HEADER d2 i a2 cfg Hinst2 Hcfg eq_refl eq_refl)
    as ([] & d3 & Hturn3 & t3 & HS3 & _ & HT3 & Hf3).
  set (a3 := set_NVM_State EXTERNAL_FLASH_STATE_READ
               (set_NVM_Current_Process NVDATA_PROCESS_WAIT_READ a2)) in *.
  assert (H3 : ExternalFlash_Handler d2 = Some (tt, d3)).
  { apply (Handler_only_pending d2 i d3 (others_at_rest_only_pending d2 i Hrest2) Hi Hturn3).
    intros j Hj. rewrite HS3. now apply lookup_insert_other. }
  assert (Hinst3 : ExternalFlash_Instance_Store d3 !! i = Some a3)
    by (rewrite HS3; eapply lookup_insert_same, Hinst2).
  assert (Hrest3 : others_at_rest d3 i).
  { apply (others_at_rest_store d2 d3 i Hrest2).
    - rewrite HS3. apply length_insert.
    - intros j Hj. rewrite HS3. now apply lookup_insert_other. }
  (* the event for the payload *)
  assert (H4 : CommBusEventHandler payload_event d3
               = Some (tt, served_driver d3 payload_event i a3)).
  { apply CommBusEventHandler_first_waiting.
    apply (others_at_rest_first_waiting d3 i a3 cfg payload_event Hrest3 Hinst3 Hcfg).
    apply event_for_waits; [exact He2 | left; reflexivity]. }
  set (d4 := served_driver d3 payload_event i a3) in *.
  set (a4 := served_instance payload_event a3).
  assert (Hinst4 : ExternalFlash_Instance_Store d4 !! i = Some a4)
    by (cbn; eapply lookup_insert_same, Hinst3).
  assert (Hrest4 : others_at_rest d4 i).
  { apply (others_at_rest_store d3 d4 i Hrest3).
    - cbn. apply length_insert.
    - intros j Hj. cbn. now apply lookup_insert_other. }
  (* the poll that completes *)
  pose proof (Handler_instance_completes d4 i a4 cfg Hinst4 Hcfg
                (or_introl (conj eq_refl eq_refl)) Hstop) as Hturn5.
  match type of Hturn5 with _ = Some (tt, ?x) => set (d5 := x) in * end.
  assert (H5 : ExternalFlash_Handler d4 = Some (tt, d5)).
  { apply (Handler_only_pending d4 i d5 (others_at_rest_only_pending d4 i Hrest4) Hi Hturn5).
    intros j Hj. cbn. now apply lookup_insert_other. }
  exists d5. eexists. split.
  { eapply run_cons; [exact (enter_Read _ _ _ _ _ _ _ H1)|].
    eapply run_cons; [apply enter_CommBusEvent, H2|].
    eapply run_cons; [apply enter_Handler, H3|].
    eapply run_cons; [apply enter_CommBusEvent, H4|].
    eapply run_cons; [apply enter_Handler, H5|]. reflexivity. }
  split.
  { cbn. rewrite HS3. cbn. rewrite HS1. rewrite !list_insert_insert_eq. reflexivity. }
  split; [reflexivity|].
  split.
  { cbn. rewrite HT3. cbn. rewrite HT1. rewrite <- !app_assoc. reflexivity. }
  split.
  - rewrite !notifications_app. rewrite notifications_cons_other by discriminate.
    rewrite !notifications_app, (notifications_timeout t1 Hf1),
      (notifications_timeout t3 Hf3).
    destruct (BusWrite _), (BusRead _); reflexivity.
  - rewrite !payload_reads_app. rewrite payload_reads_cons_other by discriminate.
    rewrite !payload_reads_app, (payload_reads_timeout t1 Hf1),
      (payload_reads_timeout t3 Hf3).
    destruct (BusWrite _), (BusRead _); reflexivity.
Qed.

Lemma Handler_SEND_WRITE_HEADER_started d i inst cfg :
  ExternalFlash_Instance_Store d !! i = Some inst ->
  ExternalFlash_Map !! i = Some cfg ->
  NVM_State inst = EXTERNAL_FLASH_STATE_SEND_WRITE_HEADER ->
  NVM_Current_Process inst = NVDATA_PROCESS_WRITE ->
  BusStartTransaction (GENERIC_COMM_BUS_HANDLERS (Generic_Comm_Bus_Id cfg)) = true ->
  respond (trace d)
    (COMMBUS__STARTTRANSACTION (Generic_Comm_Bus_Id cfg) (Bus_Instance_Channel inst)) = TRUE ->
  wp (ExternalFlash_Handler_instance i) d (fun _ d' => exists t,
    ExternalFlash_Instance_Store d' =
      <[i := set_NVM_State EXTERNAL_FLASH_STATE_WRITE
               (set_NVM_Current_Process NVDATA_PROCESS_WAIT_WRITE inst)]>
        (ExternalFlash_Instance_Store d) /\
    trace d' =
      trace d ++
      COMMBUS__STARTTRANSACTION (Generic_Comm_Bus_Id cfg) (Bus_Instance_Channel inst) ::
      (if BusWrite (GENERIC_COMM_BUS_HANDLERS (Generic_Comm_Bus_Id cfg))
       then [COMMBUS__WRITE (Generic_Comm_Bus_Id cfg) (Bus_Instance_Channel inst)
               (ClientBuffer (NVM_Buffer_Pointer inst + NVM_Buffer_Progress inst))
               (write_size inst)]
       else []) ++ t /\
    forallb is_timeout_call t = true).
Proof.
  intros Hinst Hcfg Hstate Hproc Hstart Hresp.
  unfold ExternalFlash_Handler_instance. wp_steps. rewrite Hstate, Hproc, Hstart.
  wp_steps. rewrite Hresp. change (TRUE =? TRUE) with true. cbv iota.
  wp_steps. wp_apply WriteData_wp. wp_steps.
  exists t. split; [exact HS|]. split; [|exact Hf].
  rewrite HT, <- app_assoc. reflexivity.
Qed.

Lemma event_length_small event : uint16 (0 + event_length event) = event_length event.
Proof.
  unfold event_length, uint16, uint8. rewrite Z.add_0_l.
  apply Z.mod_small.
  pose proof (Z.mod_pos_bound (LOBYTE (Event_Value event)) (2 ^ 8) ltac:(lia)). lia.
Qed.

Lemma payload_writes_app t1 t2 :
  payload_writes (t1 ++ t2) = payload_writes t1 ++ payload_writes t2.
Proof. unfold payload_writes. apply omap_app. Qed.

Lemma payload_writes_timeout t :
  forallb is_timeout_call t = true -> payload_writes t = [].
Proof.
  induction t as [|c t IH]; [reflexivity|]. cbn [forallb]. intros H.
  apply andb_prop in H as [Hc Ht]. unfold payload_writes in *. cbn [omap].
  destruct c; try discriminate; cbn; auto.
Qed.

Lemma payload_writes_cons_other c t :
  (forall bus channel pointer size,
     c <> COMMBUS__WRITE bus channel (ClientBuffer pointer) size) ->
  payload_writes (c :: t) = payload_writes t.
Proof.
  intros H. unfold payload_writes. cbn [omap].
  destruct c; try reflexivity. destruct data; try reflexivity.
  exfalso. eapply H. reflexivity.
Qed.

(** X17: a whole write of one chunk.  With the other instances at rest
    and a provider that starts every transaction, an accepted
    [ExternalFlash__Write] followed by the event for the header, a poll,
    the event for the payload and a second poll writes one payload chunk.
    The length reported by the header event counts as progress: the chunk
    is taken from [buffer] plus that length, and its size is computed from
    that progress.  The second poll completes the write (instance back to
    [IDLE], one notification with the marker [WRITE] and the requested
    size) exactly when the two reported lengths add up to the requested
    size or more; otherwise the instance stays in state [WRITE] with
    process [WRITE] and nobody is notified. *)
Theorem Write_after_two_events d i inst cfg buffer data_address size
    header_event payload_event :
  others_at_rest d i ->
  ExternalFlash_Instance_Store d !! i = Some inst ->
  ExternalFlash_Map !! i = Some cfg ->
  instance_free inst = true ->
  start_always_accepted cfg (Bus_Instance_Channel inst) ->
  BusStopTransaction (GENERIC_COMM_BUS_HANDLERS (Generic_Comm_Bus_Id cfg)) = true ->
  event_for header_event cfg inst ->
  event_for payload_event cfg inst ->
  exists d' t,
    run [Call_Write i buffer data_address size; Call_CommBusEvent header_event; Call_Handler;
         Call_CommBusEvent payload_event; Call_Handler] d
      = Some ([TRUE; 0; 0; 0; 0], d') /\
    trace d' = trace d ++ t /\
    payload_writes t =
      (if BusWrite (GENERIC_COMM_BUS_HANDLERS (Generic_Comm_Bus_Id cfg))
       then [(buffer + event_length header_event,
              write_size (header_sent_instance inst buffer data_address size header_event))]
       else []) /\
    if size <=? uint16 (event_length header_event + event_length payload_event)
    then
      ExternalFlash_Instance_Store d' =
        <[i := finished_instance inst buffer data_address size header_event payload_event]>
          (ExternalFlash_Instance_Store d) /\
      notifications t =
        [({| Generic_Provider_Id := GENERIC_NVDATA_EXTERNAL_FLASH;
             Source_Instance_Id := Z.of_nat i;
             Event_Value :=
               COMBINE_BYTES (NVDATA_PROCESS_value NVDATA_PROCESS_WRITE) size |},
          Z.of_nat i)]
    else
      ExternalFlash_Instance_Store d' =
        <[i := unfinished_instance inst buffer data_address size header_event payload_event]>
          (ExternalFlash_Instance_Store d) /\
      notifications t = [].
Proof.
  intros Hrest Hinst Hcfg Hfree [Hstart Hresp] Hstop He1 He2.
  assert (Hi : (i < EXTERNAL_FLASH_CH_NUM)%nat) by (eapply lookup_lt_Some, Hcfg).
  (* the call *)
  destruct (Write_accepted_trace d i inst cfg buffer data_address size Hinst Hcfg Hfree
              Hstart (Hresp _)) as (r & d1 & H1 & -> & HS1 & _ & t1 & Hf1 & HT1).
  set (a1 := accepted_instance inst buffer data_address size
               EXTERNAL_FLASH_STATE_SEND_WRITE_HEADER) in *.
  assert (Hinst1 : ExternalFlash_Instance_Store d1 !! i = Some a1)
    by (rewrite HS1; eapply lookup_insert_same, Hinst).
  assert (Hrest1 : others_at_rest d1 i).
  { apply (others_at_rest_store d d1 i Hrest).
    - rewrite HS1. apply length_insert.
    - intros j Hj. rewrite HS1. now apply lookup_insert_other. }
  (* the event for the header *)
  assert (H2 : CommBusEventHandler header_event d1
               = Some (tt, served_driver d1 header_event i a1)).
  { apply CommBusEventHandler_first_waiting.
    apply (others_at_rest_first_waiting d1 i a1 cfg header_event Hrest1 Hinst1 Hcfg).
    apply event_for_waits; [exact He1 | right; reflexivity]. }
  set (d2 := served_driver d1 header_event i a1) in *.
  set (a2 := served_instance header_event a1).
  assert (Hinst2 : ExternalFlash_Instance_Store d2 !! i = Some a2)
    by (cbn; eapply lookup_insert_same, Hinst1).
  assert (Hrest2 : others_at_rest d2 i).
  { apply (others_at_rest_store d1 d2 i Hrest1).
    - cbn. apply length_insert.
    - intros j Hj. cbn. now apply lookup_insert_other. }
  (* the poll that writes the chunk *)
  destruct (Handler_SEND_WRITE_HEADER_started d2 i a2 cfg Hinst2 Hcfg eq_refl eq_refl
              Hstart (Hresp _)) as ([] & d3 & Hturn3 & t3 & HS3 & HT3 & Hf3).
  set (a3 := set_NVM_State EXTERNAL_FLASH_STATE_WRITE
               (set_NVM_Current_Process NVDATA_PROCESS_WAIT_WRITE a2)) in *.
  assert (H3 : ExternalFlash_Handler d2 = Some (tt, d3)).
  { apply (Handler_only_pending d2 i d3 (others_at_rest_only_pending d2 i Hrest2) Hi Hturn3).
    intros j Hj. rewrite HS3. now apply lookup_insert_other. }
  assert (Hinst3 : ExternalFlash_Instance_Store d3 !! i = Some a3)
    by (rewrite HS3; eapply lookup_insert_same, Hinst2).
  assert (Hrest3 : others_at_rest d3 i).
  { apply (others_at_rest_store d2 d3 i Hrest2).
    - rewrite HS3. apply length_insert.
    - intros j Hj. rewrite HS3. now apply lookup_insert_other. }
  (* the event for the payload *)
  assert (H4 : CommBusEventHandler payload_event d3
               = Some (tt, served_driver d3 payload_event i a3)).
  { apply CommBusEventHandler_first_waiting.
    apply (others_at_rest_first_waiting d3 i a3 cfg payload_event Hrest3 Hinst3 Hcfg).
    apply event_for_waits; [exact He2 | right; reflexivity]. }
  set (d4 := served_driver d3 payload_event i a3) in *.
  set (a4 := served_instance payload_event a3).
  assert (Hinst4 : ExternalFlash_Instance_Store d4 !! i = Some a4)
    by (cbn; eapply lookup_insert_same, Hinst3).
  assert (Hrest4 : others_at_rest d4 i).
  { apply (others_at_rest_store d3 d4 i Hrest3).
    - cbn. apply length_insert.
    - intros j Hj. cbn. now apply lookup_insert_other. }
  assert (Hprogress : NVM_Buffer_Progress a4
                      = uint16 (event_length header_event + event_length payload_event)).
  { cbn. fold (event_length header_event) (event_length payload_event).
    now rewrite event_length_small. }
  (* the second poll *)
  destruct (Z.leb_spec size (uint16 (event_length header_event + event_length payload_event)))
    as [Hdone | Hshort].
  - assert (Hdone4 : completed a4).
    { right. split; [reflexivity|]. split; [reflexivity|]. rewrite Hprogress. exact Hdone. }
    pose proof (Handler_instance_completes d4 i a4 cfg Hinst4 Hcfg Hdone4 Hstop) as Hturn5.
    match type of Hturn5 with _ = Some (tt, ?x) => set (d5 := x) in * end.
    assert (H5 : ExternalFlash_Handler d4 = Some (tt, d5)).
    { apply (Handler_only_pending d4 i d5 (others_at_rest_only_pending d4 i Hrest4) Hi
               Hturn5).
      intros j Hj. cbn. now apply lookup_insert_other. }
    exists d5. eexists. split.
    { eapply run_cons; [exact (enter_Write _ _ _ _ _ _ _ H1)|].
      eapply run_cons; [apply enter_CommBusEvent, H2|].
      eapply run_cons; [apply enter_Handler, H3|].
      eapply run_cons; [apply enter_CommBusEvent, H4|].
      eapply run_cons; [apply enter_Handler, H5|]. reflexivity. }
    split.
    { cbn. rewrite HT3. cbn. rewrite HT1. rewrite <- !app_assoc. reflexivity. }
    split; [|split].
    + rewrite !payload_writes_app. rewrite !payload_writes_cons_other by discriminate.
      rewrite !payload_writes_app, (payload_writes_timeout t1 Hf1),
        (payload_writes_timeout t3 Hf3).
      unfold completion_calls. cbn.
      change (uint8 (LOBYTE (Event_Value header_event))) with (event_length header_event).
      rewrite event_length_small.
      destruct (ExternalFlash_WP_Feature cfg), (BusWrite _),
        (NVM_Mirror_Pointer inst =? NULL); reflexivity.
    + cbn. rewrite HS3. cbn. rewrite HS1. rewrite !list_insert_insert_eq. reflexivity.
    + rewrite !notifications_app. rewrite !notifications_cons_other by discriminate.
      rewrite !notifications_app, (notifications_timeout t1 Hf1),
        (notifications_timeout t3 Hf3).
      unfold completion_calls. cbn.
      destruct (ExternalFlash_WP_Feature cfg), (BusWrite _),
        (NVM_Mirror_Pointer inst =? NULL); reflexivity.
  - assert (Hshort4 : NVM_Buffer_Progress a4 < NVM_Buffer_Size a4)
      by (rewrite Hprogress; exact Hshort).
    destruct (Handler_instance_in_WRITE d4 i a4 cfg Hinst4 Hcfg eq_refl eq_refl
                Hshort4 Hstop)
      as (d5 & t5 & Hturn5 & HS5 & HT5 & Hf5).
    assert (H5 : ExternalFlash_Handler d4 = Some (tt, d5)).
    { apply (Handler_only_pending d4 i d5 (others_at_rest_only_pending d4 i Hrest4) Hi
               Hturn5).
      intros j Hj. now rewrite HS5. }
    exists d5. eexists. split.
    { eapply run_cons; [exact (enter_Write _ _ _ _ _ _ _ H1)|].
      eapply run_cons; [apply enter_CommBusEvent, H2|].
      eapply run_cons; [apply enter_Handler, H3|].
      eapply run_cons; [apply enter_CommBusEvent, H4|].
      eapply run_cons; [apply enter_Handler, H5|]. reflexivity. }
    split.
    { rewrite HT5. cbn. rewrite HT3. cbn. rewrite HT1. rewrite <- !app_assoc. reflexivity. }
    split; [|split].
    + rewrite !payload_writes_app. rewrite !payload_writes_cons_other by discriminate.
      rewrite !payload_writes_app, (payload_writes_timeout t1 Hf1),
        (payload_writes_timeout t3 Hf3), (payload_writes_timeout t5 Hf5).
      cbn.
      change (uint8 (LOBYTE (Event_Value header_event))) with (event_length header_event).
      rewrite event_length_small.
      destruct (ExternalFlash_WP_Feature cfg), (BusWrite _),
        (NVM_Mirror_Pointer inst =? NULL); reflexivity.
    + rewrite HS5. cbn. rewrite HS3. cbn. rewrite HS1. rewrite !list_insert_insert_eq.
      reflexivity.
    + rewrite !notifications_app. rewrite !notifications_cons_other by discriminate.
      rewrite !notifications_app, (notifications_timeout t1 Hf1),
        (notifications_timeout t3 Hf3), (notifications_timeout t5 Hf5).
      cbn.
      destruct (ExternalFlash_WP_Feature cfg), (BusWrite _),
        (NVM_Mirror_Pointer inst =? NULL); reflexivity.
Qed.

(** ** Indices and function pointers *)

Lemma Handler_instance_defined d i :
  stop_functions_present ->
  (i < EXTERNAL_FLASH_CH_NUM)%nat ->
  store_sized d ->
  wp (ExternalFlash_Handler_instance i) d (fun _ d' => store_sized d').
Proof.
  intros Hstops Hi Hlen. unfold store_sized in *.
  destruct (map_index_in_range i Hi) as [cfg Hcfg].
  destruct (lookup_lt_is_Some_2 (ExternalFlash_Instance_Store d) i) as [inst Hinst];
    [lia|].
  pose proof (Hstops i cfg Hcfg) as Hstop.
  unfold ExternalFlash_Handler_instance. wp_steps. rewrite Hstop.
  destruct (NVM_State inst); try (wp_steps; exact Hlen);
    destruct (NVM_Current_Process inst); try (wp_steps; exact Hlen).
  - wp_steps. wp_apply ReadData_wp. wp_steps. rewrite HS, !length_insert. exact Hlen.
  - unfold ExecuteCallBack. wp_steps. rewrite !length_insert. exact Hlen.
  - destruct (BusStartTransaction _); [|wp_steps; exact Hlen].
    wp_steps. destruct (_ =? TRUE); [|wp_steps; exact Hlen].
    wp_steps. wp_apply WriteData_wp. wp_steps. rewrite HS, !length_insert. exact Hlen.
  - wp_steps. destruct (_ <? _).
    + wp_steps. wp_apply SendWriteHeader_wp. wp_steps. rewrite HS. exact Hlen.
    + unfold ExecuteCallBack. wp_steps. rewrite !length_insert. exact Hlen.
Qed.

Lemma Handler_defined d :
  stop_functions_present -> store_sized d ->
  wp ExternalFlash_Handler d (fun _ d' => store_sized d').
Proof.
  intros Hstops Hlen. unfold ExternalFlash_Handler.
  apply (wp_for_each store_sized); [exact Hlen|].
  intros i d0 Hi Hlen0. apply elem_of_seq in Hi.
  apply Handler_instance_defined; [exact Hstops | lia | exact Hlen0].
Qed.

Lemma Read_defined d i buffer data_address size :
  store_sized d ->
  wp (ExternalFlash__Read i buffer data_address size) d (fun _ d' => store_sized d').
Proof.
  intros Hlen. unfold store_sized in *.
  destruct (Nat.le_gt_cases EXTERNAL_FLASH_CH_NUM i) as [Hge | Hlt].
  { eexists _, _. split; [apply Read_rejected; now left | exact Hlen]. }
  destruct (map_index_in_range i Hlt) as [cfg Hcfg].
  destruct (lookup_lt_is_Some_2 (ExternalFlash_Instance_Store d) i) as [inst Hinst];
    [lia|].
  destruct (instance_free inst) eqn:Hfree.
  2:{ eexists _, _. split; [apply Read_rejected, (not_free_rejected d i inst Hinst Hfree)|].
      exact Hlen. }
  destruct (BusStartTransaction (GENERIC_COMM_BUS_HANDLERS (Generic_Comm_Bus_Id cfg)))
    eqn:Hstart.
  2:{ destruct (Read_not_started d i inst cfg buffer data_address size Hinst Hcfg Hfree
                  (or_introl Hstart)) as (d' & H & HS & _).
      eexists _, _. split; [exact H|]. now rewrite HS. }
  destruct (Z.eq_dec
              (respond (trace d)
                 (COMMBUS__STARTTRANSACTION (Generic_Comm_Bus_Id cfg)
                    (Bus_Instance_Channel inst))) TRUE) as [Hresp | Hresp].
  - destruct (Read_accepted d i inst cfg buffer data_address size Hinst Hcfg Hfree Hstart
                Hresp) as (d' & t & H & HS & _).
    eexists _, _. split; [exact H|]. now rewrite HS, length_insert.
  - destruct (Read_not_started d i inst cfg buffer data_address size Hinst Hcfg Hfree
                (or_intror Hresp)) as (d' & H & HS & _).
    eexists _, _. split; [exact H|]. now rewrite HS.
Qed.

Lemma Write_defined d i buffer data_address size :
  store_sized d ->
  wp (ExternalFlash__Write i buffer data_address size) d (fun _ d' => store_sized d').
Proof.
  intros Hlen. unfold store_sized in *.
  destruct (Nat.le_gt_cases EXTERNAL_FLASH_CH_NUM i) as [Hge | Hlt].
  { eexists _, _. split; [apply Write_rejected; now left | exact Hlen]. }
  destruct (map_index_in_range i Hlt) as [cfg Hcfg].
  destruct (lookup_lt_is_Some_2 (ExternalFlash_Instance_Store d) i) as [inst Hinst];
    [lia|].
  destruct (instance_free inst) eqn:Hfree.
  2:{ eexists _, _. split; [apply Write_rejected, (not_free_rejected d i inst Hinst Hfree)|].
      exact Hlen. }
  destruct (BusStartTransaction (GENERIC_COMM_BUS_HANDLERS (Generic_Comm_Bus_Id cfg)))
    eqn:Hstart.
  2:{ destruct (Write_not_started d i inst cfg buffer data_address size Hinst Hcfg Hfree
                  (or_introl Hstart)) as (d' & H & HS & _).
      eexists _, _. split; [exact H|]. now rewrite HS. }
  destruct (Z.eq_dec
              (respond (trace d)
                 (COMMBUS__STARTTRANSACTION (Generic_Comm_Bus_Id cfg)
                    (Bus_Instance_Channel inst))) TRUE) as [Hresp | Hresp].
  - destruct (Write_accepted_trace d i inst cfg buffer data_address size Hinst Hcfg Hfree
                Hstart Hresp) as (r & d' & H & _ & HS & _).
    eexists _, _. split; [exact H|]. now rewrite HS, length_insert.
  - destruct (Write_not_started d i inst cfg buffer data_address size Hinst Hcfg Hfree
                (or_intror Hresp)) as (d' & H & HS & _).
    eexists _, _. split; [exact H|]. now rewrite HS.
Qed.

Lemma GetAllocation_loop_defined entries k d client_id mirror_pointer nv_instance_offset :
  (k + length entries <= length (ExternalFlash_Instance_Store d))%nat ->
  wp (GetAllocation_loop k entries client_id mirror_pointer nv_instance_offset) d
    (fun _ d' => length (ExternalFlash_Instance_Store d')
                 = length (ExternalFlash_Instance_Store d)).
Proof.
  revert k. induction entries as [|cfg rest IH]; intros k Hk; cbn [GetAllocation_loop].
  - apply wp_ret. reflexivity.
  - cbn [length] in Hk. destruct (_ =? client_id).
    + destruct (lookup_lt_is_Some_2 (ExternalFlash_Instance_Store d) k) as [inst Hinst];
        [lia|].
      wp_steps. now rewrite length_insert.
    + apply IH. lia.
Qed.

Lemma GetAllocation_defined d client_id mirror_pointer nv_instance_offset :
  store_sized d ->
  wp (ExternalFlash__GetAllocation client_id mirror_pointer nv_instance_offset) d
    (fun _ d' => store_sized d').
Proof.
  intros Hlen. unfold store_sized in *. unfold ExternalFlash__GetAllocation.
  apply wp_bind. eapply wp_conseq.
  - apply GetAllocation_loop_defined. unfold EXTERNAL_FLASH_CH_NUM in Hlen. lia.
  - intros r d' Hl. apply wp_ret. congruence.
Qed.

Lemma CommBusEventHandler_defined d event :
  store_sized d -> wp (CommBusEventHandler event) d (fun _ d' => store_sized d').
Proof.
  intros Hlen. unfold store_sized in *. unfold CommBusEventHandler.
  destruct (CommBusEventHandler_loop_cases d event (seq 0 EXTERNAL_FLASH_CH_NUM) Hlen
              indices_in_range) as [H | (i & inst & Hinst & H)].
  - eexists _, _. split; [exact H | exact Hlen].
  - eexists _, _. split; [exact H|]. cbn. now rewrite length_insert.
Qed.

Lemma enter_defined e d :
  stop_functions_present -> store_sized d ->
  wp (enter e) d (fun _ d' => store_sized d').
Proof.
  intros Hstops Hlen. destruct e; cbn [enter].
  - apply wp_bind. eapply wp_conseq; [apply Initialize_wp|].
    intros [] d' [Hl _]. apply wp_ret. exact Hl.
  - apply wp_bind. eapply wp_conseq; [apply (Handler_defined d Hstops Hlen)|].
    intros [] d' Hl. apply wp_ret. exact Hl.
  - apply wp_bind. eapply wp_conseq; [apply (Read_defined d _ _ _ _ Hlen)|].
    intros r d' Hl. apply wp_ret. exact Hl.
  - apply wp_bind. eapply wp_conseq; [apply (Write_defined d _ _ _ _ Hlen)|].
    intros r d' Hl. apply wp_ret. exact Hl.
  - apply (GetAllocation_defined d _ _ _ Hlen).
  - apply wp_bind. eapply wp_conseq; [apply (CommBusEventHandler_defined d _ Hlen)|].
    intros [] d' Hl. apply wp_ret. exact Hl.
Qed.

(** X18: the entry points stay within the driver's tables.  On a store
    with one slot per map entry, and with providers that all have a stop
    function, every sequence of calls of the entry points ([Initialize],
    the poll, [Read], [Write], [GetAllocation], the bus event handler),
    with any arguments and any answers of the collaborators, never reads
    or writes [ExternalFlash_Instance_Store] or [ExternalFlash_Map]
    outside their bounds, also with an instance id beyond the table, and
    never calls a function of a bus provider through a null pointer; the
    store keeps its size.  These are the two operations the computations
    of this file leave undefined; what a collaborator does with the
    pointers it is given (the client buffer handed to the bus or copied
    to the mirror) and the function table of the digital outputs are not
    part of the statement. *)
Theorem entry_points_stay_within_tables entries d :
  stop_functions_present ->
  store_sized d ->
  exists rs d',
    run entries d = Some (rs, d') /\ store_sized d' /\ length rs = length entries.
Proof.
  intros Hstops. revert d. induction entries as [|e entries IH]; intros d Hlen.
  - exists [], d. auto.
  - destruct (enter_defined e d Hstops Hlen) as (r & d1 & He & Hlen1).
    destruct (IH d1 Hlen1) as (rs & d' & Hrun & Hlen' & Hrs).
    exists (r :: rs), d'. split; [exact (run_cons e entries d r d1 rs d' He Hrun)|].
    split; [exact Hlen'|]. cbn. now rewrite Hrs.
Qed.

(** X19: the guard of [Read] and [Write] looks at the instance it is
    called for and at no other.  While a write is in flight on instance
    [i], a request on another free instance [j] is accepted as well, also
    when both instances are on the same provider: after the two calls both
    transactions are started and both instances are waiting for the event
    of their header. *)
Theorem guard_is_per_instance d i j inst_i inst_j cfg_i cfg_j
    buffer_i address_i size_i buffer_j address_j size_j :
  i <> j ->
  ExternalFlash_Instance_Store d !! i = Some inst_i ->
  ExternalFlash_Instance_Store d !! j = Some inst_j ->
  ExternalFlash_Map !! i = Some cfg_i ->
  ExternalFlash_Map !! j = Some cfg_j ->
  instance_free inst_i = true ->
  instance_free inst_j = true ->
  start_always_accepted cfg_i (Bus_Instance_Channel inst_i) ->
  start_always_accepted cfg_j (Bus_Instance_Channel inst_j) ->
  exists d',
    run [Call_Write i buffer_i address_i size_i; Call_Read j buffer_j address_j size_j] d
      = Some ([TRUE; FALSE], d') /\
    ExternalFlash_Instance_Store d' !! i =
      Some (accepted_instance inst_i buffer_i address_i size_i
              EXTERNAL_FLASH_STATE_SEND_WRITE_HEADER) /\
    ExternalFlash_Instance_Store d' !! j =
      Some (accepted_instance inst_j buffer_j address_j size_j
              EXTERNAL_FLASH_STATE_SEND_READ_HEADER) /\
    COMMBUS__STARTTRANSACTION (Generic_Comm_Bus_Id cfg_i) (Bus_Instance_Channel inst_i)
      ∈ trace d' /\
    COMMBUS__STARTTRANSACTION (Generic_Comm_Bus_Id cfg_j) (Bus_Instance_Channel inst_j)
      ∈ trace d'.
Proof.
  intros Hne Hi Hj Hcfgi Hcfgj Hfreei Hfreej [Hstarti Hrespi] [Hstartj Hrespj].
  destruct (Write_accepted_trace d i inst_i cfg_i buffer_i address_i size_i Hi Hcfgi Hfreei
              Hstarti (Hrespi _)) as (r & d1 & H1 & -> & HS1 & _ & t1 & _ & HT1).
  assert (Hj1 : ExternalFlash_Instance_Store d1 !! j = Some inst_j).
  { rewrite HS1, lookup_insert_other by auto. exact Hj. }
  destruct (Read_accepted d1 j inst_j cfg_j buffer_j address_j size_j Hj1 Hcfgj Hfreej
              Hstartj (Hrespj _)) as (d2 & t2 & H2 & HS2 & _ & HT2 & _).
  exists d2. split.
  { eapply run_cons; [exact (enter_Write _ _ _ _ _ _ _ H1)|].
    eapply run_cons; [exact (enter_Read _ _ _ _ _ _ _ H2)|]. reflexivity. }
  split.
  { rewrite HS2, lookup_insert_other by auto. rewrite HS1.
    eapply lookup_insert_same, Hi. }
  split; [rewrite HS2; eapply lookup_insert_same, Hj1|].
  rewrite HT2, HT1. split.
  - rewrite elem_of_app. left. rewrite elem_of_app. right. apply elem_of_cons. auto.
  - rewrite elem_of_app. right. apply elem_of_cons. auto.
Qed.

(** ** The chunk size when the progress count is above the size *)

Lemma write_size_past_the_size inst :
  0 < NVM_Buffer_Progress inst - NVM_Buffer_Size inst <= 65535 ->
  write_size inst =
    Z.min (65536 - (NVM_Buffer_Progress inst - NVM_Buffer_Size inst))
          (256 - (NVM_Target_Address inst + NVM_Buffer_Progress inst) mod 256) /\
  1 <= write_size inst <= 256.
Proof.
  intros Hover. unfold write_size, MIN, uint16, uint32, EXTERNAL_FLASH_PAGE_SIZE.
  set (excess := NVM_Buffer_Progress inst - NVM_Buffer_Size inst) in *.
  replace (NVM_Buffer_Size inst - NVM_Buffer_Progress inst) with (- excess)
    by (unfold excess; lia).
  replace (((NVM_Target_Address inst + NVM_Buffer_Progress inst) mod 2 ^ 32) mod 256)
    with ((NVM_Target_Address inst + NVM_Buffer_Progress inst) mod 256).
  2:{ symmetry. apply Z.mod_mod_divide. exists 16777216. reflexivity. }
  set (x := (NVM_Target_Address inst + NVM_Buffer_Progress inst) mod 256).
  assert (0 <= x < 256) by (apply Z.mod_pos_bound; lia).
  assert (Hr : (if - excess <? 256 then - excess else 256) mod 2 ^ 16 = 65536 - excess).
  { destruct (Z.ltb_spec (- excess) 256); [|lia].
    replace (- excess) with ((65536 - excess) + (-1) * 2 ^ 16) by lia.
    rewrite Z.mod_add by lia. apply Z.mod_small. lia. }
  rewrite Hr.
  destruct (Z.ltb_spec (256 - x) (65536 - excess)); rewrite Z.mod_small; lia.
Qed.

(** X20: the chunk when the progress count is above the requested size,
    as after a header event that reports more bytes than the write asks
    for.  The 16-bit difference of size and progress wraps around, so the
    poll in state [SEND_WRITE_HEADER] does not write 0 bytes: it writes
    from [buffer] plus progress, beyond the client's data, a chunk of the
    smaller of (65536 - (progress - size)) and the distance to the end of
    the page, which is at least one byte. *)
Theorem poll_writes_past_a_short_request d i inst cfg :
  only_pending d i ->
  ExternalFlash_Instance_Store d !! i = Some inst ->
  ExternalFlash_Map !! i = Some cfg ->
  NVM_State inst = EXTERNAL_FLASH_STATE_SEND_WRITE_HEADER ->
  NVM_Current_Process inst = NVDATA_PROCESS_WRITE ->
  BusStartTransaction (GENERIC_COMM_BUS_HANDLERS (Generic_Comm_Bus_Id cfg)) = true ->
  BusWrite (GENERIC_COMM_BUS_HANDLERS (Generic_Comm_Bus_Id cfg)) = true ->
  respond (trace d)
    (COMMBUS__STARTTRANSACTION (Generic_Comm_Bus_Id cfg) (Bus_Instance_Channel inst)) = TRUE ->
  0 < NVM_Buffer_Progress inst - NVM_Buffer_Size inst <= 65535 ->
  exists d' chunk t,
    ExternalFlash_Handler d = Some (tt, d') /\
    trace d' =
      trace d ++
      COMMBUS__STARTTRANSACTION (Generic_Comm_Bus_Id cfg) (Bus_Instance_Channel inst) ::
      COMMBUS__WRITE (Generic_Comm_Bus_Id cfg) (Bus_Instance_Channel inst)
        (ClientBuffer (NVM_Buffer_Pointer inst + NVM_Buffer_Progress inst)) chunk :: t /\
    forallb is_timeout_call t = true /\
    chunk =
      Z.min (65536 - (NVM_Buffer_Progress inst - NVM_Buffer_Size inst))
            (256 - (NVM_Target_Address inst + NVM_Buffer_Progress inst) mod 256) /\
    1 <= chunk <= 256.
Proof.
  intros Honly Hinst Hcfg Hstate Hproc Hstart Hwrite Hresp Hover.
  destruct (Handler_SEND_WRITE_HEADER_started d i inst cfg Hinst Hcfg Hstate Hproc Hstart
              Hresp) as ([] & d' & Hturn & t & HS & HT & Hf).
  rewrite Hwrite in HT.
  destruct (write_size_past_the_size inst Hover) as [Hsize Hbounds].
  exists d', (write_size inst), t. split.
  - apply (Handler_only_pending d i d' Honly); [eapply lookup_lt_Some, Hcfg | exact Hturn |].
    intros j Hj. rewrite HS. now apply lookup_insert_other.
  - split; [exact HT|]. split; [exact Hf|]. split; [exact Hsize | exact Hbounds].
Qed.

(** ** A write whose transaction does not start *)

Lemma Write_not_started_trace d i inst cfg buffer data_address size :
  ExternalFlash_Instance_Store d !! i = Some inst ->
  ExternalFlash_Map !! i = Some cfg ->
  instance_free inst = true ->
  start_fails d inst cfg ->
  ExternalFlash__Write i buffer data_address size d =
    Some (false, set_trace (trace d ++ start_attempt cfg (Bus_Instance_Channel inst)) d).
Proof.
  intros Hinst Hcfg Hfree Hfail.
  destruct (instance_free_inv inst Hfree) as (Hc & Hp & Hs).
  unfold ExternalFlash__Write, start_attempt. rewrite (in_range_of_map i cfg Hcfg).
  bind_with Hinst. rewrite Hc, Hp, Hs. cbn [negb]. bind_with Hcfg.
  destruct (BusStartTransaction (GENERIC_COMM_BUS_HANDLERS (Generic_Comm_Bus_Id cfg)))
    eqn:Hstart.
  - destruct Hfail as [Hfail | Hfail]; [congruence|].
    apply Z.eqb_neq in Hfail. monad. rewrite Hfail. reflexivity.
  - unfold ret. now rewrite set_trace_same.
Qed.

(** X21: a [Write] that passes the guard while the transaction does not
    start (the provider has no start function, or refuses) returns
    [FALSE] and does nothing but the start attempt: the write-protect pin
    is not driven, no header is sent, the mirror is not written and the
    polling task is not resumed; the run-states and the timeout handle are
    as before, so the instance is still free. *)
Theorem Write_without_transaction_leaves_mirror d i inst cfg buffer data_address size :
  ExternalFlash_Instance_Store d !! i = Some inst ->
  ExternalFlash_Map !! i = Some cfg ->
  instance_free inst = true ->
  start_fails d inst cfg ->
  exists d',
    ExternalFlash__Write i buffer data_address size d = Some (false, d') /\
    ExternalFlash_Instance_Store d' = ExternalFlash_Instance_Store d /\
    ExternalFlash_Timeout_Handle d' = ExternalFlash_Timeout_Handle d /\
    trace d' = trace d ++ start_attempt cfg (Bus_Instance_Channel inst) /\
    forall c, c ∈ start_attempt cfg (Bus_Instance_Channel inst) ->
      c = COMMBUS__STARTTRANSACTION (Generic_Comm_Bus_Id cfg) (Bus_Instance_Channel inst).
Proof.
  intros Hinst Hcfg Hfree Hfail. eexists. split.
  - apply (Write_not_started_trace d i inst cfg); assumption.
  - cbn. split; [reflexivity|]. split; [reflexivity|]. split; [reflexivity|].
    intros c Hc. unfold start_attempt in Hc. destruct (BusStartTransaction _).
    + now apply list_elem_of_singleton in Hc.
    + apply elem_of_nil in Hc. contradiction.
Qed.

(** ** The process a bus event announces *)

Lemma for_each_break_ext l (body body' : nat -> M loop_control) d :
  (forall i x, body i x = body' i x) ->
  for_each_break l body d = for_each_break l body' d.
Proof.
  intros Hext. revert d. induction l as [|i l IH]; intros d; cbn [for_each_break];
    [reflexivity|].
  unfold bind. rewrite Hext. destruct (body' i d) as [[[] d']|]; auto.
Qed.

Lemma CommBusEventHandler_channel_same event event' i d :
  same_but_process event event' ->
  CommBusEventHandler_channel event i d = CommBusEventHandler_channel event' i d.
Proof.
  intros (Hp & Hs & Hl). unfold CommBusEventHandler_channel. rewrite Hp, Hs, Hl.
  reflexivity.
Qed.

(** X22: the bus event handler never looks at the process the event
    announces (the high byte of the event value, which it extracts into a
    variable it does not use).  Two events with the same provider, the
    same channel and the same length byte have the same effect on every
    driver state: an event announcing a read completes a pending write
    header, and the other way round. *)
Theorem announced_process_is_ignored event event' d :
  same_but_process event event' ->
  CommBusEventHandler event d = CommBusEventHandler event' d.
Proof.
  intros Hsame. unfold CommBusEventHandler. apply for_each_break_ext.
  intros i x. now apply CommBusEventHandler_channel_same.
Qed.

(** ** The first chunk of a write and the header it follows *)









End ExternalFlash.

(** ** The reference configuration at work *)

(** The three drivers above are reached from the idle one. *)
Lemma header_sent_driver_reached :
  run reference_Map reference_HANDLERS reference_PROVIDER reference_PERIOD_MS reference_respond
    [Call_Write 0 1000 496 300; Call_CommBusEvent (bus_event 0 0 4 0)] idle_driver
  = Some ([TRUE; 0], header_sent_driver).
Proof. vm_compute. reflexivity. Qed.

Lemma chunk_sent_driver_reached :
  run reference_Map reference_HANDLERS reference_PROVIDER reference_PERIOD_MS reference_respond
    [Call_Write 0 1000 0 300; Call_CommBusEvent (bus_event 0 0 4 0); Call_Handler;
     Call_CommBusEvent (bus_event 0 0 4 255)] idle_driver
  = Some ([TRUE; 0; 0; 0], chunk_sent_driver).
Proof. vm_compute. reflexivity. Qed.

Lemma read_done_driver_reached :
  run reference_Map reference_HANDLERS reference_PROVIDER reference_PERIOD_MS reference_respond
    [Call_Read 0 1000 0 16; Call_CommBusEvent (bus_event 0 0 4 0); Call_Handler;
     Call_CommBusEvent (bus_event 0 0 2 8)] idle_driver
  = Some ([FALSE; 0; 0; 0], read_done_driver).
Proof. vm_compute. reflexivity. Qed.

(** After [Initialize] on the reference configuration a [Read] and a
    [Write] on instance 0 both return [FALSE]. *)
Lemma Initialize_then_requests_are_rejected :
  fst <$> run reference_Map reference_HANDLERS reference_PROVIDER reference_PERIOD_MS
            reference_respond
            [Call_Initialize; Call_Read 0 1000 0 16; Call_Write 0 1000 0 16] boot_driver
  = Some [0; FALSE; FALSE].
Proof. vm_compute. reflexivity. Qed.

(** The scenario [Write (0, buffer, 0, 300)]: after the first chunk the
    poll step only repeats the header; four poll steps later there is still
    one payload write, of 256 bytes, and no notification. *)
Lemma Write_300_sends_one_chunk_and_never_completes :
  exists d,
    run reference_Map reference_HANDLERS reference_PROVIDER reference_PERIOD_MS
      reference_respond
      [Call_Write 0 1000 0 300; Call_CommBusEvent (bus_event 0 0 4 0); Call_Handler;
       Call_CommBusEvent (bus_event 0 0 4 255);
       Call_Handler; Call_CommBusEvent (bus_event 0 0 4 4);
       Call_Handler; Call_CommBusEvent (bus_event 0 0 4 4);
       Call_Handler; Call_Handler] idle_driver
    = Some ([TRUE; 0; 0; 0; 0; 0; 0; 0; 0; 0], d) /\
    payload_writes (trace d) = [(1000, 256)] /\
    length (header_writes (trace d)) = 5%nat /\
    notifications (trace d) = [] /\
    ExternalFlash_Instance_Store d = ExternalFlash_Instance_Store chunk_sent_driver.
Proof. eexists. split; [vm_compute; reflexivity|]. vm_compute. auto. Qed.

(** Witness of [Read_returns_FALSE_when_accepted]: [Read (0, 1000, 0, 16)]
    on the idle driver. *)
Lemma Read_returns_FALSE_when_accepted_witness :
  exists d' inst',
    ExternalFlash__Read reference_Map reference_HANDLERS reference_respond 0 1000 0 16
      idle_driver = Some (false, d') /\
    ExternalFlash_Instance_Store d' !! 0%nat = Some inst' /\
    NVM_State inst' = EXTERNAL_FLASH_STATE_SEND_READ_HEADER /\
    NVM_Current_Process inst' = NVDATA_PROCESS_WAIT_WRITE /\
    NVM_Buffer_Size inst' = 16.
Proof.
  exact (proj1 (Read_returns_FALSE_when_accepted reference_Map reference_HANDLERS
                  reference_respond idle_driver 0 (idle_instance 0)
                  {| ExternalFlash_Channel := 0; ExternalFlash_Provider_Bound_Id := 0;
                     ExternalFlash_WP_Pin := 7; ExternalFlash_WP_Feature := true;
                     ExternalFlash_WP_Level := true;
                     ExternalFlash_Reset_Pin := 8; ExternalFlash_Reset_Feature := false;
                     ExternalFlash_Reset_Level := false; Generic_Comm_Bus_Id := 0 |}
                  1000 0 16 eq_refl eq_refl eq_refl) eq_refl eq_refl).
Defined.

(** Witness of [Handler_in_WRITE_does_not_loop_back]: the poll step after
    the first chunk of the 300-byte write. *)
Lemma Handler_in_WRITE_does_not_loop_back_witness :
  exists d' t,
    ExternalFlash_Handler_instance reference_Map reference_HANDLERS reference_PROVIDER
      reference_respond 0 chunk_sent_driver = Some (tt, d') /\
    ExternalFlash_Instance_Store d' = ExternalFlash_Instance_Store chunk_sent_driver /\
    trace d' =
      trace chunk_sent_driver ++
      COMMBUS__STOPTRANSACTION 0 0 ::
      [COMMBUS__WRITE 0 0 (HeaderBytes [0xd2; 0; 0; 255]) 4] ++ t /\
    forallb is_timeout_call t = true.
Proof.
  refine (proj1 (Handler_in_WRITE_does_not_loop_back reference_Map reference_HANDLERS
            reference_PROVIDER reference_PERIOD_MS reference_respond chunk_sent_driver 0
            (busy_instance EXTERNAL_FLASH_STATE_WRITE NVDATA_PROCESS_WRITE 0 300 255)
            {| ExternalFlash_Channel := 0; ExternalFlash_Provider_Bound_Id := 0;
               ExternalFlash_WP_Pin := 7; ExternalFlash_WP_Feature := true;
               ExternalFlash_WP_Level := true;
               ExternalFlash_Reset_Pin := 8; ExternalFlash_Reset_Feature := false;
               ExternalFlash_Reset_Level := false; Generic_Comm_Bus_Id := 0 |}
            eq_refl eq_refl eq_refl eq_refl _ eq_refl)).
  reflexivity.
Defined.

(** Witness of [rejected_call_changes_nothing]: an instance id out of
    range, and a second [Write] right after an accepted one. *)
Lemma rejected_call_changes_nothing_witness :
  (ExternalFlash__Read reference_Map reference_HANDLERS reference_respond 5 1000 0 16
     idle_driver = Some (false, idle_driver) /\
   ExternalFlash__Write reference_Map reference_HANDLERS reference_respond 5 1000 0 16
     idle_driver = Some (false, idle_driver)) /\
  exists d1,
    ExternalFlash__Write reference_Map reference_HANDLERS reference_respond 0 1000 0 300
      idle_driver = Some (true, d1) /\
    ExternalFlash__Read reference_Map reference_HANDLERS reference_respond 0 2000 512 8 d1
      = Some (false, d1) /\
    ExternalFlash__Write reference_Map reference_HANDLERS reference_respond 0 2000 512 8 d1
      = Some (false, d1).
Proof.
  split.
  - apply (rejected_call_changes_nothing reference_Map reference_HANDLERS reference_respond
             idle_driver 5 1000 0 16).
    left. vm_compute. lia.
  - eexists. split; [vm_compute; reflexivity|].
    apply (rejected_call_changes_nothing reference_Map reference_HANDLERS reference_respond
             _ 0 2000 512 8).
    right. exists idle_driver, 1000, 0, 300. vm_compute. reflexivity.
Defined.

(** Witness of [notification_carries_requested_size]: the poll step that
    completes the 16-byte read. *)
Lemma notification_carries_requested_size_witness :
  exists d' t,
    ExternalFlash_Handler reference_Map reference_HANDLERS reference_PROVIDER
      reference_respond read_done_driver = Some (tt, d') /\
    trace d' = trace read_done_driver ++ t /\
    forall event source,
      Callback__Notify event source ∈ t ->
      exists i inst,
        ExternalFlash_Instance_Store read_done_driver !! i = Some inst /\
        source = Z.of_nat i /\
        Event_Value event =
          COMBINE_BYTES (NVDATA_PROCESS_value (NVM_Current_Process inst))
                        (NVM_Buffer_Size inst).
Proof.
  assert (Hrun : ExternalFlash_Handler reference_Map reference_HANDLERS reference_PROVIDER
                   reference_respond read_done_driver
                 = Some (tt, set_Instance_Store [busy_instance EXTERNAL_FLASH_STATE_IDLE NVDATA_PROCESS_NONE 0 16 8;
                                  idle_instance 1]
                               (set_trace (trace read_done_driver ++
                                  [COMMBUS__STOPTRANSACTION 0 0;
                                   Callback__Notify
                                     {| Generic_Provider_Id := reference_PROVIDER;
                                        Source_Instance_Id := 0;
                                        Event_Value := COMBINE_BYTES 2 16 |} 0])
                                  read_done_driver)))
    by (vm_compute; reflexivity).
  destruct (notification_carries_requested_size reference_Map reference_HANDLERS
              reference_PROVIDER reference_respond read_done_driver _ Hrun)
    as (t & Ht & Hall).
  eexists _, t. split; [exact Hrun|]. split; [exact Ht|].
  intros event source Hin.
  destruct (Hall event source Hin) as (i & inst & Hinst & _ & Hsrc & _ & _ & Hval).
  exists i, inst. auto.
Defined.

(** C7, counterexample: when the 16-byte read completes with 8 bytes
    reported as transferred, the notification carries the requested size 16
    and not the 8 bytes transferred. *)
Lemma notification_does_not_carry_transferred_bytes :
  ~ notification_carries_transferred_bytes reference_Map reference_HANDLERS
      reference_PROVIDER reference_respond read_done_driver.
Proof.
  intros H.
  destruct (H (set_Instance_Store [busy_instance EXTERNAL_FLASH_STATE_IDLE NVDATA_PROCESS_NONE 0 16 8;
                                  idle_instance 1]
                 (set_trace (trace read_done_driver ++
                    [COMMBUS__STOPTRANSACTION 0 0;
                     Callback__Notify
                       {| Generic_Provider_Id := reference_PROVIDER;
                          Source_Instance_Id := 0;
                          Event_Value := COMBINE_BYTES 2 16 |} 0])
                    read_done_driver))
              [COMMBUS__STOPTRANSACTION 0 0;
               Callback__Notify
                 {| Generic_Provider_Id := reference_PROVIDER;
                    Source_Instance_Id := 0;
                    Event_Value := COMBINE_BYTES 2 16 |} 0]
              {| Generic_Provider_Id := reference_PROVIDER;
                 Source_Instance_Id := 0;
                 Event_Value := COMBINE_BYTES 2 16 |} 0)
    as (i & inst & Hinst & Hsrc & Hval).
  - vm_compute. reflexivity.
  - reflexivity.
  - apply elem_of_cons. right. apply elem_of_cons. left. reflexivity.
  - cbn in Hsrc. assert (i = 0%nat) by lia. subst i.
    cbn in Hinst. injection Hinst as <-. vm_compute in Hval. discriminate.
Qed.

(** Witness of [unmatched_event_changes_nothing]: a bus event for instance
    0 while its process is [WRITE], not [WAIT_WRITE]. *)
Lemma unmatched_event_changes_nothing_witness :
  CommBusEventHandler reference_Map reference_respond (bus_event 0 0 4 4) chunk_sent_driver
  = Some (tt, chunk_sent_driver).
Proof.
  apply (unmatched_event_changes_nothing reference_Map reference_respond chunk_sent_driver
           (bus_event 0 0 4 4)).
  - reflexivity.
  - intros (i & cfg & inst & _ & Hinst & _ & _ & Hwait).
    destruct i as [|[|i]]; cbn in Hinst; try discriminate;
      injection Hinst as <-; destruct Hwait; discriminate.
Defined.

(** Witness of [GetAllocation_without_match]: client id 5 is not in the
    reference map, and the value returned is 2. *)
Lemma GetAllocation_without_match_witness :
  ExternalFlash__GetAllocation reference_Map 5 77 0 idle_driver = Some (2, idle_driver) /\
  2 <> INVALID_VALUE_8.
Proof.
  destruct (GetAllocation_without_match reference_Map idle_driver 5 77 0) as [Hrun Hne].
  - repeat constructor; discriminate.
  - split; [exact Hrun|]. apply Hne. discriminate.
Defined.

(** Witness of [SendWriteHeader_transmits_read_opcode]: the header of the
    300-byte write to address 496. *)
Lemma SendWriteHeader_transmits_read_opcode_witness :
  exists r d' address rest,
    SendWriteHeader reference_Map reference_HANDLERS reference_respond 0 header_sent_driver
      = Some (r, d') /\
    trace d' =
      trace header_sent_driver ++
      [COMMBUS__WRITE 0 0 (HeaderBytes (0xd2 :: address)) 4] ++ rest /\
    length address = 3%nat /\
    forallb is_timeout_call rest = true /\
    0xd2 <> EXTERNAL_FLASH_CMD_WRITE_MEMORY.
Proof.
  exact (SendWriteHeader_transmits_read_opcode reference_Map reference_HANDLERS
           reference_respond header_sent_driver 0
           (busy_instance EXTERNAL_FLASH_STATE_SEND_WRITE_HEADER NVDATA_PROCESS_WRITE
              496 300 0)
           {| ExternalFlash_Channel := 0; ExternalFlash_Provider_Bound_Id := 0;
              ExternalFlash_WP_Pin := 7; ExternalFlash_WP_Feature := true;
              ExternalFlash_WP_Level := true;
              ExternalFlash_Reset_Pin := 8; ExternalFlash_Reset_Feature := false;
              ExternalFlash_Reset_Level := false; Generic_Comm_Bus_Id := 0 |}
           eq_refl eq_refl).
Defined.

(** The two drivers above are reached from the idle driver. *)
Lemma write_pending_driver_reached :
  run reference_Map reference_HANDLERS reference_PROVIDER reference_PERIOD_MS reference_respond
    [Call_Write 0 1000 0 16] idle_driver
  = Some ([TRUE], write_pending_driver).
Proof. vm_compute. reflexivity. Qed.

Lemma read_header_sent_driver_reached :
  run reference_Map reference_HANDLERS reference_PROVIDER reference_PERIOD_MS reference_respond
    [Call_Read 0 1000 0 16; Call_CommBusEvent (bus_event 0 0 4 0)] idle_driver
  = Some ([FALSE; 0], read_header_sent_driver).
Proof. vm_compute. reflexivity. Qed.

(** Witness of [GetAllocation_binds_first_match]: client 1 is the second
    entry of the reference map. *)
Lemma GetAllocation_binds_first_match_witness :
  exists d',
    ExternalFlash__GetAllocation reference_Map 1 77 4096 idle_driver = Some (1, d') /\
    ExternalFlash_Instance_Store d' !! 1%nat = Some (bound_instance 77 4096 (idle_instance 1)) /\
    ExternalFlash_Instance_Store d' !! 0%nat = Some (idle_instance 0).
Proof.
  destruct (GetAllocation_binds_first_match reference_Map idle_driver 1 (idle_instance 1)
              1 77 4096) as (d' & H & Hi & Hother & _).
  - split.
    + exists reference_entry_1. split; reflexivity.
    + intros j cfg Hj Hl. assert (j = 0%nat) by lia. subst j.
      injection Hl as <-. discriminate.
  - reflexivity.
  - exists d'. split; [exact H|]. split; [exact Hi|].
    rewrite Hother by lia. reflexivity.
Defined.

(** Witness of [Write_accepted_effects]: [Write (0, 1000, 0, 16)] on the
    idle driver. *)
Lemma Write_accepted_effects_witness :
  exists d' t,
    ExternalFlash__Write reference_Map reference_HANDLERS reference_respond 0 1000 0 16
      idle_driver = Some (true, d') /\
    forallb is_timeout_call t = true /\
    trace d' =
      [COMMBUS__STARTTRANSACTION 0 0; GENERIC_IO_DIGITALIO_Write 7 true;
       COMMBUS__WRITE 0 0 (HeaderBytes [210; 0; 0; 0]) 4] ++ t ++
      [SystemTimers__ResumeTask 0].
Proof.
  destruct (Write_accepted_effects reference_Map reference_HANDLERS reference_respond
              idle_driver 0 (idle_instance 0) reference_entry_0 1000 0 16
              eq_refl eq_refl eq_refl eq_refl eq_refl) as (d' & t & H & _ & Hf & HT).
  exists d', t. split; [exact H|]. split; [exact Hf|]. rewrite HT. reflexivity.
Defined.

(** Witness of [GetAllocation_then_Write]: client 0 bound to the mirror
    at 5000 with offset 4096, then [Write (0, 1000, 16, 8)]. *)
Lemma GetAllocation_then_Write_witness :
  exists d1 d2 inst2 t,
    ExternalFlash__GetAllocation reference_Map 0 5000 4096 idle_driver = Some (0, d1) /\
    ExternalFlash__Write reference_Map reference_HANDLERS reference_respond 0 1000 16 8 d1
      = Some (true, d2) /\
    ExternalFlash_Instance_Store d2 !! 0%nat = Some inst2 /\
    NVM_Target_Address inst2 = 4112 /\
    trace d2 = t /\
    memcpy_to_mirror 5016 1000 8 ∈ t.
Proof.
  destruct (GetAllocation_then_Write reference_Map reference_HANDLERS reference_respond
              idle_driver 0 (idle_instance 0) reference_entry_0 0 5000 4096 1000 16 8)
    as (d1 & d2 & inst2 & t & HG & HW & Hi & Ha & _ & HT & Hm & _).
  - split.
    + exists reference_entry_0. split; reflexivity.
    + intros j cfg Hj. lia.
  - reflexivity.
  - reflexivity.
  - reflexivity.
  - reflexivity.
  - reflexivity.
  - exists d1, d2, inst2, t. split; [exact HG|]. split; [exact HW|]. split; [exact Hi|].
    split; [exact Ha|]. split; [exact HT|]. apply Hm. discriminate.
Defined.

(** Witness of [event_is_served_to_first_waiting_instance]: the event for
    the header of the pending write, reporting 4 bytes. *)
Lemma event_is_served_to_first_waiting_instance_witness :
  exists d' inst',
    CommBusEventHandler reference_Map reference_respond (bus_event 0 0 4 4)
      write_pending_driver = Some (tt, d') /\
    ExternalFlash_Instance_Store d' !! 0%nat = Some inst' /\
    NVM_Current_Process inst' = NVDATA_PROCESS_WRITE /\
    NVM_Buffer_Progress inst' = 4 /\
    ExternalFlash_Timeout_Handle d' = INVALID_VALUE_8.
Proof.
  destruct (event_is_served_to_first_waiting_instance reference_Map reference_respond
              write_pending_driver (bus_event 0 0 4 4) 0
              (busy_instance EXTERNAL_FLASH_STATE_SEND_WRITE_HEADER NVDATA_PROCESS_WAIT_WRITE
                 0 16 0))
    as (d' & H & Hi & Hp & Hn & _ & _ & _ & HT & _).
  - split; [reflexivity|]. split; [reflexivity|]. split.
    + exists reference_entry_0. split; reflexivity.
    + intros j cfg_j inst_j Hj. lia.
  - eexists d', _. split; [exact H|]. split; [exact Hi|]. split; [exact Hp|].
    split; [exact Hn | exact HT].
Defined.

(** Witness of [event_changes_process_and_progress_only]: the same event
    on the same driver. *)
Lemma event_changes_process_and_progress_only_witness :
  exists d' inst',
    CommBusEventHandler reference_Map reference_respond (bus_event 0 0 4 4)
      write_pending_driver = Some (tt, d') /\
    ExternalFlash_Instance_Store d' !! 0%nat = Some inst' /\
    NVM_State inst' = EXTERNAL_FLASH_STATE_SEND_WRITE_HEADER /\
    NVM_Buffer_Size inst' = 16.
Proof.
  destruct (event_changes_process_and_progress_only reference_Map reference_respond
              write_pending_driver (bus_event 0 0 4 4) eq_refl)
    as (d' & t & H & _ & Hframe & _).
  destruct (Hframe 0%nat _ eq_refl) as (inst' & Hi & _ & Hs & _ & _ & Hsz & _).
  exists d', inst'. split; [exact H|]. split; [exact Hi|]. split; [exact Hs | exact Hsz].
Defined.

(** Witness of [polls_without_pending_instance_change_nothing]: three
    polls while instance 0 waits for the event of its header. *)
Lemma polls_without_pending_instance_change_nothing_witness :
  run reference_Map reference_HANDLERS reference_PROVIDER reference_PERIOD_MS reference_respond
    [Call_Handler; Call_Handler; Call_Handler] write_pending_driver
  = Some ([0; 0; 0], write_pending_driver).
Proof.
  apply (polls_without_pending_instance_change_nothing reference_Map reference_HANDLERS
           reference_PROVIDER reference_PERIOD_MS reference_respond write_pending_driver 3).
  split; [reflexivity|]. repeat constructor.
Defined.

(** Witness of [poll_after_read_header_requests_payload]: the poll after
    the header event of the 16-byte read. *)
Lemma poll_after_read_header_requests_payload_witness :
  exists d' t,
    ExternalFlash_Handler reference_Map reference_HANDLERS reference_PROVIDER
      reference_respond read_header_sent_driver = Some (tt, d') /\
    trace d' = trace read_header_sent_driver ++ [COMMBUS__READ 0 0 1000 16] ++ t /\
    forallb is_timeout_call t = true.
Proof.
  destruct (poll_after_read_header_requests_payload reference_Map reference_HANDLERS
              reference_PROVIDER reference_respond read_header_sent_driver 0
              (busy_instance EXTERNAL_FLASH_STATE_SEND_READ_HEADER NVDATA_PROCESS_WRITE
                 0 16 0) reference_entry_0)
    as (d' & t & H & _ & HT & Hf).
  - split; [reflexivity|]. intros [|[|j]] inst Hj Hl; [lia | | discriminate].
    injection Hl as <-. reflexivity.
  - reflexivity.
  - reflexivity.
  - reflexivity.
  - reflexivity.
  - exists d', t. split; [exact H|]. split; [exact HT | exact Hf].
Defined.

(** Witness of [poll_completes_operation]: the poll that completes the
    16-byte read. *)
Lemma poll_completes_operation_witness :
  exists d',
    ExternalFlash_Handler reference_Map reference_HANDLERS reference_PROVIDER
      reference_respond read_done_driver = Some (tt, d') /\
    ExternalFlash_Instance_Store d' =
      [busy_instance EXTERNAL_FLASH_STATE_IDLE NVDATA_PROCESS_NONE 0 16 8; idle_instance 1] /\
    trace d' =
      trace read_done_driver ++
      [COMMBUS__STOPTRANSACTION 0 0;
       Callback__Notify
         {| Generic_Provider_Id := reference_PROVIDER; Source_Instance_Id := 0;
            Event_Value := COMBINE_BYTES 2 16 |} 0].
Proof.
  destruct (poll_completes_operation reference_Map reference_HANDLERS reference_PROVIDER
              reference_respond read_done_driver 0
              (busy_instance EXTERNAL_FLASH_STATE_READ NVDATA_PROCESS_READ 0 16 8)
              reference_entry_0)
    as (d' & H & HS & _ & HT & _).
  - split; [reflexivity|]. intros [|[|j]] inst Hj Hl; [lia | | discriminate].
    injection Hl as <-. reflexivity.
  - reflexivity.
  - reflexivity.
  - left. split; reflexivity.
  - reflexivity.
  - exists d'. split; [exact H|]. split; [exact HS | exact HT].
Defined.

(** Witness of [poll_retries_start_without_bound]: three polls on a bus
    that refuses every request, with the header of a write sent. *)
Lemma poll_retries_start_without_bound_witness :
  exists d',
    run reference_Map reference_HANDLERS reference_PROVIDER reference_PERIOD_MS
      refusing_respond [Call_Handler; Call_Handler; Call_Handler] header_sent_driver
      = Some ([0; 0; 0], d') /\
    ExternalFlash_Instance_Store d' = ExternalFlash_Instance_Store header_sent_driver /\
    trace d' =
      trace header_sent_driver ++
      [COMMBUS__STARTTRANSACTION 0 0; COMMBUS__STARTTRANSACTION 0 0;
       COMMBUS__STARTTRANSACTION 0 0].
Proof.
  destruct (poll_retries_start_without_bound reference_Map reference_HANDLERS
              reference_PROVIDER reference_PERIOD_MS refusing_respond header_sent_driver 0
              (busy_instance EXTERNAL_FLASH_STATE_SEND_WRITE_HEADER NVDATA_PROCESS_WRITE
                 496 300 0) reference_entry_0 3)
    as (d' & H & HS & _ & HT).
  - split; [reflexivity|]. intros [|[|j]] inst Hj Hl; [lia | | discriminate].
    injection Hl as <-. reflexivity.
  - reflexivity.
  - reflexivity.
  - reflexivity.
  - reflexivity.
  - right. intros t. discriminate.
  - exists d'. split; [exact H|]. split; [exact HS | exact HT].
Defined.

(** Witness of [poll_without_stop_function_is_undefined]: the completing
    poll of the 16-byte read with a provider that has no stop function. *)
Lemma poll_without_stop_function_is_undefined_witness :
  ExternalFlash_Handler reference_Map HANDLERS_without_stop reference_PROVIDER
    reference_respond read_done_driver = None.
Proof.
  apply (poll_without_stop_function_is_undefined reference_Map HANDLERS_without_stop
           reference_PROVIDER reference_respond read_done_driver 0
           (busy_instance EXTERNAL_FLASH_STATE_READ NVDATA_PROCESS_READ 0 16 8)
           reference_entry_0).
  - reflexivity.
  - reflexivity.
  - left. split; reflexivity.
  - reflexivity.
Defined.

(** Witness of [bus_function_arms_timeout_once]: [WriteData] of 16 bytes
    with the timer free, and [ReadData] with the timer allocated. *)
Lemma bus_function_arms_timeout_once_witness :
  (exists d',
     WriteData reference_Map reference_HANDLERS reference_respond 0 16 idle_driver
       = Some (true, d') /\
     ExternalFlash_Timeout_Handle d' = 0 /\
     trace d' = [COMMBUS__WRITE 0 0 (ClientBuffer 0) 16; SystemTimers__AllocateHandle;
                 SYS_ASSERT true; SystemTimers__SetMs 0 50]) /\
  (exists d',
     ReadData reference_Map reference_HANDLERS reference_respond 0 write_pending_driver
       = Some (true, d') /\
     ExternalFlash_Timeout_Handle d' = 0 /\
     trace d' = trace write_pending_driver ++ [COMMBUS__READ 0 0 1000 16]).
Proof.
  split.
  - destruct (bus_function_arms_timeout_once reference_Map reference_HANDLERS
                reference_respond (Write_Data 16) idle_driver 0 (idle_instance 0)
                reference_entry_0 eq_refl eq_refl) as (r & d' & H & -> & _ & HH & HT).
    exists d'. split; [exact H|]. split; [exact HH | exact HT].
  - destruct (bus_function_arms_timeout_once reference_Map reference_HANDLERS
                reference_respond Read_Data write_pending_driver 0
                (busy_instance EXTERNAL_FLASH_STATE_SEND_WRITE_HEADER
                   NVDATA_PROCESS_WAIT_WRITE 0 16 0)
                reference_entry_0 eq_refl eq_refl) as (r & d' & H & -> & _ & HH & HT).
    exists d'. split; [exact H|]. split; [exact HH | exact HT].
Defined.

(** Witness of [SendCommand_always_returns_TRUE]: the command 0xD7 on a
    bus that refuses every request. *)
Lemma SendCommand_always_returns_TRUE_witness :
  exists d' t,
    SendCommand reference_Map reference_HANDLERS refusing_respond 0 0xD7 idle_driver
      = Some (true, d') /\
    trace d' = [COMMBUS__WRITE 0 0 (HeaderBytes [0xD7]) 1] ++ t.
Proof.
  destruct (SendCommand_always_returns_TRUE reference_Map reference_HANDLERS
              refusing_respond idle_driver 0 (idle_instance 0) reference_entry_0 0xD7
              eq_refl eq_refl) as (d' & t & H & _ & HT & _).
  exists d', t. split; [exact H | exact HT].
Defined.

(** Witness of [ReadStatusRegister_reads_no_byte]: the status register at
    address 2000. *)
Lemma ReadStatusRegister_reads_no_byte_witness :
  exists r d' t,
    ReadStatusRegister reference_Map reference_HANDLERS reference_respond 2000 0 idle_driver
      = Some (r, d') /\
    trace d' = [COMMBUS__READ 0 0 2000 0] ++ t.
Proof.
  destruct (ReadStatusRegister_reads_no_byte reference_Map reference_HANDLERS
              reference_respond 2000 idle_driver 0 (idle_instance 0) reference_entry_0
              eq_refl eq_refl) as (r & d' & t & H & _ & _ & HT & _).
  exists r, d', t. split; [exact H | exact HT].
Defined.

(** Witness of [Read_completes_after_two_events]: [Read (0, 1000, 0, 16)]
    with a header event of 5 bytes and a payload event of 16 bytes. *)
Lemma Read_completes_after_two_events_witness :
  exists d' t,
    run reference_Map reference_HANDLERS reference_PROVIDER reference_PERIOD_MS
      reference_respond
      [Call_Read 0 1000 0 16; Call_CommBusEvent (bus_event 0 0 4 5); Call_Handler;
       Call_CommBusEvent (bus_event 0 0 2 16); Call_Handler] idle_driver
      = Some ([FALSE; 0; 0; 0; 0], d') /\
    ExternalFlash_Instance_Store d' =
      [busy_instance EXTERNAL_FLASH_STATE_IDLE NVDATA_PROCESS_NONE 0 16 21; idle_instance 1] /\
    trace d' = t /\
    notifications t =
      [({| Generic_Provider_Id := reference_PROVIDER; Source_Instance_Id := 0;
           Event_Value := COMBINE_BYTES 2 16 |}, 0)] /\
    payload_reads t = [(1000, 16)].
Proof.
  destruct (Read_completes_after_two_events reference_Map reference_HANDLERS
              reference_PROVIDER reference_PERIOD_MS reference_respond idle_driver 0
              (idle_instance 0) reference_entry_0 1000 0 16
              (bus_event 0 0 4 5) (bus_event 0 0 2 16))
    as (d' & t & H & HS & _ & HT & Hn & Hr).
  - split; [reflexivity|]. intros [|[|j]] inst Hj Hl; [lia | | discriminate].
    injection Hl as <-. reflexivity.
  - reflexivity.
  - reflexivity.
  - reflexivity.
  - reflexivity.
  - reflexivity.
  - reflexivity.
  - split; reflexivity.
  - split; reflexivity.
  - exists d', t. split; [exact H|]. split; [exact HS|]. split; [exact HT|].
    split; [exact Hn | exact Hr].
Defined.

(** Witness of [Write_after_two_events]: [Write (0, 1000, 0, 16)] with a
    header event of 4 bytes and a payload event of 12 bytes. *)
Lemma Write_after_two_events_witness :
  exists d' t,
    run reference_Map reference_HANDLERS reference_PROVIDER reference_PERIOD_MS
      reference_respond
      [Call_Write 0 1000 0 16; Call_CommBusEvent (bus_event 0 0 4 4); Call_Handler;
       Call_CommBusEvent (bus_event 0 0 4 12); Call_Handler] idle_driver
      = Some ([TRUE; 0; 0; 0; 0], d') /\
    trace d' = t /\
    payload_writes t = [(1004, 12)] /\
    ExternalFlash_Instance_Store d' =
      [busy_instance EXTERNAL_FLASH_STATE_IDLE NVDATA_PROCESS_NONE 0 16 16; idle_instance 1] /\
    notifications t =
      [({| Generic_Provider_Id := reference_PROVIDER; Source_Instance_Id := 0;
           Event_Value := COMBINE_BYTES 4 16 |}, 0)].
Proof.
  destruct (Write_after_two_events reference_Map reference_HANDLERS
              reference_PROVIDER reference_PERIOD_MS reference_respond idle_driver 0
              (idle_instance 0) reference_entry_0 1000 0 16
              (bus_event 0 0 4 4) (bus_event 0 0 4 12))
    as (d' & t & H & HT & Hw & Hfinal).
  - split; [reflexivity|]. intros [|[|j]] inst Hj Hl; [lia | | discriminate].
    injection Hl as <-. reflexivity.
  - reflexivity.
  - reflexivity.
  - reflexivity.
  - split; [reflexivity|]. intros t. reflexivity.
  - reflexivity.
  - split; reflexivity.
  - split; reflexivity.
  - destruct Hfinal as [HS Hn].
    exists d', t. split; [exact H|]. split; [exact HT|]. split; [exact Hw|].
    split; [exact HS | exact Hn].
Defined.

(** Witness of [entry_points_stay_within_tables]: from the boot driver,
    with a [Read] on an instance id beyond the table. *)
Lemma entry_points_stay_within_tables_witness :
  exists rs d',
    run reference_Map reference_HANDLERS reference_PROVIDER reference_PERIOD_MS
      reference_respond
      [Call_Initialize; Call_Read 7 1000 0 16; Call_GetAllocation 9 0 0; Call_Handler]
      boot_driver = Some (rs, d') /\
    length (ExternalFlash_Instance_Store d') = 2%nat.
Proof.
  destruct (entry_points_stay_within_tables reference_Map reference_HANDLERS reference_PROVIDER
              reference_PERIOD_MS reference_respond
              [Call_Initialize; Call_Read 7 1000 0 16; Call_GetAllocation 9 0 0; Call_Handler]
              boot_driver)
    as (rs & d' & H & Hl & _).
  - intros i cfg _. reflexivity.
  - reflexivity.
  - exists rs, d'. split; [exact H | exact Hl].
Defined.

(** Witness of [guard_is_per_instance]: a write on instance 0 and a read
    on instance 1, both on provider 0. *)
Lemma guard_is_per_instance_witness :
  exists d' inst0 inst1,
    run reference_Map reference_HANDLERS reference_PROVIDER reference_PERIOD_MS
      reference_respond [Call_Write 0 1000 0 16; Call_Read 1 2000 0 8] idle_driver
      = Some ([TRUE; FALSE], d') /\
    ExternalFlash_Instance_Store d' !! 0%nat = Some inst0 /\
    ExternalFlash_Instance_Store d' !! 1%nat = Some inst1 /\
    NVM_State inst0 = EXTERNAL_FLASH_STATE_SEND_WRITE_HEADER /\
    NVM_State inst1 = EXTERNAL_FLASH_STATE_SEND_READ_HEADER.
Proof.
  destruct (guard_is_per_instance reference_Map reference_HANDLERS reference_PROVIDER
              reference_PERIOD_MS reference_respond idle_driver 0 1
              (idle_instance 0) (idle_instance 1) reference_entry_0 reference_entry_1
              1000 0 16 2000 0 8)
    as (d' & H & H0 & H1 & _).
  - lia.
  - reflexivity.
  - reflexivity.
  - reflexivity.
  - reflexivity.
  - reflexivity.
  - reflexivity.
  - split; [reflexivity|]. intros t. reflexivity.
  - split; [reflexivity|]. intros t. reflexivity.
  - eexists d', _, _. split; [exact H|]. split; [exact H0|]. split; [exact H1|].
    split; reflexivity.
Defined.

Lemma short_write_driver_reached :
  run reference_Map reference_HANDLERS reference_PROVIDER reference_PERIOD_MS reference_respond
    [Call_Write 0 1000 0 2; Call_CommBusEvent (bus_event 0 0 4 4)] idle_driver
  = Some ([TRUE; 0], short_write_driver).
Proof. vm_compute. reflexivity. Qed.

(** Witness of [poll_writes_past_a_short_request]: the poll after the
    header event of a 2-byte write, with 4 bytes reported: 252 bytes are
    written from address 1004. *)
Lemma poll_writes_past_a_short_request_witness :
  exists d' t,
    ExternalFlash_Handler reference_Map reference_HANDLERS reference_PROVIDER
      reference_respond short_write_driver = Some (tt, d') /\
    trace d' =
      trace short_write_driver ++
      COMMBUS__STARTTRANSACTION 0 0 :: COMMBUS__WRITE 0 0 (ClientBuffer 1004) 252 :: t.
Proof.
  destruct (poll_writes_past_a_short_request reference_Map reference_HANDLERS
              reference_PROVIDER reference_respond short_write_driver 0
              (busy_instance EXTERNAL_FLASH_STATE_SEND_WRITE_HEADER NVDATA_PROCESS_WRITE
                 0 2 4) reference_entry_0)
    as (d' & chunk & t & H & HT & _ & Hchunk & _).
  - split; [reflexivity|]. intros [|[|j]] inst Hj Hl; [lia | | discriminate].
    injection Hl as <-. reflexivity.
  - reflexivity.
  - reflexivity.
  - reflexivity.
  - reflexivity.
  - reflexivity.
  - reflexivity.
  - reflexivity.
  - cbn. lia.
  - exists d', t. split; [exact H|]. rewrite HT, Hchunk. reflexivity.
Defined.

(** Witness of [Write_without_transaction_leaves_mirror]: a write on a
    bus that refuses every request. *)
Lemma Write_without_transaction_leaves_mirror_witness :
  exists d',
    ExternalFlash__Write reference_Map reference_HANDLERS refusing_respond 0 1000 0 16
      idle_driver = Some (false, d') /\
    ExternalFlash_Instance_Store d' = ExternalFlash_Instance_Store idle_driver /\
    trace d' = [COMMBUS__STARTTRANSACTION 0 0].
Proof.
  destruct (Write_without_transaction_leaves_mirror reference_Map reference_HANDLERS
              refusing_respond idle_driver 0 (idle_instance 0) reference_entry_0 1000 0 16)
    as (d' & H & HS & _ & HT & _).
  - reflexivity.
  - reflexivity.
  - reflexivity.
  - right. discriminate.
  - exists d'. split; [exact H|]. split; [exact HS | exact HT].
Defined.

(** Witness of [announced_process_is_ignored]: the pending write header
    is completed by an event that announces process 2 as by one that
    announces process 4. *)
Lemma announced_process_is_ignored_witness :
  CommBusEventHandler reference_Map reference_respond (bus_event 0 0 2 4) write_pending_driver
  = CommBusEventHandler reference_Map reference_respond (bus_event 0 0 4 4)
      write_pending_driver /\
  exists d' inst',
    CommBusEventHandler reference_Map reference_respond (bus_event 0 0 2 4)
      write_pending_driver = Some (tt, d') /\
    ExternalFlash_Instance_Store d' !! 0%nat = Some inst' /\
    NVM_Current_Process inst' = NVDATA_PROCESS_WRITE.
Proof.
  split.
  - apply (announced_process_is_ignored reference_Map reference_respond
             (bus_event 0 0 2 4) (bus_event 0 0 4 4) write_pending_driver).
    split; [reflexivity|]. split; reflexivity.
  - eexists _, _. split; [vm_compute; reflexivity|]. split; reflexivity.
Defined.

